(** * Financial tracking ML service: data sufficiency, budgets, forecast
      fallback, goal prediction and degraded insights.

    Shallow embedding of [ml-service/database/data_fetcher.py] and of the
    services under [ml-service/services/].

    Conventions of the embedding:
    - a pandas [DataFrame] of transactions is the list of its rows;
    - a [Timestamp] is the number of nanoseconds since the epoch (pandas
      [datetime64[ns]]), a [Timedelta] a difference of two of them;
    - Python floats are exact rationals ([Q]); where the code itself produces
      [float('inf')] or pandas produces [NaN], the extended type [pyfloat] is
      used;
    - a Python exception is the [Raise] constructor of [result];
    - the external capabilities (square root inside [Series.std], the Prophet
      fit, the Gemini call, [datetime.strptime]) are Section variables. *)

From Stdlib Require Import ZArith QArith Qround Qabs List Bool Lia Lqa.
From Stdlib Require Import Strings.String Strings.Ascii Numbers.DecimalString.
Import ListNotations.

Open Scope Z_scope.

(* ------------------------------------------------------------------ *)
(** ** Python runtime: exceptions, numbers, text *)

Module Py.

Inductive exn : Type :=
| KeyError (key : string)
| ZeroDivisionError
| ValueError (msg : string)
| RemoteError (msg : string).

Inductive result (A : Type) : Type :=
| Ok (a : A)
| Raise (e : exn).
Arguments Ok {A} a.
Arguments Raise {A} e.

Definition bind {A B} (m : result A) (k : A -> result B) : result B :=
  match m with
  | Ok a => k a
  | Raise e => Raise e
  end.

(** [str(e)] *)
Definition str_exn (e : exn) : string :=
  match e with
  | KeyError key => ("'" ++ key ++ "'")%string
  | ZeroDivisionError => "float division by zero"
  | ValueError msg => msg
  | RemoteError msg => msg
  end.

Definition returns {A} (m : result A) : bool :=
  match m with Ok _ => true | Raise _ => false end.

(** [str(n)] for a Python int. *)
Definition str_int (n : Z) : string := NilZero.string_of_int (Z.to_int n).

(** [sub in s] *)
Definition contains (s sub : string) : Prop :=
  exists pre post : string, s = (pre ++ sub ++ post)%string.

(** Round half to even, the rule of Python's [round]. *)
Definition round_half_even (x : Q) : Z :=
  let f := Qfloor x in
  match ((x - inject_Z f) ?= (1 # 2))%Q with
  | Lt => f
  | Gt => f + 1
  | Eq => if Z.even f then f else f + 1
  end.

(** [round(x, 2)] *)
Definition round2 (x : Q) : Q := round_half_even (x * 100) # 100.

(** [round(x, 1)] *)
Definition round1 (x : Q) : Q := round_half_even (x * 10) # 10.

(** [x < y] on floats, as a boolean. *)
Definition Qltb (x y : Q) : bool := negb (Qle_bool y x).

(** [max(0, x)]: Python's [max] keeps its first argument unless a later one
    is strictly greater. *)
Definition max0 (x : Q) : Q := if Qltb 0 x then x else 0%Q.

(** [sum(xs)] and [np.mean(xs)] / [Series.mean()] over a non-empty series. *)
Definition Qsum (xs : list Q) : Q := fold_right Qplus 0%Q xs.

Definition mean (xs : list Q) : Q := (Qsum xs / inject_Z (Z.of_nat (List.length xs)))%Q.

(** Floats that can be infinite or NaN.  Arithmetic follows IEEE 754 on the
    special values and is exact on finite ones. *)
Inductive pyfloat : Type :=
| Fin (q : Q)
| PInf
| NInf
| NaN.

Definition fneg (x : pyfloat) : pyfloat :=
  match x with
  | Fin q => Fin (- q)
  | PInf => NInf
  | NInf => PInf
  | NaN => NaN
  end.

Definition fadd (x y : pyfloat) : pyfloat :=
  match x, y with
  | NaN, _ | _, NaN => NaN
  | Fin a, Fin b => Fin (a + b)
  | PInf, NInf | NInf, PInf => NaN
  | PInf, _ | _, PInf => PInf
  | NInf, _ | _, NInf => NInf
  end.

Definition fsub (x y : pyfloat) : pyfloat := fadd x (fneg y).

(** Sign of an infinite product or quotient. *)
Definition signed_inf (positive : bool) : pyfloat := if positive then PInf else NInf.

Definition fmul (x y : pyfloat) : pyfloat :=
  match x, y with
  | NaN, _ | _, NaN => NaN
  | Fin a, Fin b => Fin (a * b)
  | Fin a, PInf | PInf, Fin a =>
      if Qeq_bool a 0 then NaN else signed_inf (Qltb 0 a)
  | Fin a, NInf | NInf, Fin a =>
      if Qeq_bool a 0 then NaN else signed_inf (Qltb a 0)
  | PInf, PInf | NInf, NInf => PInf
  | PInf, NInf | NInf, PInf => NInf
  end.

(** [x / y] on Python floats: a zero divisor raises. *)
Definition fdiv (x y : pyfloat) : result pyfloat :=
  match x, y with
  | NaN, Fin b => if Qeq_bool b 0 then Raise ZeroDivisionError else Ok NaN
  | NaN, _ | _, NaN => Ok NaN
  | Fin a, Fin b => if Qeq_bool b 0 then Raise ZeroDivisionError else Ok (Fin (a / b))
  | Fin _, PInf | Fin _, NInf => Ok (Fin 0)
  | PInf, Fin b => if Qeq_bool b 0 then Raise ZeroDivisionError else Ok (signed_inf (Qltb 0 b))
  | NInf, Fin b => if Qeq_bool b 0 then Raise ZeroDivisionError else Ok (signed_inf (Qltb b 0))
  | _, _ => Ok NaN
  end.

(** [x < y]: false as soon as one side is NaN. *)
Definition flt (x y : pyfloat) : bool :=
  match x, y with
  | NaN, _ | _, NaN => false
  | Fin a, Fin b => Qltb a b
  | NInf, NInf | PInf, _ => false
  | NInf, _ => true
  | Fin _, PInf => true
  | Fin _, NInf => false
  end.

Definition fle (x y : pyfloat) : bool :=
  match x, y with
  | NaN, _ | _, NaN => false
  | Fin a, Fin b => Qle_bool a b
  | NInf, _ | _, PInf => true
  | PInf, _ | _, NInf => false
  end.

(** [min(a, b)] and [max(a, b)]: the first argument is kept unless the
    second compares strictly better. *)
Definition fmin (a b : pyfloat) : pyfloat := if flt b a then b else a.
Definition fmax (a b : pyfloat) : pyfloat := if flt a b then b else a.

(** [round(x, 2)] leaves the special values alone. *)
Definition fround2 (x : pyfloat) : pyfloat :=
  match x with Fin q => Fin (round2 q) | _ => x end.

(** [Series.mean()]: NaN on an empty series. *)
Definition series_mean (xs : list Q) : pyfloat :=
  match xs with [] => NaN | _ => Fin (mean xs) end.

(** Sample variance (ddof = 1), the quantity under the root of
    [Series.std()]. *)
Definition variance (xs : list Q) : Q :=
  let m := mean xs in
  (Qsum (map (fun x => (x - m) * (x - m)) xs)
   / inject_Z (Z.of_nat (List.length xs) - 1))%Q.

(** Digits of a non-negative integer, left-padded with zeros to [width]. *)
Fixpoint zero_pad (width : nat) (s : string) : string :=
  match width with
  | O => s
  | S w => if Nat.leb (S w) (String.length s) then s else zero_pad w ("0" ++ s)%string
  end.

(** Sign printed by a float format: ["-"] for negative values, ["+"] for the
    others when the format asks for it. *)
Definition sign_text (plus negative : bool) : string :=
  if negative then "-" else if plus then "+" else "".

(** [format(x, '.{digits}f')] and, with [plus], [format(x, '+.{digits}f')]. *)
Definition format_fixed (digits : nat) (plus : bool) (x : Q) : string :=
  let scale := Z.pow 10 (Z.of_nat digits) in
  let scaled := round_half_even (Qabs x * inject_Z scale) in
  let whole := str_int (scaled / scale) in
  let frac := zero_pad digits (str_int (scaled mod scale)) in
  (sign_text plus (Qltb x 0) ++ whole
   ++ match digits with O => "" | _ => "." ++ frac end)%string.

Definition format_float (digits : nat) (plus : bool) (x : pyfloat) : string :=
  match x with
  | Fin q => format_fixed digits plus q
  | PInf => (sign_text plus false ++ "inf")%string
  | NInf => "-inf"
  | NaN => (sign_text plus false ++ "nan")%string
  end.

(** [abs(x)] *)
Definition fabs (x : pyfloat) : pyfloat :=
  match x with
  | Fin q => Fin (Qabs q)
  | NInf => PInf
  | _ => x
  end.

(** Division of NumPy scalars: no exception, IEEE results. *)
Definition npdiv (x y : pyfloat) : pyfloat :=
  match fdiv x y with
  | Ok r => r
  | Raise _ =>
      match x with
      | Fin a => if Qeq_bool a 0 then NaN else signed_inf (Qltb 0 a)
      | NaN => NaN
      | inf => inf
      end
  end.

(** [Series.std()] with the square root [sqrt]: NaN below two
    observations. *)
Definition series_std (sqrt : Q -> Q) (xs : list Q) : pyfloat :=
  if Nat.ltb (List.length xs) 2 then NaN else Fin (sqrt (variance xs)).

(** [str.capitalize()] on ASCII text: first character upper case, the
    others lower case. *)
Definition to_upper (c : ascii) : ascii :=
  let n := nat_of_ascii c in
  if Nat.leb 97 n && Nat.leb n 122 then ascii_of_nat (n - 32) else c.

Definition to_lower (c : ascii) : ascii :=
  let n := nat_of_ascii c in
  if Nat.leb 65 n && Nat.leb n 90 then ascii_of_nat (n + 32) else c.

Fixpoint lower (s : string) : string :=
  match s with
  | EmptyString => EmptyString
  | String c r => String (to_lower c) (lower r)
  end.

Definition capitalize (s : string) : string :=
  match s with
  | EmptyString => EmptyString
  | String c r => String (to_upper c) (lower r)
  end.

End Py.

Notation "x <- m ;; k" := (Py.bind m (fun x => k))
  (at level 61, m at next level, right associativity).

(* ------------------------------------------------------------------ *)
(** ** Calendar: [datetime], months, [strftime] *)

Module Calendar.

(** The fields of a [datetime] that the service reads. *)
Record datetime : Type := { year : Z; month : Z; day : Z }.

(** Proleptic Gregorian date of a day number (days since 1970-01-01). *)
Definition civil_from_days (z : Z) : datetime :=
  let z := z + 719468 in
  let era := z / 146097 in
  let doe := z - era * 146097 in
  let yoe := (doe - doe / 1460 + doe / 36524 - doe / 146096) / 365 in
  let doy := doe - (365 * yoe + yoe / 4 - yoe / 100) in
  let mp := (5 * doy + 2) / 153 in
  let d := doy - (153 * mp + 2) / 5 + 1 in
  let m := if mp <? 10 then mp + 3 else mp - 9 in
  {| year := yoe + era * 400 + (if m <=? 2 then 1 else 0); month := m; day := d |}.

(** The calendar month of a day number, as a month count. *)
Definition month_index (days : Z) : Z :=
  let d := civil_from_days days in
  year d * 12 + (month d - 1).

(** [d.strftime('%Y-%m-%d')] *)
Definition strftime (d : datetime) : string :=
  (Py.zero_pad 4 (Py.str_int (year d)) ++ "-"
   ++ Py.zero_pad 2 (Py.str_int (month d)) ++ "-"
   ++ Py.zero_pad 2 (Py.str_int (day d)))%string.

(** [Series.unique()]: first occurrences, in order of appearance. *)
Fixpoint unique_from (seen l : list Z) : list Z :=
  match l with
  | [] => []
  | x :: r => if existsb (Z.eqb x) seen then unique_from seen r
              else x :: unique_from (x :: seen) r
  end.

Definition unique (l : list Z) : list Z := unique_from [] l.

Definition is_leap (y : Z) : bool :=
  ((y mod 4 =? 0) && negb (y mod 100 =? 0)) || (y mod 400 =? 0).

Definition days_in_month (y m : Z) : Z :=
  if m =? 2 then (if is_leap y then 29 else 28)
  else if (m =? 4) || (m =? 6) || (m =? 9) || (m =? 11) then 30
  else 31.

(** [d + relativedelta(months=n)] *)
Definition add_months (d : datetime) (n : Z) : datetime :=
  let t := year d * 12 + (month d - 1) + n in
  let y' := t / 12 in
  let m' := t mod 12 + 1 in
  {| year := y'; month := m'; day := Z.min (day d) (days_in_month y' m') |}.

End Calendar.

(* ------------------------------------------------------------------ *)
(** ** database/data_fetcher.py *)

Module DataFetcher.
Import Py.

Record Transaction : Type := {
  date : Z;            (* Timestamp, nanoseconds since the epoch *)
  amount : Q;
  type : string;       (* "income" / "expense" *)
  category : string;
  description : string
}.

Definition DataFrame : Type := list Transaction.

(** [df.empty] *)
Definition empty (df : DataFrame) : bool :=
  match df with [] => true | _ => false end.

(** [df['date'].max()], [df['date'].min()].  The frame built by
    [get_user_transactions] for a user without transactions is
    [pd.DataFrame()], which has no column at all: selecting one raises. *)
Definition date_max (df : DataFrame) : result Z :=
  match df with
  | [] => Raise (KeyError "date")
  | r :: rest => Ok (fold_left Z.max (map date rest) (date r))
  end.

Definition date_min (df : DataFrame) : result Z :=
  match df with
  | [] => Raise (KeyError "date")
  | r :: rest => Ok (fold_left Z.min (map date rest) (date r))
  end.

Definition ns_per_day : Z := 86400 * 1000000000.

(** [Timedelta.days] *)
Definition days (delta : Z) : Z := delta / ns_per_day.

(** [ts.date()], as a day number, and [ts.to_period('M')], as a month
    count. *)
Definition day_number (ts : Z) : Z := ts / ns_per_day.

Definition period_M (t : Transaction) : Z := Calendar.month_index (day_number (date t)).

(** [ts.strftime('%Y-%m-%d')] *)
Definition strftime (ts : Z) : string :=
  Calendar.strftime (Calendar.civil_from_days (day_number ts)).

(** [df[df['type'] == 'expense']] *)
Definition is_expense (r : Transaction) : bool := String.eqb (type r) "expense".

Definition expenses_of (df : DataFrame) : DataFrame := filter is_expense df.

Record SufficiencyVerdict : Type := {
  sufficient : bool;
  reason : string;
  days_of_data : Z;
  total_transactions : Z;
  expense_transactions : Z;
  oldest_transaction : option string;
  newest_transaction : option string
}.

Definition reason_days (date_range min_days : Z) : string :=
  ("Data spans only " ++ str_int date_range ++ " days (need " ++ str_int min_days ++ "+)")%string.

Definition reason_transactions (total min_transactions : Z) : string :=
  ("Only " ++ str_int total ++ " transactions (need " ++ str_int min_transactions ++ "+)")%string.

Definition reason_expenses (n min_expenses : Z) : string :=
  ("Only " ++ str_int n ++ " expense transactions (need " ++ str_int min_expenses ++ "+)")%string.

Definition check_data_sufficiency
    (df : DataFrame) (min_days min_transactions min_expenses : Z)
  : result SufficiencyVerdict :=
  if empty df then
    Ok {| sufficient := false;
          reason := "No transaction data found";
          days_of_data := 0;
          total_transactions := 0;
          expense_transactions := 0;
          oldest_transaction := None;
          newest_transaction := None |}
  else
    hi <- date_max df ;;
    lo <- date_min df ;;
    let date_range := days (hi - lo) + 1 in
    let total := Z.of_nat (List.length df) in
    let nexp := Z.of_nat (List.length (expenses_of df)) in
    let has_enough_days := min_days <=? date_range in
    let has_enough_transactions := min_transactions <=? total in
    let has_enough_expenses := min_expenses <=? nexp in
    let reasons :=
      (if has_enough_days then [] else [reason_days date_range min_days]) ++
      (if has_enough_transactions then [] else [reason_transactions total min_transactions]) ++
      (if has_enough_expenses then [] else [reason_expenses nexp min_expenses]) in
    Ok {| sufficient := has_enough_days && has_enough_transactions && has_enough_expenses;
          reason := match reasons with
                    | [] => "Data is sufficient"
                    | _ => String.concat "; " reasons
                    end;
          days_of_data := date_range;
          total_transactions := total;
          expense_transactions := nexp;
          oldest_transaction := Some (strftime lo);
          newest_transaction := Some (strftime hi) |}.

(** The three measured quantities of the verdict. *)
Definition days_spanned (df : DataFrame) : Z :=
  match date_max df, date_min df with
  | Ok hi, Ok lo => days (hi - lo) + 1
  | _, _ => 0
  end.

Definition total_count (df : DataFrame) : Z := Z.of_nat (List.length df).

Definition expense_count (df : DataFrame) : Z := Z.of_nat (List.length (expenses_of df)).

End DataFetcher.

(* ------------------------------------------------------------------ *)
(** ** services/budget_service.py *)

Module BudgetService.
Import Py.

Inductive Trend : Type := stable | increasing | decreasing.

Inductive Priority : Type := high | medium | low.

(** One value of the dictionary built by [analyze_spending_patterns]. *)
Record CategoryStats : Type := {
  total : Q;
  mean : Q;
  median : Q;
  std : pyfloat;
  min : Q;
  max : Q;
  count : Z;
  monthly_avg : Q;
  monthly_std : Q;
  trend : Trend
}.

(** The dictionary itself, in insertion order. *)
Definition Patterns : Type := list (string * CategoryStats).

Definition first_half (values : list Q) : list Q :=
  firstn (Nat.div (List.length values) 2) values.

Definition second_half (values : list Q) : list Q :=
  skipn (Nat.div (List.length values) 2) values.

Definition _calculate_trend (monthly_data : list Q) : Trend :=
  if Nat.ltb (List.length monthly_data) 2 then stable
  else
    let first_half_avg := Py.mean (first_half monthly_data) in
    let second_half_avg := Py.mean (second_half monthly_data) in
    if Qeq_bool first_half_avg 0 then
      if Qltb 0 second_half_avg then increasing else stable
    else
      let change_pct := ((second_half_avg - first_half_avg) / first_half_avg * 100)%Q in
      if Qltb 15 change_pct then increasing
      else if Qltb change_pct (-15) then decreasing
      else stable.

(** Ascending sort of a series of amounts, for the median. *)
Fixpoint insert_asc (x : Q) (l : list Q) : list Q :=
  match l with
  | [] => [x]
  | v :: l' => if Qle_bool x v then x :: l else v :: insert_asc x l'
  end.

Definition sort_asc (l : list Q) : list Q := fold_right insert_asc [] l.

(** [Series.median()] *)
Definition series_median (xs : list Q) : Q :=
  let sorted := sort_asc xs in
  let n := List.length sorted in
  if Nat.even n
  then ((nth (Nat.div n 2 - 1) sorted 0 + nth (Nat.div n 2) sorted 0) / 2)%Q
  else nth (Nat.div n 2) sorted 0%Q.

Definition qmin (a b : Q) : Q := if Qle_bool a b then a else b.
Definition qmax (a b : Q) : Q := if Qle_bool a b then b else a.

(** [Series.min()], [Series.max()] of a non-empty series. *)
Definition series_min (xs : list Q) : Q := fold_left qmin (tl xs) (hd 0%Q xs).
Definition series_max (xs : list Q) : Q := fold_left qmax (tl xs) (hd 0%Q xs).

(** The group keys of [groupby('month')]: the months present, ascending. *)
Fixpoint insert_month (m : Z) (l : list Z) : list Z :=
  match l with
  | [] => [m]
  | x :: l' => if m <=? x then m :: l else x :: insert_month m l'
  end.

Definition months_present (cat_data : DataFetcher.DataFrame) : list Z :=
  fold_right insert_month [] (Calendar.unique (map DataFetcher.period_M cat_data)).

(** [cat_data.groupby('month')['amount'].sum()] *)
Definition monthly_spending (cat_data : DataFetcher.DataFrame) : list Q :=
  map (fun m =>
         Qsum (map DataFetcher.amount
                   (filter (fun t => DataFetcher.period_M t =? m) cat_data)))
      (months_present cat_data).

(** [expenses['category'].unique()] *)
Fixpoint unique_names_from (seen l : list string) : list string :=
  match l with
  | [] => []
  | x :: r => if existsb (String.eqb x) seen then unique_names_from seen r
              else x :: unique_names_from (x :: seen) r
  end.

Definition unique_names (l : list string) : list string := unique_names_from [] l.

(** The table of [recommend_budgets]. *)
Definition conservative_multipliers (t : Trend) : Q :=
  match t with stable => 1.0 | increasing => 1.15 | decreasing => 0.90 end%Q.

Definition balanced_multipliers (t : Trend) : Q :=
  match t with stable => 1.10 | increasing => 1.25 | decreasing => 1.0 end%Q.

Definition flexible_multipliers (t : Trend) : Q :=
  match t with stable => 1.20 | increasing => 1.35 | decreasing => 1.10 end%Q.

(** [multipliers.get(approach, multipliers["balanced"])] *)
Definition selected_multipliers (approach : string) : Trend -> Q :=
  if String.eqb approach "conservative" then conservative_multipliers
  else if String.eqb approach "balanced" then balanced_multipliers
  else if String.eqb approach "flexible" then flexible_multipliers
  else balanced_multipliers.

Definition _calculate_priority (stats : CategoryStats) : Priority :=
  let variability :=
    if Qltb 0 (monthly_avg stats)
    then (monthly_std stats / monthly_avg stats)%Q else 0%Q in
  if Qltb 500 (monthly_avg stats) || Qltb 0.5 variability then high
  else if Qltb 200 (monthly_avg stats) || Qltb 0.3 variability then medium
  else low.

Definition _generate_justification
    (stats : CategoryStats) (recommended : Q) (approach : string) (t : Trend) : string :=
  let base := monthly_avg stats in
  let increase_pct :=
    if Qltb 0 base then ((recommended - base) / base * 100)%Q else 0%Q in
  let justifications :=
    [match t with
     | increasing => "Spending in this category is increasing"
     | decreasing => "Spending in this category is decreasing"
     | stable => "Spending in this category is stable"
     end%string]
    ++ (if Qltb (monthly_avg stats * 0.3) (monthly_std stats)
        then ["includes buffer for high variability"%string] else [])
    ++ (if String.eqb approach "conservative" then ["conservative approach applied"%string]
        else if String.eqb approach "flexible" then ["flexible approach for comfort"%string]
        else [])
    ++ (if Qltb 5 increase_pct
        then [(str_int (round_half_even increase_pct) ++ "% above current average")%string]
        else if Qltb increase_pct (-5)
        then [(str_int (round_half_even (Qabs increase_pct))
               ++ "% below current average")%string]
        else []) in
  capitalize (String.concat "; " justifications).

Inductive Variability : Type := variability_high | variability_low.

Record Recommendation : Type := {
  rec_category : string;
  recommended_amount : Q;
  current_monthly_avg : Q;
  rec_trend : Trend;
  transaction_count : Z;
  variability : Variability;
  justification : string;
  rec_priority : Priority
}.


(** Body of the loop over [patterns.items()]. *)
Definition recommend_category (approach : string) (item : string * CategoryStats)
  : Recommendation :=
  let (cat, stats) := item in
  let base_amount := monthly_avg stats in
  let multiplier := selected_multipliers approach (trend stats) in
  let recommended := (base_amount * multiplier)%Q in
  let recommended :=
    if Qltb 0 (monthly_std stats)
    then (recommended + monthly_std stats * 0.5)%Q else recommended in
  let recommended := round2 recommended in
  {| rec_category := cat;
     recommended_amount := recommended;
     current_monthly_avg := round2 (monthly_avg stats);
     rec_trend := trend stats;
     transaction_count := count stats;
     variability := if Qltb (monthly_avg stats * 0.3) (monthly_std stats)
                    then variability_high else variability_low;
     justification := _generate_justification stats recommended approach (trend stats);
     rec_priority := _calculate_priority stats |}.

(** [list.sort(key=..., reverse=True)]: descending and stable. *)
Fixpoint insert_desc {A} (key : A -> Q) (x : A) (l : list A) : list A :=
  match l with
  | [] => [x]
  | v :: l' => if Qltb (key x) (key v) then v :: insert_desc key x l'
               else x :: l
  end.

Definition sort_desc {A} (key : A -> Q) (l : list A) : list A :=
  fold_right (insert_desc key) [] l.

(** An active budget of the user, as [get_user_budgets] returns it. *)
Record Budget : Type := {
  budget_category : option string;
  budget_name : option string;
  budget_amount : option Q
}.

(** [d[k] = v] and [d.get(k)] on a dictionary kept in insertion order. *)
Fixpoint dict_set (k : string) (v : Q) (d : list (string * Q)) : list (string * Q) :=
  match d with
  | [] => [(k, v)]
  | (k', v') :: r => if String.eqb k k' then (k, v) :: r else (k', v') :: dict_set k v r
  end.

Fixpoint dict_get (k : string) (d : list (string * Q)) : option Q :=
  match d with
  | [] => None
  | (k', v') :: r => if String.eqb k k' then Some v' else dict_get k r
  end.

Definition option_get {A} (o : option A) (default : A) : A :=
  match o with Some v => v | None => default end.

Definition current_map_of (current_budgets : list Budget) : list (string * Q) :=
  fold_left
    (fun current_map budget =>
       match budget_category budget with
       | Some (String _ _) =>
           dict_set (option_get (budget_name budget) "Unknown"%string)
                    (option_get (budget_amount budget) 0%Q) current_map
       | _ => current_map
       end)
    current_budgets [].

Record Change : Type := {
  change_category : string;
  change_current : Q;
  change_recommended : Q;
  difference : Q;
  change_percentage : Q
}.

Record Comparison : Type := {
  total_current_budget : Q;
  compared_recommended_budget : Q;
  overall_difference : Q;
  changes : list Change
}.

Definition _compare_with_current
    (recommendations : list Recommendation) (current_budgets : list Budget) : Comparison :=
  let current_map := current_map_of current_budgets in
  let total_current := Qsum (map snd current_map) in
  let total_recommended := Qsum (map recommended_amount recommendations) in
  let changes :=
    flat_map
      (fun r =>
         match dict_get (rec_category r) current_map with
         | Some current =>
             let diff := (recommended_amount r - current)%Q in
             let change_pct := if Qltb 0 current then (diff / current * 100)%Q else 0%Q in
             [{| change_category := rec_category r;
                 change_current := current;
                 change_recommended := recommended_amount r;
                 difference := round2 diff;
                 change_percentage := round2 change_pct |}]
         | None => []
         end)
      recommendations in
  {| total_current_budget := round2 total_current;
     compared_recommended_budget := round2 total_recommended;
     overall_difference := round2 (total_recommended - total_current);
     changes := changes |}.

Record BudgetResponse : Type := {
  success : bool;
  error : option string;
  approach_used : option string;
  recommendations : list Recommendation;
  total_recommended_budget : Q;
  comparison : option Comparison;
  analysis_period_months : option Z;
  data_info : option DataFetcher.SufficiencyVerdict
}.

Definition budget_failure (msg : string) (info : option DataFetcher.SufficiencyVerdict)
  : BudgetResponse :=
  {| success := false; error := Some msg; approach_used := None;
     recommendations := []; total_recommended_budget := 0;
     comparison := None; analysis_period_months := None; data_info := info |}.

Definition BUDGET_MIN_DAYS : Z := 30.
Definition MIN_EXPENSES : Z := 20.

Record Allocation : Type := {
  alloc_category : string;
  allocated_amount : Q;
  percentage_of_total : Q;
  alloc_priority : Priority
}.

Definition total_spending (patterns : Patterns) : Q :=
  Qsum (map (fun p => monthly_avg (snd p)) patterns).

(** First loop of [optimize_budget_allocation]. *)
Definition allocate_category (total_budget total_spent : Q) (item : string * CategoryStats)
  : Allocation :=
  let (cat, stats) := item in
  let proportion :=
    if Qltb 0 total_spent then (monthly_avg stats / total_spent)%Q else 0%Q in
  let allocated := (total_budget * proportion)%Q in
  let priority := _calculate_priority stats in
  let allocated :=
    match priority with
    | high => (allocated * 1.1)%Q
    | low => (allocated * 0.9)%Q
    | medium => allocated
    end in
  {| alloc_category := cat;
     allocated_amount := round2 allocated;
     percentage_of_total := round2 (proportion * 100);
     alloc_priority := priority |}.

Definition current_total (allocations : list Allocation) : Q :=
  Qsum (map allocated_amount allocations).

(** Second loop: every amount is scaled by the same factor and rounded. *)
Definition rescale (adjustment_factor : Q) (a : Allocation) : Allocation :=
  {| alloc_category := alloc_category a;
     allocated_amount := round2 (allocated_amount a * adjustment_factor);
     percentage_of_total := percentage_of_total a;
     alloc_priority := alloc_priority a |}.

Definition normalize (total_budget : Q) (allocations : list Allocation) : list Allocation :=
  if Qltb 0 (current_total allocations)
  then map (rescale (total_budget / current_total allocations)%Q) allocations
  else allocations.

(** The allocations of the first loop, before normalisation. *)
Definition first_pass (patterns : Patterns) (total_budget : Q) : list Allocation :=
  map (allocate_category total_budget (total_spending patterns)) patterns.

Record OptimizeResponse : Type := {
  opt_success : bool;
  opt_error : option string;
  opt_total_budget : Q;
  allocation : list Allocation;
  categories_covered : Z
}.


Section Model.

(** Square root used by [Series.std()]. *)
Variable sqrt : Q -> Q.

(** The statistics of the rows of one category. *)
Definition category_stats (cat_data : DataFetcher.DataFrame) : CategoryStats :=
  let amounts := map DataFetcher.amount cat_data in
  let monthly := monthly_spending cat_data in
  {| total := Qsum amounts;
     mean := Py.mean amounts;
     median := series_median amounts;
     std := series_std sqrt amounts;
     min := series_min amounts;
     max := series_max amounts;
     count := Z.of_nat (List.length cat_data);
     monthly_avg := if Nat.ltb 0 (List.length monthly) then Py.mean monthly else 0%Q;
     monthly_std := if Nat.ltb 1 (List.length monthly) then sqrt (variance monthly) else 0%Q;
     trend := _calculate_trend monthly |}.

Definition analyze_spending_patterns (df : DataFetcher.DataFrame) : Patterns :=
  if DataFetcher.empty df then []
  else
    let expenses := DataFetcher.expenses_of df in
    map (fun c =>
           (c, category_stats
                 (filter (fun t => String.eqb (DataFetcher.category t) c) expenses)))
        (unique_names (map DataFetcher.category expenses)).

(** [recommend_budgets], on the transactions and the active budgets of the
    user. *)
Definition recommend_budgets
    (df : DataFetcher.DataFrame) (current_budgets : list Budget) (approach : string)
  : BudgetResponse :=
  match DataFetcher.check_data_sufficiency df BUDGET_MIN_DAYS BUDGET_MIN_DAYS MIN_EXPENSES with
  | Raise e => budget_failure (str_exn e) None
  | Ok sufficiency =>
      if negb (DataFetcher.sufficient sufficiency) then
        budget_failure
          ("Insufficient data for budget recommendations: "
           ++ DataFetcher.reason sufficiency)%string
          (Some sufficiency)
      else
        let patterns := analyze_spending_patterns df in
        match patterns with
        | [] => budget_failure "Insufficient spending data for budget recommendations" None
        | _ =>
            let recs := map (recommend_category approach) patterns in
            let total_budget := fold_left (fun acc r => (acc + recommended_amount r)%Q) recs 0%Q in
            let recs := sort_desc recommended_amount recs in
            {| success := true; error := None;
               approach_used := Some approach;
               recommendations := recs;
               total_recommended_budget := round2 total_budget;
               comparison := Some (_compare_with_current recs current_budgets);
               analysis_period_months := Some 6;
               data_info := None |}
        end
  end.

Definition optimize_budget_allocation (df : DataFetcher.DataFrame) (total_budget : Q)
  : OptimizeResponse :=
  let patterns := analyze_spending_patterns df in
  match patterns with
  | [] => {| opt_success := false; opt_error := Some "Insufficient spending data"%string;
             opt_total_budget := 0; allocation := []; categories_covered := 0 |}
  | _ =>
      let allocations := first_pass patterns total_budget in
      let allocations := normalize total_budget allocations in
      let allocations := sort_desc allocated_amount allocations in
      {| opt_success := true; opt_error := None;
         opt_total_budget := total_budget;
         allocation := allocations;
         categories_covered := Z.of_nat (List.length allocations) |}
  end.

End Model.

End BudgetService.

(* ------------------------------------------------------------------ *)
(** ** services/forecast_service.py *)

Module ForecastService.
Import Py.

(** A row of the daily frame: [ds] is the calendar day (days since the
    epoch), [y] the spending of that day. *)
Record DailyRow : Type := { ds : Z; y : Q }.

(** A row of the frame predicted for the future days. *)
Record ForecastRow : Type := {
  f_ds : Z;
  yhat : Q;
  yhat_lower : Q;
  yhat_upper : Q
}.

(** An element of the ["forecast"] list of the response. *)
Record ForecastPoint : Type := {
  fp_date : string;
  predicted_spending : Q;
  lower_bound : Q;
  upper_bound : Q
}.

Record Statistics : Type := {
  historical_avg_daily : Q;
  forecast_avg_daily : pyfloat;
  trend_percentage : pyfloat;
  total_predicted_spending : Q;
  forecast_period_days : Z;
  data_points_used : Z
}.

(** ["data_info"] of the insufficient-data answer. *)
Record DataInfo : Type := { days_of_data : Z; total_data_points : Z }.

Record ForecastResponse : Type := {
  success : bool;
  error : option string;
  forecast : list ForecastPoint;
  statistics : option Statistics;
  data_info : option DataInfo
}.

Definition FORECAST_MIN_DAYS : Z := 30.

(** [expenses['date'].dt.date] *)
Definition day_of (t : DataFetcher.Transaction) : Z :=
  DataFetcher.day_number (DataFetcher.date t).

Definition daily_total (expenses : DataFetcher.DataFrame) (d : Z) : Q :=
  Qsum (map DataFetcher.amount (filter (fun t => day_of t =? d) expenses)).

(** [range(n)] *)
Definition range (n : Z) : list Z := map Z.of_nat (seq 0 (Z.to_nat n)).

(** [pd.date_range(start, end, freq='D')] *)
Definition date_range (lo hi : Z) : list Z := map (fun k => lo + k) (range (hi - lo + 1)).

(** [prepare_data]: daily sums of the expenses, absent days filled with 0. *)
Definition prepare_data (df : DataFetcher.DataFrame) : list DailyRow :=
  if DataFetcher.empty df then []
  else
    match DataFetcher.expenses_of df with
    | [] => []
    | e :: rest =>
        let lo := fold_left Z.min (map day_of rest) (day_of e) in
        let hi := fold_left Z.max (map day_of rest) (day_of e) in
        map (fun d => {| ds := d; y := daily_total (e :: rest) d |}) (date_range lo hi)
    end.

(** [(df['ds'].max() - df['ds'].min()).days + 1] on a non-empty frame. *)
Definition span_days (df : list DailyRow) : Z :=
  match df with
  | [] => 0
  | r :: rest =>
      fold_left Z.max (map ds rest) (ds r) - fold_left Z.min (map ds rest) (ds r) + 1
  end.

(** [df['ds'].max()] *)
Definition last_day (df : list DailyRow) : Z :=
  fold_left Z.max (map ds df) (hd 0 (map ds df)).



(** [df.tail(n)] *)
Definition tail {A} (n : nat) (l : list A) : list A := skipn (List.length l - n) l.

(** Rounding and clamping of one predicted row into the response. *)
Definition emit (row : ForecastRow) : ForecastPoint :=
  {| fp_date := Calendar.strftime (Calendar.civil_from_days (f_ds row));
     predicted_spending := max0 (round2 (yhat row));
     lower_bound := max0 (round2 (yhat_lower row));
     upper_bound := max0 (round2 (yhat_upper row)) |}.

Definition insufficient_message (span : Z) : string :=
  ("Insufficient data for forecasting (data spans " ++ str_int span
   ++ " days, need " ++ str_int FORECAST_MIN_DAYS ++ "+ days)")%string.

Definition failure (msg : string) (info : option DataInfo) : ForecastResponse :=
  {| success := false; error := Some msg; forecast := []; statistics := None;
     data_info := info |}.

Section Model.

(** Square root used by [Series.std()]. *)
Variable sqrt : Q -> Q.

(** The Prophet pipeline ([fit], [make_future_dataframe], [predict],
    [tail(forecast_days)]); [Raise] when any of the calls raises. *)
Variable prophet : list DailyRow -> Z -> result (list ForecastRow).

(** [df['y'].std()] for a frame of at least two rows. *)
Definition std (ys : list Q) : Q := sqrt (variance ys).

(** The "simple trend" of the fallback. *)
Definition simple_trend (ys : list Q) : Q :=
  let historical_avg := mean ys in
  if Nat.ltb 7 (List.length ys) then
    let recent_avg := mean (tail 7 ys) in
    if Qltb 0 historical_avg
    then ((recent_avg - historical_avg) / historical_avg)%Q else 0%Q
  else 0%Q.

(** [historical_avg * (1 + trend * (i / 30))] *)
Definition predicted_at (historical_avg trend : Q) (i : Z) : Q :=
  (historical_avg * (1 + trend * (inject_Z i / 30)))%Q.

(** The rows built by the [use_simple_forecast] branch. *)
Definition simple_forecast (df : list DailyRow) (forecast_days : Z) : list ForecastRow :=
  let ys := map y df in
  let historical_avg := mean ys in
  let historical_std := std ys in
  let trend := simple_trend ys in
  let start_date := last_day df + 1 in
  map (fun i =>
         let predicted := predicted_at historical_avg trend i in
         {| f_ds := start_date + i;
            yhat := max0 predicted;
            yhat_lower := max0 (predicted - historical_std);
            yhat_upper := (predicted + historical_std)%Q |})
      (range forecast_days).

Definition make_statistics (df : list DailyRow) (rows : list ForecastRow) (forecast_days : Z)
  : Statistics :=
  let historical_avg := mean (map y df) in
  let forecast_avg := series_mean (map yhat rows) in
  let trend :=
    if Qltb 0 historical_avg
    then fmul (npdiv (fsub forecast_avg (Fin historical_avg)) (Fin historical_avg)) (Fin 100)
    else Fin 0 in
  {| historical_avg_daily := round2 historical_avg;
     forecast_avg_daily := fmax (Fin 0) (fround2 forecast_avg);
     trend_percentage := fround2 trend;
     total_predicted_spending := max0 (round2 (Qsum (map yhat rows)));
     forecast_period_days := forecast_days;
     data_points_used := Z.of_nat (List.length df) |}.

Definition respond (df : list DailyRow) (rows : list ForecastRow) (forecast_days : Z)
  : ForecastResponse :=
  {| success := true; error := None;
     forecast := map emit rows;
     statistics := Some (make_statistics df rows forecast_days);
     data_info := None |}.

Definition train_and_predict (transactions : DataFetcher.DataFrame) (forecast_days : Z)
  : ForecastResponse :=
  let df := prepare_data transactions in
  match df with
  | [] => failure "No transaction data found" None
  | _ =>
      let date_range := span_days df in
      if date_range <? FORECAST_MIN_DAYS then
        failure (insufficient_message date_range)
                (Some {| days_of_data := date_range;
                         total_data_points := Z.of_nat (List.length df) |})
      else
        match prophet df forecast_days with
        | Ok future_forecast => respond df future_forecast forecast_days
        | Raise prophet_error =>
            match simple_forecast df forecast_days with
            | [] => failure (str_exn (KeyError "yhat")) None
            | future_forecast => respond df future_forecast forecast_days
            end
        end
  end.

End Model.

End ForecastService.

(* ------------------------------------------------------------------ *)
(** ** services/goal_service.py *)

Module GoalService.
Import Py Calendar.

Definition amount_of_type (kind : string) (rows : DataFetcher.DataFrame) : Q :=
  Qsum (map DataFetcher.amount
            (filter (fun t => String.eqb (DataFetcher.type t) kind) rows)).

Record MonthStat : Type := {
  ms_month : Z;
  income : Q;
  expenses : Q;
  savings : Q;
  savings_rate : Q
}.

Definition month_stat (df : DataFetcher.DataFrame) (m : Z) : MonthStat :=
  let month_data := filter (fun t => DataFetcher.period_M t =? m) df in
  let inc := amount_of_type "income" month_data in
  let exp := amount_of_type "expense" month_data in
  let sav := (inc - exp)%Q in
  {| ms_month := m; income := inc; expenses := exp; savings := sav;
     savings_rate := if Qltb 0 inc then (sav / inc * 100)%Q else 0%Q |}.

Record SavingsStats : Type := {
  avg_monthly_income : Q;
  avg_monthly_expenses : Q;
  avg_monthly_savings : Q;
  savings_rate_percentage : Q;
  consistency_score : pyfloat;
  months_analyzed : option Z
}.

Definition no_savings : SavingsStats :=
  {| avg_monthly_income := 0; avg_monthly_expenses := 0; avg_monthly_savings := 0;
     savings_rate_percentage := 0; consistency_score := Fin 0; months_analyzed := None |}.

Inductive Status : Type :=
| achieved | highly_likely | possible | challenging | unlikely | status_error.

(** The texts appended by [_generate_recommendations], with the amounts
    they interpolate. *)
Inductive RecommendationText : Type :=
| IncreaseContribution (increase_to : Q)
| TooAggressive
| MeetDeadline (needed_contribution : Q)
| Milestones
| UnusedCapacity (potential_savings : Q).

(** The response dictionary; [None] stands for an absent key or for
    Python's [None]. *)
Record GoalPrediction : Type := {
  success : bool;
  error : option string;
  achievement_probability : pyfloat;
  status : Status;
  months_required : option Q;
  estimated_completion_date : option string;
  message : option string;
  is_realistic : option bool;
  current_progress_percentage : option Q;
  savings_statistics : option SavingsStats;
  recommendations : list RecommendationText
}.

(** Truthiness of an optional string argument: [if deadline:]. *)
Definition truthy (s : option string) : option string :=
  match s with
  | Some EmptyString => None
  | _ => s
  end.

Section Model.

(** Square root used by [Series.std()]. *)
Variable sqrt : Q -> Q.

(** [datetime.strptime(s, '%Y-%m-%d')]; [None] when it raises. *)
Variable strptime : string -> option datetime.

(** [datetime.now()] *)
Variable now : datetime.

Definition calculate_savings_rate (df : DataFetcher.DataFrame) : SavingsStats :=
  if DataFetcher.empty df then no_savings
  else
    let monthly_stats := map (month_stat df) (unique (map DataFetcher.period_M df)) in
    let avg_income := mean (map income monthly_stats) in
    let avg_expenses := mean (map expenses monthly_stats) in
    let avg_savings := mean (map savings monthly_stats) in
    let avg_savings_rate :=
      if Qltb 0 avg_income then (avg_savings / avg_income * 100)%Q else 0%Q in
    let std_savings := series_std sqrt (map savings monthly_stats) in
    let consistency :=
      fsub (Fin 100)
           (fmin (if Qltb 0 avg_savings
                  then fmul (npdiv std_savings (Fin avg_savings)) (Fin 100)
                  else Fin 100)
                 (Fin 100)) in
    {| avg_monthly_income := round2 avg_income;
       avg_monthly_expenses := round2 avg_expenses;
       avg_monthly_savings := round2 avg_savings;
       savings_rate_percentage := round2 avg_savings_rate;
       consistency_score := fround2 (fmax consistency (Fin 0));
       months_analyzed := Some (Z.of_nat (List.length monthly_stats)) |}.

(** [(deadline_date.year - now.year) * 12 + (deadline_date.month - now.month)] *)
Definition months_between (deadline_date : datetime) : Z :=
  (year deadline_date - year now) * 12 + (month deadline_date - month now).

Definition _calculate_achievement_probability
    (monthly_contribution avg_savings : Q) (consistency months_required : pyfloat)
    (deadline : option string) : pyfloat :=
  let contribution_ratio :=
    if Qle_bool avg_savings 0 then 0.5%Q
    else let r := (monthly_contribution / avg_savings)%Q in
         if Qltb 2.0 r then 2.0%Q else r in
  let base_probability := (50 + contribution_ratio * 25)%Q in
  let consistency_factor := npdiv consistency (Fin 100) in
  let probability :=
    fmul (Fin base_probability) (fadd (Fin 0.7) (fmul (Fin 0.3) consistency_factor)) in
  let probability :=
    match truthy deadline with
    | None => probability
    | Some s =>
        match strptime s with
        | None => probability
        | Some deadline_date =>
            let months_to_deadline := months_between deadline_date in
            if months_to_deadline <=? 0 then fmul probability (Fin 0.1)
            else if flt (Fin (inject_Z months_to_deadline)) months_required then
              let overage_ratio := npdiv months_required (Fin (inject_Z months_to_deadline)) in
              fmul probability (npdiv (Fin 1) overage_ratio)
            else fmul probability (Fin 1.1)
        end
    end in
  let probability :=
    if flt (Fin 60) months_required then fmul probability (Fin 0.7)
    else if flt (Fin 36) months_required then fmul probability (Fin 0.85)
    else probability in
  fmax (Fin 5) (fmin (Fin 95) probability).

Definition _generate_recommendations
    (monthly_contribution avg_savings remaining : Q) (months_required : pyfloat)
    (deadline : option string) : list RecommendationText :=
  (if Qltb monthly_contribution (avg_savings * 0.5)
   then [IncreaseContribution (round2 (avg_savings * 0.7))] else []) ++
  (if Qltb (avg_savings * 1.5) monthly_contribution then [TooAggressive] else []) ++
  match truthy deadline with
  | None => []
  | Some s =>
      match strptime s with
      | None => []
      | Some deadline_date =>
          let months_to_deadline := months_between deadline_date in
          if flt (Fin (inject_Z months_to_deadline)) months_required then
            if months_to_deadline =? 0 then []   (* ZeroDivisionError, swallowed *)
            else [MeetDeadline (round2 (remaining / inject_Z months_to_deadline))]
          else []
      end
  end ++
  (if flt (Fin 24) months_required then [Milestones] else []) ++
  (if Qltb 0 avg_savings && Qltb monthly_contribution avg_savings
   then [UnusedCapacity (round2 (avg_savings - monthly_contribution))] else []).

Definition status_of (probability : pyfloat) : Status :=
  if fle (Fin 80) probability then highly_likely
  else if fle (Fin 50) probability then possible
  else if fle (Fin 30) probability then challenging
  else unlikely.

Definition goal_failure (e : exn) : GoalPrediction :=
  {| success := false; error := Some (str_exn e);
     achievement_probability := Fin 0; status := status_error;
     months_required := None; estimated_completion_date := None; message := None;
     is_realistic := None; current_progress_percentage := None;
     savings_statistics := None; recommendations := [] |}.

Definition predict_goal_achievement
    (df : DataFetcher.DataFrame)
    (target_amount current_amount monthly_contribution : Q) (deadline : option string)
  : GoalPrediction :=
  let savings_stats := calculate_savings_rate df in
  let remaining := (target_amount - current_amount)%Q in
  if Qle_bool remaining 0 then
    {| success := true; error := None;
       achievement_probability := Fin 100.0; status := achieved;
       months_required := Some 0%Q;
       estimated_completion_date := Some (strftime now);
       message := Some "Goal already achieved!"%string;
       is_realistic := None; current_progress_percentage := None;
       savings_statistics := None; recommendations := [] |}
  else
    let '(months, estimated_date) :=
      if Qle_bool monthly_contribution 0 then (PInf, None)
      else
        let m := (remaining / monthly_contribution)%Q in
        if Qltb 9999 m then (Fin 9999, None)
        else (Fin m, Some (add_months now (Qfloor m))) in
    let probability :=
      _calculate_achievement_probability
        monthly_contribution (avg_monthly_savings savings_stats)
        (consistency_score savings_stats) months deadline in
    let realistic := Qle_bool monthly_contribution (avg_monthly_savings savings_stats * 1.2) in
    let recs :=
      _generate_recommendations
        monthly_contribution (avg_monthly_savings savings_stats) remaining months deadline in
    if Qeq_bool target_amount 0 then goal_failure ZeroDivisionError
    else
      {| success := true; error := None;
         achievement_probability := fround2 probability;
         status := status_of probability;
         months_required := match months with Fin m => Some (round1 m) | _ => None end;
         estimated_completion_date := option_map strftime estimated_date;
         message := None;
         is_realistic := Some realistic;
         current_progress_percentage := Some (round2 (current_amount / target_amount * 100));
         savings_statistics := Some savings_stats;
         recommendations := recs |}.

End Model.

End GoalService.

(* ------------------------------------------------------------------ *)
(** ** services/insights_service.py *)

Module InsightsService.
Import Py.

(** Newline character of the Python literals. *)
Definition nl : string := String (ascii_of_nat 10) EmptyString.

(** The dictionary returned by [DataFetcher.get_financial_summary]. *)
Record FinancialSummary : Type := {
  total_income : Q;
  total_expenses : Q;
  net_balance : Q;
  transaction_count : Z;
  avg_daily_spending : Q
}.

(** ["statistics"] of [AnomalyService.detect_anomalies]. *)
Record AnomalyStatistics : Type := {
  anomalies_detected : Z;
  total_anomalous_spending : Q
}.

Record AnomalyResponse : Type := {
  anomaly_success : bool;
  anomaly_statistics : option AnomalyStatistics
}.

(** The response of [GoalService.analyze_all_goals]. *)
Record GoalsAnalysis : Type := {
  goals_success : bool;
  total_goals : Z;
  total_monthly_commitment : option Q;
  overall_assessment : option string
}.

(** The context dictionary; [None] is an absent key. *)
Record Context : Type := {
  has_data : bool;
  financial_summary : option FinancialSummary;
  forecast : option ForecastService.Statistics;
  forecast_available : option bool;
  anomalies : option AnomalyStatistics;
  anomalies_count : option Z;
  budget_recommendations : option BudgetService.BudgetResponse;
  budget_available : option bool;
  goals_analysis : option GoalsAnalysis;
  goals_count : option Z
}.

(** [context[key]] *)
Definition item {A} (key : string) (field : option A) : result A :=
  match field with
  | Some v => Ok v
  | None => Raise (KeyError key)
  end.

(** [context.get(key, default)] *)
Definition get {A} (field : option A) (default : A) : A :=
  match field with
  | Some v => v
  | None => default
  end.

(** An empty ["statistics"] dictionary, as its readers see it through
    [.get(key, 0)]. *)
Definition empty_statistics : ForecastService.Statistics :=
  {| ForecastService.historical_avg_daily := 0;
     ForecastService.forecast_avg_daily := Fin 0;
     ForecastService.trend_percentage := Fin 0;
     ForecastService.total_predicted_spending := 0;
     ForecastService.forecast_period_days := 0;
     ForecastService.data_points_used := 0 |}.

Definition empty_anomaly_statistics : AnomalyStatistics :=
  {| anomalies_detected := 0; total_anomalous_spending := 0 |}.

(** What the four analytical services returned to [_gather_financial_context];
    [None] for the summary is the empty dictionary, [Raise] an exception
    escaping the service. *)
Record ServiceResults : Type := {
  summary_result : option FinancialSummary;
  forecast_result : result ForecastService.ForecastResponse;
  anomalies_result : result AnomalyResponse;
  budgets_result : result BudgetService.BudgetResponse;
  goals_result : result GoalsAnalysis
}.

Definition _gather_financial_context (r : ServiceResults) : Context :=
  let '(fc, fc_available) :=
    match forecast_result r with
    | Ok f =>
        if ForecastService.success f then
          (Some (get (ForecastService.statistics f) empty_statistics), Some true)
        else (None, None)
    | Raise _ => (None, Some false)
    end in
  let '(an, an_count) :=
    match anomalies_result r with
    | Ok a =>
        if anomaly_success a then
          match anomaly_statistics a with
          | Some st => (Some st, Some (anomalies_detected st))
          | None => (Some empty_anomaly_statistics, Some 0)   (* KeyError, swallowed *)
          end
        else (None, None)
    | Raise _ => (None, Some 0)
    end in
  let '(bd, bd_available) :=
    match budgets_result r with
    | Ok b => if BudgetService.success b then (Some b, Some true) else (None, None)
    | Raise _ => (None, Some false)
    end in
  let '(gl, gl_count) :=
    match goals_result r with
    | Ok g => if goals_success g then (Some g, Some (total_goals g)) else (None, None)
    | Raise _ => (None, Some 0)
    end in
  {| has_data := match summary_result r with Some _ => true | None => false end;
     financial_summary := summary_result r;
     forecast := fc; forecast_available := fc_available;
     anomalies := an; anomalies_count := an_count;
     budget_recommendations := bd; budget_available := bd_available;
     goals_analysis := gl; goals_count := gl_count |}.

(** Every key that the narrative reads with [context[key]] is present when
    the flag or count that guards the read says so. *)
Definition well_formed (c : Context) : Prop :=
  (get (forecast_available c) false = true -> exists v, forecast c = Some v) /\
  ((0 <? get (anomalies_count c) 0) = true -> exists v, anomalies c = Some v) /\
  (get (budget_available c) false = true -> exists v, budget_recommendations c = Some v) /\
  ((0 <? get (goals_count c) 0) = true -> exists v, goals_analysis c = Some v).

Definition money (x : Q) : string := ("$" ++ format_fixed 2 false x)%string.

Definition fmoney (x : pyfloat) : string := ("$" ++ format_float 2 false x)%string.

Definition health_lines (context : Context) : list string :=
  match financial_summary context with
  | Some summary =>
      let nb := net_balance summary in
      if Qltb 0 nb then
        let savings_rate :=
          if Qltb 0 (total_income summary) then (nb / total_income summary * 100)%Q else 0%Q in
        [("You have a positive net balance of " ++ money nb
          ++ " over the last 30 days, with a savings rate of "
          ++ format_fixed 1 false savings_rate ++ "%.")%string]
      else
        [("Your expenses exceeded income by " ++ money (Qabs nb)
          ++ " in the last 30 days. Consider reviewing your spending patterns.")%string]
  | None => []
  end.

Definition forecast_lines (context : Context) : result (list string) :=
  if get (forecast_available context) false then
    fc <- item "forecast" (forecast context) ;;
    let trend := ForecastService.trend_percentage fc in
    let forecast_avg := ForecastService.forecast_avg_daily fc in
    let historical_avg := ForecastService.historical_avg_daily fc in
    if flt (Fin 10) trend then
      Ok [("1. Your spending is trending upward by " ++ format_float 1 false trend
           ++ "%. Daily spending is projected to increase from " ++ money historical_avg
           ++ " to " ++ fmoney forecast_avg ++ ".")%string]
    else if flt trend (Fin (-10)) then
      Ok [("1. Great news! Your spending is trending downward by "
           ++ format_float 1 false (fabs trend)
           ++ "%. You're reducing daily spending from " ++ money historical_avg
           ++ " to " ++ fmoney forecast_avg ++ ".")%string]
    else
      Ok [("1. Your spending patterns are stable with minimal change ("
           ++ format_float 1 true trend ++ "%).")%string]
  else Ok [].

Definition anomaly_lines (context : Context) : result (list string) :=
  if 0 <? get (anomalies_count context) 0 then
    an <- item "anomalies" (anomalies context) ;;
    Ok [("2. Detected " ++ str_int (anomalies_detected an)
         ++ " unusual transactions totaling " ++ money (total_anomalous_spending an)
         ++ ". Review these for unexpected charges or one-time expenses.")%string]
  else
    Ok ["2. No unusual spending patterns detected. Your transactions appear consistent with your typical behavior."%string].

Definition goal_lines (context : Context) : result (list string) :=
  if 0 <? get (goals_count context) 0 then
    goals <- item "goals_analysis" (goals_analysis context) ;;
    let n := str_int (total_goals goals) in
    let monthly_commitment := get (total_monthly_commitment goals) 0%Q in
    let assessment := get (overall_assessment goals) ""%string in
    if String.eqb assessment "on_track" then
      Ok [("3. Your " ++ n ++ " financial goal(s) are on track with "
           ++ money monthly_commitment ++ "/month in commitments.")%string]
    else if String.eqb assessment "overcommitted" then
      Ok [("3. Your " ++ n ++ " goals require " ++ money monthly_commitment
           ++ "/month, which may exceed your savings capacity. Consider adjusting timelines or contributions.")%string]
    else
      Ok [("3. You have " ++ n
           ++ " active financial goal(s) that may need adjustment to improve achievability.")%string]
  else
    Ok ["3. Consider setting financial goals to track progress toward savings targets, vacations, or major purchases."%string].

Definition budget_lines (context : Context) : result (list string) :=
  if get (budget_available context) false then
    budgets <- item "budget_recommendations" (budget_recommendations context) ;;
    Ok [("1. Based on your spending patterns, a monthly budget of "
         ++ money (BudgetService.total_recommended_budget budgets)
         ++ " is recommended. Review category-specific budgets to optimize spending.")%string]
  else
    Ok ["1. Start tracking expenses by category to receive personalized budget recommendations."%string].

Definition reduction_lines (context : Context) : list string :=
  match financial_summary context with
  | Some summary =>
      let avg_daily := avg_daily_spending summary in
      if Qltb 0 avg_daily then
        let potential_savings := (avg_daily * 0.15 * 30)%Q in
        [("2. Reducing daily spending by 15% (" ++ money (avg_daily * 0.15)
          ++ "/day) could save " ++ money potential_savings ++ "/month.")%string]
      else
        ["2. Continue tracking transactions to identify spending reduction opportunities."%string]
  | None =>
      ["2. Track your daily expenses consistently to identify areas where you can reduce spending."%string]
  end.

Definition emergency_lines (context : Context) : list string :=
  if get (goals_count context) 0 =? 0 then
    ["3. Set up an emergency fund goal of 3-6 months of expenses as a financial safety net."%string]
  else
    ["3. Automate your savings by setting up automatic transfers on payday to stay consistent with your goals."%string].

Definition caution_lines (context : Context) : result (list string) :=
  if 0 <? get (goals_count context) 0 then
    goals <- item "goals_analysis" (goals_analysis context) ;;
    match overall_assessment goals with
    | Some a =>
        if String.eqb a "overcommitted" then
          Ok ["You're committed to more in monthly savings than your typical capacity. This may lead to missed goals or financial stress. Consider prioritizing your most important goals."%string]
        else Ok []
    | None => Ok []
    end
  else
    match financial_summary context with
    | Some summary =>
        if Qltb (net_balance summary) 0 then
          Ok [("Your spending exceeded income by " ++ money (Qabs (net_balance summary))
               ++ " last month. If this continues, it could impact your financial stability. Focus on reducing discretionary expenses.")%string]
        else
          Ok ["Continue monitoring your spending patterns to catch any emerging issues early. Consistency is key to financial health."%string]
    | None =>
        Ok ["Continue monitoring your spending patterns to catch any emerging issues early. Consistency is key to financial health."%string]
    end.

(** The rule-based narrative. *)
Definition _generate_basic_insights (context : Context) : result string :=
  l_forecast <- forecast_lines context ;;
  l_anomaly <- anomaly_lines context ;;
  l_goal <- goal_lines context ;;
  l_budget <- budget_lines context ;;
  l_caution <- caution_lines context ;;
  Ok (String.concat nl
        (["**Overall Financial Health Assessment:**"%string]
         ++ health_lines context
         ++ [(nl ++ "**Top 3 Insights:**")%string]
         ++ l_forecast ++ l_anomaly ++ l_goal
         ++ [(nl ++ "**Top 3 Recommendations:**")%string]
         ++ l_budget ++ reduction_lines context ++ emergency_lines context
         ++ [(nl ++ "**One Caution:**")%string]
         ++ l_caution)).

Definition summary_part (context : Context) : list string :=
  match financial_summary context with
  | Some summary =>
      [("**Last 30 Days Summary:**" ++ nl)%string;
       ("- Total Income: " ++ money (total_income summary) ++ nl)%string;
       ("- Total Expenses: " ++ money (total_expenses summary) ++ nl)%string;
       ("- Net Balance: " ++ money (net_balance summary) ++ nl)%string;
       ("- Average Daily Spending: " ++ money (avg_daily_spending summary) ++ nl ++ nl)%string]
  | None => []
  end.

Definition forecast_part (context : Context) : result (list string) :=
  if get (forecast_available context) false then
    fc <- item "forecast" (forecast context) ;;
    Ok [("**Spending Forecast (Next 30 Days):**" ++ nl)%string;
        ("- Predicted Average Daily: " ++ fmoney (ForecastService.forecast_avg_daily fc) ++ nl)%string;
        ("- Trend: " ++ format_float 1 true (ForecastService.trend_percentage fc)
         ++ "%" ++ nl ++ nl)%string]
  else Ok [].

Definition anomaly_part (context : Context) : result (list string) :=
  if 0 <? get (anomalies_count context) 0 then
    an <- item "anomalies" (anomalies context) ;;
    Ok [("**Anomalies Detected:**" ++ nl)%string;
        ("- Unusual transactions: " ++ str_int (anomalies_detected an) ++ nl)%string;
        ("- Total anomalous spending: " ++ money (total_anomalous_spending an) ++ nl ++ nl)%string]
  else Ok [].

Definition budget_part (context : Context) : result (list string) :=
  if get (budget_available context) false then
    budgets <- item "budget_recommendations" (budget_recommendations context) ;;
    Ok [("**Budget Analysis:**" ++ nl)%string;
        ("- Recommended Total Budget: "
         ++ money (BudgetService.total_recommended_budget budgets) ++ nl)%string;
        ("- Number of categories: "
         ++ str_int (Z.of_nat (List.length (BudgetService.recommendations budgets)))
         ++ nl ++ nl)%string]
  else Ok [].

Definition goals_part (context : Context) : result (list string) :=
  if 0 <? get (goals_count context) 0 then
    goals <- item "goals_analysis" (goals_analysis context) ;;
    Ok [("**Financial Goals:**" ++ nl)%string;
        ("- Active goals: " ++ str_int (total_goals goals) ++ nl)%string;
        ("- Total monthly commitment: "
         ++ money (get (total_monthly_commitment goals) 0%Q) ++ nl)%string;
        ("- Assessment: " ++ get (overall_assessment goals) "N/A"%string ++ nl ++ nl)%string]
  else Ok [].

Definition _build_insights_prompt (context : Context) : result string :=
  p_forecast <- forecast_part context ;;
  p_anomaly <- anomaly_part context ;;
  p_budget <- budget_part context ;;
  p_goals <- goals_part context ;;
  Ok (String.concat ""
        (["You are a professional financial advisor analyzing a user's financial data. "%string;
          ("Provide personalized, actionable insights based on the following information:"
           ++ nl ++ nl)%string]
         ++ summary_part context
         ++ p_forecast ++ p_anomaly ++ p_budget ++ p_goals
         ++ [(nl ++ "**Please provide:**" ++ nl)%string;
             ("1. Overall Financial Health Assessment (1-2 sentences)" ++ nl)%string;
             ("2. Top 3 Insights (key observations about their finances)" ++ nl)%string;
             ("3. Top 3 Recommendations (specific, actionable advice)" ++ nl)%string;
             ("4. One Caution (potential risk or area to watch)" ++ nl ++ nl)%string;
             "Keep the tone professional yet friendly, and be specific with numbers where relevant."%string])).

Record ContextUsed : Type := {
  spending_forecast : bool;
  anomalies_detected_used : Z;
  budgets_analyzed : bool;
  goals_analyzed : Z
}.

Definition context_used_of (context : Context) : ContextUsed :=
  {| spending_forecast := get (forecast_available context) false;
     anomalies_detected_used := get (anomalies_count context) 0;
     budgets_analyzed := get (budget_available context) false;
     goals_analyzed := get (goals_count context) 0 |}.

Record InsightsResponse : Type := {
  success : bool;
  error : option string;
  insights : string;
  ai_unavailable : bool;      (* [false]: the key is absent *)
  context_used : option ContextUsed;
  data_info : option DataFetcher.SufficiencyVerdict
}.

Definition insights_failure (msg : string) : InsightsResponse :=
  {| success := false; error := Some msg; insights := "";
     ai_unavailable := false; context_used := None; data_info := None |}.

Definition INSIGHTS_MIN_DAYS : Z := 30.
Definition MIN_TRANSACTIONS : Z := 30.

Section Remote.

(** [self.model.generate_content(prompt).text]; [Raise] when the remote call
    or the reading of its answer raises. *)
Variable generate_content : string -> result string.

Definition generate_comprehensive_insights
    (df : DataFetcher.DataFrame) (services : ServiceResults) : InsightsResponse :=
  match DataFetcher.check_data_sufficiency df INSIGHTS_MIN_DAYS MIN_TRANSACTIONS 10 with
  | Raise e => insights_failure (str_exn e)
  | Ok sufficiency =>
      if negb (DataFetcher.sufficient sufficiency) then
        {| success := false;
           error := Some ("Insufficient data for insights: "
                          ++ DataFetcher.reason sufficiency)%string;
           insights := ""; ai_unavailable := false; context_used := None;
           data_info := Some sufficiency |}
      else
        let context := _gather_financial_context services in
        if negb (has_data context) then
          insights_failure "Insufficient financial data for insights"
        else
          match (prompt <- _build_insights_prompt context ;; generate_content prompt) with
          | Ok insights_text =>
              {| success := true; error := None; insights := insights_text;
                 ai_unavailable := false;
                 context_used := Some (context_used_of context); data_info := None |}
          | Raise gemini_error =>
              match _generate_basic_insights context with
              | Ok insights_text =>
                  {| success := true; error := None; insights := insights_text;
                     ai_unavailable := true;
                     context_used := Some (context_used_of context); data_info := None |}
              | Raise e => insights_failure (str_exn e)
              end
          end
  end.

End Remote.

End InsightsService.

(* ------------------------------------------------------------------ *)
(** ** Sample inputs *)

Module Samples.
Import Py.

(** An expense at the epoch and an income one day later. *)
Definition two_day_sample : DataFetcher.DataFrame :=
  [ {| DataFetcher.date := 0; DataFetcher.amount := 12;
       DataFetcher.type := "expense"; DataFetcher.category := "Food";
       DataFetcher.description := "lunch" |};
    {| DataFetcher.date := DataFetcher.ns_per_day; DataFetcher.amount := 100;
       DataFetcher.type := "income"; DataFetcher.category := "Salary";
       DataFetcher.description := "pay" |} ].

(** One expense of [a] on each of [n] consecutive days. *)
Definition daily_expenses (n : nat) (a : Q) : DataFetcher.DataFrame :=
  map (fun i => {| DataFetcher.date := Z.of_nat i * DataFetcher.ns_per_day;
                   DataFetcher.amount := a;
                   DataFetcher.type := "expense";
                   DataFetcher.category := "Food";
                   DataFetcher.description := "meal" |})
      (seq 0 n).

(** A rational square root, exact to three decimals. *)
Definition sqrt_milli (x : Q) : Q :=
  (inject_Z (Z.sqrt (Qfloor (x * 1000000))) / 1000)%Q.

(** A fitted model that predicts 10 a day, between 5 and 15. *)
Definition flat_model (df : list ForecastService.DailyRow) (n : Z)
  : result (list ForecastService.ForecastRow) :=
  Ok (map (fun i => {| ForecastService.f_ds := i;
                       ForecastService.yhat := 10;
                       ForecastService.yhat_lower := 5;
                       ForecastService.yhat_upper := 15 |})
          (ForecastService.range n)).

(** A model whose fit always fails. *)
Definition failing_model (df : list ForecastService.DailyRow) (n : Z)
  : result (list ForecastService.ForecastRow) :=
  Raise (ValueError "fit failed").

(** A clock reading and a parser that knows one deadline. *)
Definition today : Calendar.datetime :=
  {| Calendar.year := 2026; Calendar.month := 11; Calendar.day := 3 |}.

Definition one_deadline (s : string) : option Calendar.datetime :=
  if String.eqb s "2030-06-30"
  then Some {| Calendar.year := 2030; Calendar.month := 6; Calendar.day := 30 |}
  else None.


(** A remote narrative service that is down. *)
Definition remote_down (prompt : string) : result string :=
  Raise (RemoteError "503 service unavailable").

(** One expense of 300 for food and one of 900 for rent, the same day. *)
Definition food_and_rent : DataFetcher.DataFrame :=
  [ {| DataFetcher.date := 0; DataFetcher.amount := 300;
       DataFetcher.type := "expense"; DataFetcher.category := "Food";
       DataFetcher.description := "groceries" |};
    {| DataFetcher.date := 0; DataFetcher.amount := 900;
       DataFetcher.type := "expense"; DataFetcher.category := "Rent";
       DataFetcher.description := "rent" |} ].


(** What the services answer for a user with a month of expenses of 10 a
    day and no goal: a forecast from the fallback, an anomaly detection
    that raised, a budget recommendation, an empty goal analysis. *)
Definition month_of_meals : InsightsService.ServiceResults :=
  {| InsightsService.summary_result :=
       Some {| InsightsService.total_income := 0;
               InsightsService.total_expenses := 300;
               InsightsService.net_balance := -300;
               InsightsService.transaction_count := 30;
               InsightsService.avg_daily_spending := 10 |};
     InsightsService.forecast_result :=
       Ok (ForecastService.train_and_predict sqrt_milli failing_model
             (daily_expenses 30 10) 30);
     InsightsService.anomalies_result := Raise (ValueError "not fitted");
     InsightsService.budgets_result :=
       Ok (BudgetService.recommend_budgets sqrt_milli (daily_expenses 30 10) [] "balanced");
     InsightsService.goals_result :=
       Ok {| InsightsService.goals_success := true;
             InsightsService.total_goals := 0;
             InsightsService.total_monthly_commitment := None;
             InsightsService.overall_assessment := Some "No active goals"%string |} |}.

End Samples.

(* ------------------------------------------------------------------ *)
(** ** Orderings of result lists *)

Module Ordering.

(** Highest first: every element is at least as large as all later ones. *)
Fixpoint descending (l : list Q) : Prop :=
  match l with
  | [] => True
  | x :: r => (forall v, In v r -> (v <= x)%Q) /\ descending r
  end.

(** Lowest first. *)
Fixpoint ascending (l : list Q) : Prop :=
  match l with
  | [] => True
  | x :: r => (forall v, In v r -> (x <= v)%Q) /\ ascending r
  end.

End Ordering.

(* ------------------------------------------------------------------ *)
(** ** Budgets counted by the comparison *)

Module Matching.

(** [if 'category' in budget and budget['category']]: a budget counts when
    its category reference is a non-empty string. *)
Definition has_category (b : BudgetService.Budget) : bool :=
  match BudgetService.budget_category b with
  | Some (String _ _) => true
  | _ => false
  end.

End Matching.

(* ------------------------------------------------------------------ *)
(** ** services/goal_service.py: the analysis of all goals *)

Module GoalsAnalysis.
Import Py Calendar.

(** A stored deadline is a string or a [datetime]. *)
Inductive Deadline : Type :=
| deadline_str (s : string)
| deadline_datetime (d : datetime).

(** A goal document; [None] is an absent key (or Python's [None] for the
    deadline).  The two amounts are numbers when present. *)
Record Goal : Type := {
  _id : option string;
  title : option string;
  targetAmount : option Q;
  currentAmount : option Q;
  deadline : option Deadline
}.

Record AnalyzedGoal : Type := {
  goal_id : option string;
  goal_name : string;
  target_amount : Q;
  current_amount : Q;
  monthly_contribution : Q;
  goal_deadline : option string;
  prediction : GoalService.GoalPrediction
}.

(** The response dictionary; [None] is an absent key. *)
Record GoalsResponse : Type := {
  success : bool;
  error : option string;
  total_goals : Z;
  goals : list AnalyzedGoal;
  total_monthly_commitment : option Q;
  avg_monthly_savings : option Q;
  commitment_ratio : option Q;
  overall_assessment : option string;
  message : option string;
  data_info : option DataFetcher.SufficiencyVerdict
}.

Definition GOALS_MIN_MONTHS : Z := 1.
Definition MIN_TRANSACTIONS : Z := 30.

(** [if deadline:] *)
Definition is_set (deadline : option Deadline) : bool :=
  match deadline with
  | None => false
  | Some (deadline_str EmptyString) => false
  | Some _ => true
  end.

(** [deadline if isinstance(deadline, str)
     else (deadline.strftime('%Y-%m-%d') if deadline else None)] *)
Definition deadline_text (deadline : option Deadline) : option string :=
  match deadline with
  | Some (deadline_str s) => Some s
  | Some (deadline_datetime d) => Some (strftime d)
  | None => None
  end.

(** [np.mean] of a list of floats. *)
Definition np_mean (xs : list pyfloat) : pyfloat :=
  npdiv (fold_left fadd xs (Fin 0)) (Fin (inject_Z (Z.of_nat (List.length xs)))).

Definition no_goals : GoalsResponse :=
  {| success := true; error := None; total_goals := 0; goals := [];
     total_monthly_commitment := None; avg_monthly_savings := None;
     commitment_ratio := None;
     overall_assessment := Some "No active goals"%string; message := None;
     data_info := None |}.

Definition goals_failure (e : exn) : GoalsResponse :=
  {| success := false; error := Some (str_exn e); total_goals := 0; goals := [];
     total_monthly_commitment := None; avg_monthly_savings := None;
     commitment_ratio := None; overall_assessment := None; message := None;
     data_info := None |}.

(** The overall label and its message. *)
Definition assess (total_monthly_required avg_savings : Q) (avg_probability : pyfloat)
  : string * string :=
  if Qltb avg_savings total_monthly_required then
    ("overcommitted", "Total goal contributions exceed average savings capacity")%string
  else if fle (Fin 70) avg_probability then
    ("on_track", "Goals are achievable with current trajectory")%string
  else if fle (Fin 40) avg_probability then
    ("needs_adjustment", "Some goals may need timeline or contribution adjustments")%string
  else
    ("challenging", "Current goals may be too ambitious - consider revising")%string.

Section Model.

Variable sqrt : Q -> Q.
Variable strptime : string -> option datetime.
Variable now : datetime.

(** The deadline as a date: parsed when it is a string ([None] when the
    parse raises), taken as it is otherwise. *)
Definition deadline_date_of (d : Deadline) : option datetime :=
  match d with
  | deadline_str s => strptime s
  | deadline_datetime t => Some t
  end.

(** The monthly contribution derived from target and deadline. *)
Definition monthly_for (target current : Q) (deadline : option Deadline) : Q :=
  match deadline with
  | None => 0
  | Some d =>
      if is_set deadline then
        match deadline_date_of d with
        | None => 0                       (* the parse raised: swallowed *)
        | Some deadline_date =>
            let months_to_deadline := GoalService.months_between now deadline_date in
            if 0 <? months_to_deadline then
              let remaining := (target - current)%Q in
              if Qltb 0 remaining then (remaining / inject_Z months_to_deadline)%Q
              else 0
            else 0
        end
      else 0
  end.

Definition analyze_goal (df : DataFetcher.DataFrame) (goal : Goal) : AnalyzedGoal :=
  let target := InsightsService.get (targetAmount goal) 0%Q in
  let current := InsightsService.get (currentAmount goal) 0%Q in
  let monthly := monthly_for target current (deadline goal) in
  {| goal_id := _id goal;
     goal_name := InsightsService.get (title goal) "Unnamed Goal"%string;
     target_amount := target;
     current_amount := current;
     monthly_contribution := monthly;
     goal_deadline := deadline_text (deadline goal);
     prediction :=
       GoalService.predict_goal_achievement sqrt strptime now df
         target current monthly (deadline_text (deadline goal)) |}.

Definition analyze_all_goals (user_goals : list Goal) (df : DataFetcher.DataFrame)
  : GoalsResponse :=
  match user_goals with
  | [] => no_goals
  | _ =>
      match DataFetcher.check_data_sufficiency df (GOALS_MIN_MONTHS * 30)
              MIN_TRANSACTIONS 10 with
      | Raise e => goals_failure e
      | Ok sufficiency =>
          if negb (DataFetcher.sufficient sufficiency) then
            {| success := false;
               error := Some ("Insufficient transaction data for goals analysis: "
                              ++ DataFetcher.reason sufficiency)%string;
               total_goals := Z.of_nat (List.length user_goals);
               goals := [];
               total_monthly_commitment := None; avg_monthly_savings := None;
               commitment_ratio := None; overall_assessment := None;
               message := None; data_info := Some sufficiency |}
          else
            let savings_stats := GoalService.calculate_savings_rate sqrt df in
            let analyzed_goals := map (analyze_goal df) user_goals in
            let total_monthly_required :=
              fold_left Qplus (map monthly_contribution analyzed_goals) 0%Q in
            let avg_probability :=
              np_mean (map (fun g => GoalService.achievement_probability (prediction g))
                           analyzed_goals) in
            let avg_savings := GoalService.avg_monthly_savings savings_stats in
            let '(overall, text) :=
              assess total_monthly_required avg_savings avg_probability in
            {| success := true; error := None;
               total_goals := Z.of_nat (List.length user_goals);
               goals := analyzed_goals;
               total_monthly_commitment := Some (round2 total_monthly_required);
               avg_monthly_savings := Some avg_savings;
               commitment_ratio :=
                 Some (if Qltb 0 avg_savings
                       then round2 (total_monthly_required / avg_savings)
                       else 0%Q);
               overall_assessment := Some overall;
               message := Some text;
               data_info := None |}
      end
  end.

End Model.

End GoalsAnalysis.

(* ------------------------------------------------------------------ *)
(** ** Sample goals *)

Module GoalSamples.

(** A goal of 5000 with nothing saved and no deadline. *)
Definition open_ended : GoalsAnalysis.Goal :=
  {| GoalsAnalysis._id := Some "g1"%string;
     GoalsAnalysis.title := Some "Holiday"%string;
     GoalsAnalysis.targetAmount := Some 5000%Q;
     GoalsAnalysis.currentAmount := Some 0%Q;
     GoalsAnalysis.deadline := None |}.

(** A goal of 4300 with nothing saved, due on 2030-06-30. *)
Definition dated : GoalsAnalysis.Goal :=
  {| GoalsAnalysis._id := Some "g2"%string;
     GoalsAnalysis.title := None;
     GoalsAnalysis.targetAmount := Some 4300%Q;
     GoalsAnalysis.currentAmount := None;
     GoalsAnalysis.deadline := Some (GoalsAnalysis.deadline_str "2030-06-30") |}.

(** Forty days with an income of 100 and an expense of [spent] each. *)
Definition forty_days (spent : Q) : DataFetcher.DataFrame :=
  flat_map (fun i => [ {| DataFetcher.date := Z.of_nat i * DataFetcher.ns_per_day;
                          DataFetcher.amount := 100;
                          DataFetcher.type := "income";
                          DataFetcher.category := "Salary";
                          DataFetcher.description := "pay" |};
                       {| DataFetcher.date := Z.of_nat i * DataFetcher.ns_per_day;
                          DataFetcher.amount := spent;
                          DataFetcher.type := "expense";
                          DataFetcher.category := "Food";
                          DataFetcher.description := "meal" |} ])
           (seq 0 40).

End GoalSamples.

(* ------------------------------------------------------------------ *)
(** ** services/anomaly_service.py: outliers by category *)

Module AnomalyService.
Import Py.

Record CategoryReport : Type := {
  total_transactions : Z;
  outliers_detected : Z;
  avg_amount : Q;
  std_amount : pyfloat;
  max_amount : Q;
  min_amount : Q
}.

(** The response dictionary; [categories] keeps the insertion order of the
    keys. *)
Record CategoryAnomalies : Type := {
  success : bool;
  error : option string;
  categories : list (string * CategoryReport);
  period_days : option Z
}.

(** [Series.quantile(q)] of a non-empty series, [0 <= q <= 1]: linear
    interpolation between the two order statistics around position
    [(n - 1) * q]. *)
Definition quantile (q : Q) (xs : list Q) : Q :=
  let sorted := BudgetService.sort_asc xs in
  let n := Z.of_nat (List.length xs) in
  let position := (inject_Z (n - 1) * q)%Q in
  let previous := Qfloor position in
  let next := Z.min (previous + 1) (n - 1) in
  let fraction := (position - inject_Z previous)%Q in
  let a := nth (Z.to_nat previous) sorted 0%Q in
  let b := nth (Z.to_nat next) sorted 0%Q in
  (a + (b - a) * fraction)%Q.

(** [(amount < Q1 - 1.5 * IQR) | (amount > Q3 + 1.5 * IQR)] *)
Definition is_outlier (Q1 Q3 amount : Q) : bool :=
  let IQR := (Q3 - Q1)%Q in
  Qltb amount (Q1 - 1.5 * IQR) || Qltb (Q3 + 1.5 * IQR) amount.

Definition no_transaction_data : CategoryAnomalies :=
  {| success := false; error := Some "No transaction data"%string;
     categories := []; period_days := None |}.

Section Model.

(** Square root used by [Series.std()]. *)
Variable sqrt : Q -> Q.

(** The entry of a category with at least five expense rows. *)
Definition category_report (category_data : DataFetcher.DataFrame) : CategoryReport :=
  let amounts := map DataFetcher.amount category_data in
  let mean_amount := mean amounts in
  let std_amount := series_std sqrt amounts in
  let Q1 := quantile 0.25 amounts in
  let Q3 := quantile 0.75 amounts in
  let outliers :=
    filter (fun t => is_outlier Q1 Q3 (DataFetcher.amount t)) category_data in
  {| total_transactions := Z.of_nat (List.length category_data);
     outliers_detected := Z.of_nat (List.length outliers);
     avg_amount := round2 mean_amount;
     std_amount := fround2 std_amount;
     max_amount := round2 (BudgetService.series_max amounts);
     min_amount := round2 (BudgetService.series_min amounts) |}.

Definition get_category_anomalies (df : DataFetcher.DataFrame) (days : Z)
  : CategoryAnomalies :=
  if DataFetcher.empty df then no_transaction_data
  else
    let expenses := DataFetcher.expenses_of df in
    let categories := BudgetService.unique_names (map DataFetcher.category expenses) in
    {| success := true; error := None;
       categories :=
         flat_map
           (fun category =>
              let category_data :=
                filter (fun t => String.eqb (DataFetcher.category t) category) expenses in
              if (Z.of_nat (List.length category_data) <? 5)%Z then []
              else [(category, category_report category_data)])
           categories;
       period_days := Some days |}.

End Model.

End AnomalyService.

(* ------------------------------------------------------------------ *)
(** ** Sample expenses of one category *)

Module AnomalySamples.

(** Eight meals on consecutive days: two of 0 and six of 100. *)
Definition eight_meals : DataFetcher.DataFrame :=
  map (fun '(i, a) => {| DataFetcher.date := i * DataFetcher.ns_per_day;
                         DataFetcher.amount := a;
                         DataFetcher.type := "expense";
                         DataFetcher.category := "Food";
                         DataFetcher.description := "meal" |})
      [(0, 0%Q); (1, 100%Q); (2, 100%Q); (3, 0%Q); (4, 100%Q); (5, 100%Q);
       (6, 100%Q); (7, 100%Q)].

End AnomalySamples.

(* ------------------------------------------------------------------ *)
(** ** services/forecast_service.py: the forecast by category *)

Module CategoryForecast.
Import Py ForecastService.

Record CategoryEntry : Type := {
  avg_spending : Q;
  total_historical : Q;
  predicted_total : Q
}.

(** The response dictionary; [forecasts] keeps the insertion order of the
    keys. *)
Record CategoryForecasts : Type := {
  success : bool;
  error : option string;
  forecasts : list (string * CategoryEntry);
  forecast_period_days : option Z
}.

Definition category_failure (msg : string) : CategoryForecasts :=
  {| success := false; error := Some msg; forecasts := [];
     forecast_period_days := None |}.

(** The rows of one category. *)
Definition category_rows (expenses : DataFetcher.DataFrame) (category : string)
  : DataFetcher.DataFrame :=
  filter (fun t => String.eqb (DataFetcher.category t) category) expenses.

(** [category_data.groupby(category_data['date'].dt.date)['amount'].sum()]:
    one row per day on which the category was used, ascending. *)
Definition daily_data (category_data : DataFetcher.DataFrame) : list DailyRow :=
  map (fun d => {| ds := d; y := daily_total category_data d |})
      (fold_right BudgetService.insert_month []
                  (Calendar.unique (map day_of category_data))).

Section Model.

(** The Prophet pipeline of the category forecast ([fit], retried once on
    an attribute error, [make_future_dataframe], [predict],
    [tail(forecast_days)]); [Raise] when a call raises. *)
Variable prophet : list DailyRow -> Z -> result (list ForecastRow).

(** The body of the loop for one category. *)
Definition forecast_category
    (expenses : DataFetcher.DataFrame) (forecast_days : Z) (category : string)
  : result CategoryEntry :=
  let category_data := category_rows expenses category in
  let amounts := map DataFetcher.amount category_data in
  let daily := daily_data category_data in
  if (Z.of_nat (List.length daily) <? 7)%Z then
    Ok {| avg_spending := round2 (mean amounts);
          total_historical := round2 (Qsum amounts);
          predicted_total := round2 (mean amounts * inject_Z forecast_days) |}
  else
    future_forecast <- prophet daily forecast_days ;;
    let total := max0 (Qsum (map yhat future_forecast)) in
    Ok {| avg_spending := round2 (mean (map y daily));
          total_historical := round2 (Qsum amounts);
          predicted_total := round2 total |}.

(** The loop over the categories: the first exception ends it. *)
Fixpoint forecast_each
    (expenses : DataFetcher.DataFrame) (forecast_days : Z) (categories : list string)
  : result (list (string * CategoryEntry)) :=
  match categories with
  | [] => Ok []
  | category :: rest =>
      entry <- forecast_category expenses forecast_days category ;;
      entries <- forecast_each expenses forecast_days rest ;;
      Ok ((category, entry) :: entries)
  end.

Definition get_category_forecast (df : DataFetcher.DataFrame) (forecast_days : Z)
  : CategoryForecasts :=
  if DataFetcher.empty df then category_failure "No transaction data"
  else
    let expenses := DataFetcher.expenses_of df in
    let categories := BudgetService.unique_names (map DataFetcher.category expenses) in
    match forecast_each expenses forecast_days categories with
    | Ok category_forecasts =>
        {| success := true; error := None; forecasts := category_forecasts;
           forecast_period_days := Some forecast_days |}
    | Raise e => category_failure (str_exn e)
    end.

End Model.

End CategoryForecast.

(* ------------------------------------------------------------------ *)
(** ** database/data_fetcher.py: the financial summary *)

Module FinancialSummary.
Import Py.

(** The group keys of [groupby('category')]: the distinct names,
    ascending. *)
Fixpoint insert_key (k : string) (l : list string) : list string :=
  match l with
  | [] => [k]
  | x :: l' => if String.leb k x then k :: l else x :: insert_key k l'
  end.

Definition group_keys (names : list string) : list string :=
  fold_right insert_key [] (BudgetService.unique_names names).

(** [get_spending_by_category] on the fetched transactions: the dictionary
    in key order. *)
Definition get_spending_by_category (df : DataFetcher.DataFrame) : list (string * Q) :=
  if DataFetcher.empty df then []
  else
    let expenses := DataFetcher.expenses_of df in
    map (fun c =>
           (c, Qsum (map DataFetcher.amount
                         (filter (fun t => String.eqb (DataFetcher.category t) c)
                                 expenses))))
        (group_keys (map DataFetcher.category expenses)).

(** The summary dictionary; [spending_by_category] is absent from the
    summary of an empty frame. *)
Record Summary : Type := {
  total_income : Q;
  total_expenses : Q;
  net_balance : Q;
  transaction_count : Z;
  avg_daily_spending : Q;
  spending_by_category : option (list (string * Q))
}.

(** [get_financial_summary] on the transactions it fetches, [df], and on
    those fetched again by [get_spending_by_category], [df_again]. *)
Definition get_financial_summary
    (df df_again : DataFetcher.DataFrame) (days : Z) : Summary :=
  if DataFetcher.empty df then
    {| total_income := 0; total_expenses := 0; net_balance := 0;
       transaction_count := 0; avg_daily_spending := 0;
       spending_by_category := None |}
  else
    let income := GoalService.amount_of_type "income" df in
    let expenses := GoalService.amount_of_type "expense" df in
    {| total_income := income;
       total_expenses := expenses;
       net_balance := (income - expenses)%Q;
       transaction_count := Z.of_nat (List.length df);
       avg_daily_spending := if (0 <? days)%Z then (expenses / inject_Z days)%Q else 0%Q;
       spending_by_category := Some (get_spending_by_category df_again) |}.

End FinancialSummary.

(* ------------------------------------------------------------------ *)
(** ** services/anomaly_service.py: anomaly detection *)

Module AnomalyDetection.
Import Py.

(** A row of the feature frame: the transaction and the engineered
    columns, after [fillna(0)]. *)
Record FeatureRow : Type := {
  transaction : DataFetcher.Transaction;
  day_of_week : Z;
  day_of_month : Z;
  hour : Z;
  month : Z;
  rolling_mean_7d : Q;
  rolling_std_7d : pyfloat;
  amount_vs_mean : pyfloat
}.

Inductive Severity : Type := severity_high | severity_medium | severity_low.

(** The texts joined by [_generate_anomaly_reason], with the ratio they
    interpolate. *)
Inductive ReasonText : Type :=
| HigherThanAverage (ratio : pyfloat)
| SignificantDeviation
| HighWeekendSpending
| StatisticalAnomaly.

Record Anomaly : Type := {
  anomaly_date : string;
  anomaly_amount : Q;
  anomaly_category : string;
  anomaly_description : string;
  anomaly_score : Q;
  severity : Severity;
  reason : list ReasonText
}.

Record Statistics : Type := {
  total_transactions : Z;
  anomalies_detected : Z;
  anomaly_percentage : Q;
  total_anomalous_spending : Q;
  avg_transaction_amount : Q;
  avg_anomaly_amount : Q;
  period_days : Z
}.

(** The response dictionary; [None] is the empty [statistics]. *)
Record AnomalyResponse : Type := {
  success : bool;
  error : option string;
  anomalies : list Anomaly;
  statistics : option Statistics;
  data_info : option DataFetcher.SufficiencyVerdict
}.

Definition ANOMALY_MIN_TRANSACTIONS : Z := 30.
Definition MIN_EXPENSES : Z := 20.

Definition anomaly_failure (msg : string) (info : option DataFetcher.SufficiencyVerdict)
  : AnomalyResponse :=
  {| success := false; error := Some msg; anomalies := []; statistics := None;
     data_info := info |}.

(** The text of the error raised when a column of another length is
    assigned to the frame. *)
Definition length_mismatch (values index : nat) : string :=
  ("Length of values (" ++ str_int (Z.of_nat values)
   ++ ") does not match length of index (" ++ str_int (Z.of_nat index) ++ ")")%string.

(** [round(x, 4)] *)
Definition round4 (x : Q) : Q := round_half_even (x * 10000) # 10000.

(** [round(x, 1)] on a NumPy float. *)
Definition fround1 (x : pyfloat) : pyfloat :=
  match x with Fin q => Fin (round1 q) | _ => x end.

(** [fillna(0)] on one value. *)
Definition fillna0 (x : pyfloat) : pyfloat :=
  match x with NaN => Fin 0 | _ => x end.

(** [date.dt.dayofweek]: Monday is 0; day 0 of the epoch is a Thursday. *)
Definition dayofweek (ts : Z) : Z := (DataFetcher.day_number ts + 3) mod 7.

(** The window of [rolling(window=7, min_periods=1)] ending at position
    [i]. *)
Definition window (amounts : list Q) (i : nat) : list Q :=
  firstn (S i - (S i - 7)) (skipn (S i - 7) amounts).

(** Ascending sort by score, as [sort_values('anomaly_score')] (the order
    of equal scores is the one of insertion). *)
Fixpoint insert_by_score {A} (score : A -> Q) (x : A) (l : list A) : list A :=
  match l with
  | [] => [x]
  | v :: l' => if Qle_bool (score x) (score v) then x :: l
               else v :: insert_by_score score x l'
  end.

Definition sort_values {A} (score : A -> Q) (l : list A) : list A :=
  fold_right (insert_by_score score) [] l.

Definition _generate_anomaly_reason (row : FeatureRow) (mean_amount : Q) (z_score : Q)
  : list ReasonText :=
  let amount := DataFetcher.amount (transaction row) in
  let ratio := fround1 (npdiv (Fin amount) (Fin mean_amount)) in
  let reasons :=
    (if Qltb (mean_amount * 3) amount then [HigherThanAverage ratio]
     else if Qltb (mean_amount * 2) amount then [HigherThanAverage ratio]
     else []) ++
    (if flt (Fin 3) (amount_vs_mean row) then [SignificantDeviation] else []) ++
    (if (day_of_week row =? 6)%Z || (day_of_week row =? 0)%Z then
       if Qltb mean_amount amount then [HighWeekendSpending] else []
     else []) in
  match reasons with
  | [] => [StatisticalAnomaly]
  | _ => reasons
  end.

Section Model.

(** Square root used by [Series.std()]. *)
Variable sqrt : Q -> Q.

(** The scaler and the isolation forest: from the feature matrix and the
    contamination to the predictions ([-1] marks an anomaly) and the scores
    of the rows; [Raise] when a call raises. *)
Variable isolation_forest : list (list pyfloat) -> Q -> result (list Z * list Q).

Definition prepare_features (df : DataFetcher.DataFrame) : list FeatureRow :=
  let amounts := map DataFetcher.amount df in
  let rolling := Nat.ltb 7 (List.length df) in
  map (fun '(i, t) =>
         let date := DataFetcher.date t in
         let civil := Calendar.civil_from_days (DataFetcher.day_number date) in
         let recent := if rolling then window amounts i else amounts in
         let rolling_mean := fillna0 (series_mean recent) in
         {| transaction := t;
            day_of_week := dayofweek date;
            day_of_month := Calendar.day civil;
            hour := (date mod DataFetcher.ns_per_day) / (3600 * 1000000000);
            month := Calendar.month civil;
            rolling_mean_7d := match rolling_mean with Fin m => m | _ => 0%Q end;
            rolling_std_7d := fillna0 (series_std sqrt recent);
            amount_vs_mean :=
              if rolling
              then fillna0 (npdiv (Fin (DataFetcher.amount t)) (series_mean recent))
              else Fin 1 |})
      (combine (seq 0 (List.length df)) df).

(** [features[feature_cols].values] *)
Definition feature_matrix (features : list FeatureRow) : list (list pyfloat) :=
  map (fun f => [Fin (DataFetcher.amount (transaction f));
                 Fin (inject_Z (day_of_week f));
                 Fin (inject_Z (day_of_month f));
                 Fin (rolling_mean_7d f);
                 amount_vs_mean f])
      features.

(** One entry of the anomaly list. *)
Definition describe (mean_amount : Q) (std_amount : pyfloat) (scored : FeatureRow * Q)
  : Anomaly :=
  let '(row, score) := scored in
  let amount := DataFetcher.amount (transaction row) in
  let z_score :=
    match std_amount with
    | Fin s => if Qltb 0 s then ((amount - mean_amount) / s)%Q else 0%Q
    | _ => 0%Q
    end in
  {| anomaly_date := DataFetcher.strftime (DataFetcher.date (transaction row));
     anomaly_amount := round2 amount;
     anomaly_category := DataFetcher.category (transaction row);
     anomaly_description := DataFetcher.description (transaction row);
     anomaly_score := round4 score;
     severity := if Qltb 3 z_score then severity_high
                 else if Qltb 2 z_score then severity_medium
                 else severity_low;
     reason := _generate_anomaly_reason row mean_amount z_score |}.

Definition detect_anomalies (df : DataFetcher.DataFrame) (days : Z) (contamination : Q)
  : AnomalyResponse :=
  match DataFetcher.check_data_sufficiency df 30 ANOMALY_MIN_TRANSACTIONS MIN_EXPENSES with
  | Raise e => anomaly_failure (str_exn e) None
  | Ok sufficiency =>
      if negb (DataFetcher.sufficient sufficiency) then
        anomaly_failure ("Insufficient data for anomaly detection: "
                         ++ DataFetcher.reason sufficiency)%string
                        (Some sufficiency)
      else
        let expenses := DataFetcher.expenses_of df in
        let features := prepare_features expenses in
        match isolation_forest (feature_matrix features) contamination with
        | Raise e => anomaly_failure (str_exn e) None
        | Ok (predictions, scores) =>
            if negb (Nat.eqb (List.length predictions) (List.length features)) then
              anomaly_failure (length_mismatch (List.length predictions)
                                               (List.length features)) None
            else if negb (Nat.eqb (List.length scores) (List.length features)) then
              anomaly_failure (length_mismatch (List.length scores)
                                               (List.length features)) None
            else if Nat.eqb (List.length expenses) 0 then
              anomaly_failure "division by zero" None
            else
              let scored := combine features (combine predictions scores) in
              let flagged :=
                sort_values snd
                  (map (fun x => (fst x, snd (snd x)))
                       (filter (fun x => (fst (snd x) =? -1)%Z) scored)) in
              let mean_amount := mean (map rolling_mean_7d features) in
              let std_amount := series_std sqrt (map DataFetcher.amount expenses) in
              let flagged_amounts :=
                map (fun x => DataFetcher.amount (transaction (fst x))) flagged in
              {| success := true; error := None;
                 anomalies := map (describe mean_amount std_amount) flagged;
                 statistics :=
                   Some {| total_transactions := Z.of_nat (List.length expenses);
                           anomalies_detected := Z.of_nat (List.length flagged);
                           anomaly_percentage :=
                             round2 (inject_Z (Z.of_nat (List.length flagged))
                                     / inject_Z (Z.of_nat (List.length expenses)) * 100);
                           total_anomalous_spending := round2 (Qsum flagged_amounts);
                           avg_transaction_amount :=
                             round2 (mean (map DataFetcher.amount expenses));
                           avg_anomaly_amount :=
                             if Nat.ltb 0 (List.length flagged)
                             then round2 (mean flagged_amounts) else 0%Q;
                           period_days := days |};
                 data_info := None |}
        end
  end.

End Model.

End AnomalyDetection.

(* ------------------------------------------------------------------ *)
(** ** Sample detector and spending with one large expense *)

Module DetectionSamples.
Import Py.

(** A detector that flags the rows whose amount exceeds 50. *)
Definition flag_large (X : list (list pyfloat)) (contamination : Q)
  : result (list Z * list Q) :=
  let large row :=
    match row with
    | Fin a :: _ => Qltb 50 a
    | _ => false
    end in
  Ok (map (fun row => if large row then -1 else 1) X,
      map (fun row => if large row then (-7 # 10)%Q else (-4 # 10)%Q) X).

(** A detector that cannot be fitted. *)
Definition broken_detector (X : list (list pyfloat)) (contamination : Q)
  : result (list Z * list Q) :=
  Raise (ValueError "Input contains infinity").

(** A meal of 10 on each of 30 consecutive days, then 500 on the next day,
    a Saturday. *)
Definition month_with_splurge : DataFetcher.DataFrame :=
  map (fun i => {| DataFetcher.date := Z.of_nat i * DataFetcher.ns_per_day;
                   DataFetcher.amount := if Nat.eqb i 30 then 500%Q else 10%Q;
                   DataFetcher.type := "expense";
                   DataFetcher.category := "Food";
                   DataFetcher.description := "meal" |})
      (seq 0 31).

End DetectionSamples.

(* ------------------------------------------------------------------ *)
(** ** services/insights_service.py: targeted insights *)

Module SpecificInsights.
Import Py InsightsService.










Section Remote.

Variable sqrt : Q -> Q.
Variable strptime : string -> option Calendar.datetime.
Variable now : Calendar.datetime.

(** [self.model.generate_content(prompt).text]; [Raise] when the remote call
    or the reading of its answer raises. *)
Variable generate_content : string -> result string.



End Remote.

End SpecificInsights.

(* ================================================================== *)
(** * Properties *)

(** ** Text *)

Section TextFacts.
Import Py.
Open Scope string_scope.

Lemma append_assoc (a b c : string) : (a ++ b) ++ c = a ++ (b ++ c).
Proof.
  induction a as [|ch a IH]; simpl; [reflexivity | now rewrite IH].
Qed.

Lemma append_empty_r (a : string) : a ++ "" = a.
Proof.
  induction a as [|ch a IH]; simpl; [reflexivity | now rewrite IH].
Qed.

Lemma contains_refl (s : string) : contains s s.
Proof.
  exists "", "". simpl. now rewrite append_empty_r.
Qed.

Lemma contains_prefix (s t : string) : contains (s ++ t) s.
Proof.
  exists "", t. reflexivity.
Qed.

Lemma contains_append_l (p s sub : string) : contains s sub -> contains (p ++ s) sub.
Proof.
  intros (pre & post & ->). exists (p ++ pre), post. now rewrite append_assoc.
Qed.

(** Every joined piece occurs in the result of [sep.join(pieces)]. *)
Lemma contains_concat (sep : string) (pieces : list string) (s : string) :
  In s pieces -> contains (String.concat sep pieces) s.
Proof.
  induction pieces as [|x rest IH]; intros Hin; [contradiction|].
  destruct rest as [|x' rest'].
  - destruct Hin as [->|[]]. apply contains_refl.
  - change (String.concat sep (x :: x' :: rest'))
      with (x ++ sep ++ String.concat sep (x' :: rest')).
    destruct Hin as [->|Hin].
    + apply contains_prefix.
    + apply contains_append_l, contains_append_l, IH, Hin.
Qed.

End TextFacts.

(** ** Data sufficiency *)

Section Sufficiency.
Import Py DataFetcher Samples.

Lemma fold_max_ge (l : list Z) (a : Z) :
  a <= fold_left Z.max l a /\ forall x, In x l -> x <= fold_left Z.max l a.
Proof.
  revert a; induction l as [|b l IH]; intros a; simpl.
  - split; [lia | intros x []].
  - destruct (IH (Z.max a b)) as [H1 H2]. split; [lia|].
    intros x [<-|Hx]; [lia | now apply H2].
Qed.

Lemma fold_max_in (l : list Z) (a : Z) : In (fold_left Z.max l a) (a :: l).
Proof.
  revert a; induction l as [|b l IH]; intros a; simpl; [now left|].
  destruct (IH (Z.max a b)) as [H|H].
  - destruct (Z.max_spec a b) as [[_ E]|[_ E]]; [right; left | left]; congruence.
  - right; right; exact H.
Qed.

Lemma fold_min_le (l : list Z) (a : Z) :
  fold_left Z.min l a <= a /\ forall x, In x l -> fold_left Z.min l a <= x.
Proof.
  revert a; induction l as [|b l IH]; intros a; simpl.
  - split; [lia | intros x []].
  - destruct (IH (Z.min a b)) as [H1 H2]. split; [lia|].
    intros x [<-|Hx]; [lia | now apply H2].
Qed.

Lemma fold_min_in (l : list Z) (a : Z) : In (fold_left Z.min l a) (a :: l).
Proof.
  revert a; induction l as [|b l IH]; intros a; simpl; [now left|].
  destruct (IH (Z.min a b)) as [H|H].
  - destruct (Z.min_spec a b) as [[_ E]|[_ E]]; [left | right; left]; congruence.
  - right; right; exact H.
Qed.

(** On a non-empty frame both extreme dates exist, are dates of rows and
    bound every row. *)
Lemma date_extremes (df : DataFrame) :
  df <> [] ->
  exists hi lo,
    date_max df = Ok hi /\ date_min df = Ok lo /\
    In hi (map date df) /\ In lo (map date df) /\
    forall r, In r df -> lo <= date r <= hi.
Proof.
  destruct df as [|r rest]; [congruence | intros _].
  exists (fold_left Z.max (map date rest) (date r)),
         (fold_left Z.min (map date rest) (date r)).
  repeat split.
  - apply (fold_max_in (map date rest) (date r)).
  - apply (fold_min_in (map date rest) (date r)).
  - destruct H as [<-|H].
    + apply (proj1 (fold_min_le _ _)).
    + apply (proj2 (fold_min_le _ _)), in_map, H.
  - destruct H as [<-|H].
    + apply (proj1 (fold_max_ge _ _)).
    + apply (proj2 (fold_max_ge _ _)), in_map, H.
Qed.


(** The verdict on a non-empty frame, field by field. *)
Lemma verdict_nonempty (df : DataFrame) (min_days min_transactions min_expenses : Z) :
  df <> [] ->
  exists v,
    check_data_sufficiency df min_days min_transactions min_expenses = Ok v /\
    days_of_data v = days_spanned df /\
    total_transactions v = total_count df /\
    expense_transactions v = expense_count df /\
    sufficient v = (min_days <=? days_spanned df)
                   && (min_transactions <=? total_count df)
                   && (min_expenses <=? expense_count df) /\
    ((min_days <=? days_spanned df) = false ->
     contains (reason v) (reason_days (days_spanned df) min_days)) /\
    ((min_transactions <=? total_count df) = false ->
     contains (reason v) (reason_transactions (total_count df) min_transactions)) /\
    ((min_expenses <=? expense_count df) = false ->
     contains (reason v) (reason_expenses (expense_count df) min_expenses)).
Proof.
  intros Hne.
  destruct (date_extremes df Hne) as (hi & lo & Hhi & Hlo & _).
  unfold check_data_sufficiency, days_spanned, total_count, expense_count.
  destruct df as [|r rest]; [congruence|].
  cbn [empty]. rewrite Hhi, Hlo. cbn [bind].
  eexists; split; [reflexivity|]. cbn [days_of_data total_transactions
    expense_transactions sufficient reason].
  repeat split.
  - intros E. rewrite E. cbn [app].
    match goal with |- contains (String.concat _ (?x :: ?l)) _ =>
      apply (contains_concat "; " (x :: l)); now left end.
  - intros E. rewrite E.
    destruct (min_days <=? _); cbn [app];
      match goal with |- contains (String.concat _ ?l) _ =>
        apply (contains_concat "; " l); simpl; auto end.
  - intros E. rewrite E.
    destruct (min_days <=? _), (min_transactions <=? _); cbn [app];
      match goal with |- contains (String.concat _ ?l) _ =>
        apply (contains_concat "; " l); simpl; auto end.
Qed.



(** C9.  On the empty sample [check_data_sufficiency] returns normally, with
    [sufficient = false], reason "No transaction data found" and the three
    counts at 0, whatever the thresholds. *)
Theorem empty_sample_short_circuits (min_days min_transactions min_expenses : Z) :
  returns (check_data_sufficiency [] min_days min_transactions min_expenses) = true /\
  check_data_sufficiency [] min_days min_transactions min_expenses =
  Ok {| sufficient := false;
        reason := "No transaction data found";
        days_of_data := 0;
        total_transactions := 0;
        expense_transactions := 0;
        oldest_transaction := None;
        newest_transaction := None |}.
Proof.
  split; reflexivity.
Qed.

End Sufficiency.

(** ** Rounding and clamping *)

Section RoundingFacts.
Import Py.
Open Scope Q_scope.

Lemma Qltb_lt (x y : Q) : Qltb x y = true <-> x < y.
Proof.
  unfold Qltb. rewrite negb_true_iff. split.
  - intros H. apply Qnot_le_lt. intros L. apply Qle_bool_iff in L. congruence.
  - intros H. destruct (Qle_bool y x) eqn:E; [|reflexivity].
    apply Qle_bool_iff in E. exfalso. apply (Qlt_not_le _ _ H E).
Qed.

Lemma Qltb_ge (x y : Q) : Qltb x y = false <-> y <= x.
Proof.
  unfold Qltb. rewrite negb_false_iff. apply Qle_bool_iff.
Qed.

(** The three outcomes of the comparison inside [round_half_even]. *)
Lemma round_half_even_cases (x : Q) :
  let f := Qfloor x in
  (x - inject_Z f < 1 # 2 /\ round_half_even x = f) \/
  (1 # 2 < x - inject_Z f /\ round_half_even x = (f + 1)%Z) \/
  (x - inject_Z f == 1 # 2 /\
   round_half_even x = if Z.even f then f else (f + 1)%Z).
Proof.
  intros f. unfold round_half_even. fold f.
  destruct (x - inject_Z f ?= 1 # 2) eqn:E.
  - right; right. split; [now apply Qeq_alt | reflexivity].
  - left. split; [now apply Qlt_alt | reflexivity].
  - right; left. split; [now apply Qgt_alt in E | reflexivity].
Qed.

Lemma floor_bounds (x : Q) :
  inject_Z (Qfloor x) <= x /\ x < inject_Z (Qfloor x) + 1.
Proof.
  split; [apply Qfloor_le|].
  pose proof (Qlt_floor x) as H. rewrite inject_Z_plus in H. exact H.
Qed.

(** Rounding moves a value by at most one half. *)
Lemma round_half_even_error (x : Q) :
  x - (1 # 2) <= inject_Z (round_half_even x) <= x + (1 # 2).
Proof.
  destruct (floor_bounds x) as [Hlo Hhi].
  destruct (round_half_even_cases x) as [[H ->]|[[H ->]|[H ->]]].
  - lra.
  - rewrite inject_Z_plus. change (inject_Z 1) with 1. lra.
  - destruct (Z.even (Qfloor x)).
    + lra.
    + rewrite inject_Z_plus. change (inject_Z 1) with 1. lra.
Qed.

(** Rounding is monotone. *)
Lemma round_half_even_mono (x y : Q) :
  x <= y -> (round_half_even x <= round_half_even y)%Z.
Proof.
  intros Hxy.
  pose proof (Qfloor_resp_le x y Hxy) as Hf.
  destruct (floor_bounds x) as [Hxl Hxh], (floor_bounds y) as [Hyl Hyh].
  destruct (Z.eq_dec (Qfloor x) (Qfloor y)) as [E|NE].
  - destruct (round_half_even_cases x) as [[Hx ->]|[[Hx ->]|[Hx ->]]];
    destruct (round_half_even_cases y) as [[Hy ->]|[[Hy ->]|[Hy ->]]];
    rewrite <- ?E in *;
    repeat match goal with |- context [Z.even ?f] => destruct (Z.even f) end;
    try lia; exfalso; lra.
  - destruct (round_half_even_cases x) as [[Hx ->]|[[Hx ->]|[Hx ->]]];
    destruct (round_half_even_cases y) as [[Hy ->]|[[Hy ->]|[Hy ->]]];
    repeat match goal with |- context [Z.even ?f] => destruct (Z.even f) end;
    lia.
Qed.

Lemma round2_as_quotient (x : Q) :
  round2 x == inject_Z (round_half_even (x * 100)) / 100.
Proof.
  unfold round2. rewrite (Qmake_Qdiv (round_half_even (x * 100)) 100). reflexivity.
Qed.

(** [round(x, 2)] moves a value by at most half a cent. *)
Lemma round2_error (x : Q) : x - (1 # 200) <= round2 x <= x + (1 # 200).
Proof.
  rewrite round2_as_quotient.
  pose proof (round_half_even_error (x * 100)) as [L U].
  split.
  - apply Qle_shift_div_l; [reflexivity | lra].
  - apply Qle_shift_div_r; [reflexivity | lra].
Qed.

Lemma round2_mono (x y : Q) : x <= y -> round2 x <= round2 y.
Proof.
  intros H. unfold round2, Qle. cbn [Qnum Qden].
  apply Z.mul_le_mono_nonneg_r; [lia|].
  apply round_half_even_mono. lra.
Qed.

Lemma max0_nonneg (x : Q) : 0 <= max0 x.
Proof.
  unfold max0. destruct (Qltb 0 x) eqn:E; [|lra].
  apply Qltb_lt in E. lra.
Qed.




End RoundingFacts.

(** ** Category trend *)

Section TrendFacts.
Import Py BudgetService.
Open Scope Q_scope.




End TrendFacts.

(** ** Budget recommendations *)

Section BudgetFacts.
Import Py BudgetService Samples.
Open Scope Q_scope.

Lemma round_half_even_compat (x y : Q) :
  x == y -> round_half_even x = round_half_even y.
Proof.
  intros E. apply Z.le_antisymm; apply round_half_even_mono; lra.
Qed.

Lemma round2_compat (x y : Q) : x == y -> round2 x = round2 y.
Proof.
  intros E. unfold round2. f_equal. apply round_half_even_compat. lra.
Qed.

Lemma in_insert_desc {A} (key : A -> Q) (x y : A) (l : list A) :
  In y (insert_desc key x l) <-> y = x \/ In y l.
Proof.
  induction l as [|z l IH]; simpl.
  - intuition.
  - destruct (Qltb (key x) (key z)); simpl; rewrite ?IH; intuition.
Qed.

Lemma in_sort_desc {A} (key : A -> Q) (y : A) (l : list A) :
  In y (sort_desc key l) <-> In y l.
Proof.
  induction l as [|x l IH]; simpl; [tauto|].
  rewrite in_insert_desc, IH. intuition.
Qed.

Lemma length_insert_desc {A} (key : A -> Q) (x : A) (l : list A) :
  List.length (insert_desc key x l) = S (List.length l).
Proof.
  induction l as [|z l IH]; simpl; [reflexivity|].
  destruct (Qltb (key x) (key z)); simpl; [now rewrite IH | reflexivity].
Qed.

Lemma length_sort_desc {A} (key : A -> Q) (l : list A) :
  List.length (sort_desc key l) = List.length l.
Proof.
  induction l as [|x l IH]; simpl; [reflexivity|].
  now rewrite length_insert_desc, IH.
Qed.

Lemma Qsum_insert_desc {A} (key f : A -> Q) (x : A) (l : list A) :
  Qsum (map f (insert_desc key x l)) == f x + Qsum (map f l).
Proof.
  induction l as [|z l IH]; simpl; [reflexivity|].
  destruct (Qltb (key x) (key z)); simpl; [rewrite IH; ring | reflexivity].
Qed.

Lemma Qsum_sort_desc {A} (key f : A -> Q) (l : list A) :
  Qsum (map f (sort_desc key l)) == Qsum (map f l).
Proof.
  induction l as [|x l IH]; simpl; [reflexivity|].
  now rewrite Qsum_insert_desc, IH.
Qed.









End BudgetFacts.

Section BudgetWitness.
Import Py BudgetService Samples.
Open Scope Q_scope.

Lemma sqrt_milli_nonneg (x : Q) : 0 <= sqrt_milli x.
Proof.
  unfold sqrt_milli. apply Qle_shift_div_l; [reflexivity|].
  rewrite Qmult_0_l. change 0 with (inject_Z 0).
  rewrite <- Zle_Qle. apply Z.sqrt_nonneg.
Qed.


End BudgetWitness.

(** ** Budget optimisation *)

Section OptimizeFacts.
Import Py BudgetService Samples.
Open Scope Q_scope.







End OptimizeFacts.

(** ** Forecast *)

Section ForecastFacts.
Import Py ForecastService Samples.
Open Scope Q_scope.

Variable sqrt : Q -> Q.
Variable prophet : list DailyRow -> Z -> result (list ForecastRow).






Lemma forecast_of_respond (df : list DailyRow) (rows : list ForecastRow) (n : Z) :
  forecast (respond df rows n) = map emit rows.
Proof. reflexivity. Qed.



End ForecastFacts.

Section ForecastWitness.
Import Py ForecastService Samples.
Open Scope Q_scope.



End ForecastWitness.

(** ** Forecast fallback *)

Section FallbackFacts.
Import Py ForecastService Samples.

Lemma in_range (n x : Z) : In x (range n) <-> 0 <= x < n.
Proof.
  unfold range. rewrite in_map_iff. split.
  - intros (k & <- & Hk). apply in_seq in Hk. lia.
  - intros H. exists (Z.to_nat x). split; [lia|]. apply in_seq. lia.
Qed.

Lemma length_range (n : Z) : List.length (range n) = Z.to_nat n.
Proof.
  unfold range. now rewrite length_map, length_seq.
Qed.

Lemma in_date_range (lo hi x : Z) : In x (date_range lo hi) <-> lo <= x <= hi.
Proof.
  unfold date_range. rewrite in_map_iff. split.
  - intros (k & <- & Hk). apply in_range in Hk. lia.
  - intros H. exists (x - lo). split; [lia|]. apply in_range. lia.
Qed.

(** Extremes of a list that holds exactly the integers of an interval. *)
Lemma interval_extremes (lo hi a : Z) (l : list Z) :
  (forall x, In x (a :: l) <-> lo <= x <= hi) ->
  fold_left Z.max l a = hi /\ fold_left Z.min l a = lo.
Proof.
  intros H.
  assert (Hlohi : lo <= hi) by (pose proof (proj1 (H a) (or_introl eq_refl)); lia).
  pose proof (fold_max_ge l a) as [M1 M2].
  pose proof (fold_max_in l a) as M3.
  pose proof (fold_min_le l a) as [m1 m2].
  pose proof (fold_min_in l a) as m3.
  apply H in M3. apply H in m3.
  assert (Hhi : In hi (a :: l)) by (apply H; lia).
  assert (Hlo : In lo (a :: l)) by (apply H; lia).
  split.
  - destruct Hhi as [E|Hhi]; [lia | specialize (M2 _ Hhi); lia].
  - destruct Hlo as [E|Hlo]; [lia | specialize (m2 _ Hlo); lia].
Qed.

Lemma span_of_interval (lo hi : Z) (df : list DailyRow) :
  lo <= hi -> map ds df = date_range lo hi ->
  span_days df = Z.of_nat (List.length df).
Proof.
  intros Hle Hds.
  assert (Hlen : List.length df = Z.to_nat (hi - lo + 1)).
  { rewrite <- (length_map ds), Hds. unfold date_range.
    now rewrite length_map, length_range. }
  destruct df as [|r rest]; [simpl in Hlen; lia|].
  unfold span_days.
  destruct (interval_extremes lo hi (ds r) (map ds rest)) as [-> ->].
  - intros x. change (ds r :: map ds rest) with (map ds (r :: rest)).
    rewrite Hds. apply in_date_range.
  - rewrite Hlen. lia.
Qed.

(** The daily frame is contiguous: it has one row per day of its span. *)
Lemma prepared_span (transactions : DataFetcher.DataFrame) :
  span_days (prepare_data transactions)
  = Z.of_nat (List.length (prepare_data transactions)).
Proof.
  unfold prepare_data.
  destruct (DataFetcher.empty transactions); [reflexivity|].
  destruct (DataFetcher.expenses_of transactions) as [|e rest]; [reflexivity|].
  set (lo := fold_left Z.min (map day_of rest) (day_of e)).
  set (hi := fold_left Z.max (map day_of rest) (day_of e)).
  apply (span_of_interval lo hi).
  - pose proof (proj1 (fold_min_le (map day_of rest) (day_of e))).
    pose proof (proj1 (fold_max_ge (map day_of rest) (day_of e))).
    subst lo hi. lia.
  - rewrite map_map. cbn [ds]. apply map_id.
Qed.

Open Scope Q_scope.




End FallbackFacts.

(** ** Goal prediction *)

Section GoalFacts.
Import Py Calendar GoalService Samples.
Open Scope Q_scope.

Variable sqrt : Q -> Q.
Variable strptime : string -> option datetime.
Variable now : datetime.

(** C4.  With [target_amount - current_amount <= 0] the prediction is
    [achievement_probability = 100.0], [status = "achieved"],
    [months_required = 0], whatever the monthly contribution, the deadline
    and the transactions of the user. *)
Theorem achieved_goal_short_circuits
    (df : DataFetcher.DataFrame)
    (target_amount current_amount monthly_contribution : Q) (deadline : option string) :
  target_amount - current_amount <= 0 ->
  let r := predict_goal_achievement sqrt strptime now df
             target_amount current_amount monthly_contribution deadline in
  success r = true /\
  achievement_probability r = Fin 100.0 /\
  status r = achieved /\
  months_required r = Some 0.
Proof.
  intros H r. subst r. unfold predict_goal_achievement.
  apply Qle_bool_iff in H. rewrite H. cbn. repeat split.
Qed.



End GoalFacts.

Section GoalWitnesses.
Import Py GoalService Samples.
Open Scope Q_scope.

(** A goal of 1000 already reached, with a contribution and a deadline. *)
Lemma achieved_goal_short_circuits_witness :
  1000 - 1000 <= 0 /\
  achievement_probability
    (predict_goal_achievement sqrt_milli one_deadline today two_day_sample
       1000 1000 50 (Some "2030-06-30"%string)) = Fin 100.0.
Proof.
  assert (H : 1000 - 1000 <= 0) by discriminate.
  split; [exact H|].
  exact (proj1 (proj2 (achieved_goal_short_circuits sqrt_milli one_deadline today
                         two_day_sample 1000 1000 50 (Some "2030-06-30"%string) H))).
Defined.



End GoalWitnesses.

(** ** Degraded insights *)

Section InsightsFacts.
Import Py InsightsService Samples.

Ltac case_ifs :=
  repeat match goal with
         | |- context [if ?b then _ else _] => destruct b
         end.

Lemma gathered_well_formed (services : ServiceResults) :
  well_formed (_gather_financial_context services).
Proof.
  unfold well_formed, _gather_financial_context.
  destruct (forecast_result services) as [f|ef];
    [destruct (ForecastService.success f)|];
  (destruct (anomalies_result services) as [a|ea];
    [destruct (anomaly_success a); [destruct (anomaly_statistics a)|]|]);
  (destruct (budgets_result services) as [b|eb];
    [destruct (BudgetService.success b)|]);
  (destruct (goals_result services) as [g|eg];
    [destruct (goals_success g)|]);
  cbn; repeat split; intros H; try discriminate H; eauto.
Qed.

Lemma forecast_lines_ok (c : Context) :
  well_formed c -> exists l, forecast_lines c = Ok l.
Proof.
  intros (H & _). unfold forecast_lines.
  destruct (get (forecast_available c) false); [|eauto].
  destruct (H eq_refl) as [v ->]. cbn. case_ifs; eauto.
Qed.

Lemma anomaly_lines_ok (c : Context) :
  well_formed c -> exists l, anomaly_lines c = Ok l.
Proof.
  intros (_ & H & _). unfold anomaly_lines.
  destruct (0 <? get (anomalies_count c) 0)%Z; [|eauto].
  destruct (H eq_refl) as [v ->]. cbn. eauto.
Qed.

Lemma goal_lines_ok (c : Context) :
  well_formed c -> exists l, goal_lines c = Ok l.
Proof.
  intros (_ & _ & _ & H). unfold goal_lines.
  destruct (0 <? get (goals_count c) 0)%Z; [|eauto].
  destruct (H eq_refl) as [v ->]. cbn. case_ifs; eauto.
Qed.

Lemma budget_lines_ok (c : Context) :
  well_formed c -> exists l, budget_lines c = Ok l.
Proof.
  intros (_ & _ & H & _). unfold budget_lines.
  destruct (get (budget_available c) false); [|eauto].
  destruct (H eq_refl) as [v ->]. cbn. eauto.
Qed.

Lemma caution_lines_ok (c : Context) :
  well_formed c -> exists l, caution_lines c = Ok l.
Proof.
  intros (_ & _ & _ & H). unfold caution_lines.
  destruct (0 <? get (goals_count c) 0)%Z.
  - destruct (H eq_refl) as [v ->]. cbn.
    destruct (overall_assessment v); case_ifs; eauto.
  - destruct (financial_summary c); case_ifs; eauto.
Qed.

(** The rule-based narrative never raises on a gathered context. *)
Lemma basic_insights_total (c : Context) :
  well_formed c -> exists text, _generate_basic_insights c = Ok text.
Proof.
  intros W. unfold _generate_basic_insights.
  destruct (forecast_lines_ok c W) as [l1 ->].
  destruct (anomaly_lines_ok c W) as [l2 ->].
  destruct (goal_lines_ok c W) as [l3 ->].
  destruct (budget_lines_ok c W) as [l4 ->].
  destruct (caution_lines_ok c W) as [l5 ->].
  cbn. eauto.
Qed.

(** C5.  When the sufficiency check passes, the gathered context has data
    and the remote narrative call raises, [generate_comprehensive_insights]
    answers [success = true], [ai_unavailable = true] and the text of
    [_generate_basic_insights] on the gathered context: a function of the
    context alone, which the remote capability does not enter. *)
Theorem degraded_insights_on_remote_failure
    (generate_content : string -> result string)
    (df : DataFetcher.DataFrame) (services : ServiceResults)
    (sufficiency : DataFetcher.SufficiencyVerdict) (prompt : string) (gemini_error : exn) :
  let context := _gather_financial_context services in
  DataFetcher.check_data_sufficiency df INSIGHTS_MIN_DAYS MIN_TRANSACTIONS 10
  = Ok sufficiency ->
  DataFetcher.sufficient sufficiency = true ->
  has_data context = true ->
  _build_insights_prompt context = Ok prompt ->
  generate_content prompt = Raise gemini_error ->
  exists text,
    _generate_basic_insights context = Ok text /\
    generate_comprehensive_insights generate_content df services
    = {| success := true; error := None; insights := text;
         ai_unavailable := true;
         context_used := Some (context_used_of context);
         data_info := None |}.
Proof.
  intros context Hcheck Hsuff Hdata Hprompt Hremote.
  destruct (basic_insights_total context (gathered_well_formed services))
    as [text Htext].
  exists text. split; [exact Htext|].
  unfold generate_comprehensive_insights. fold context.
  rewrite Hcheck, Hsuff, Hdata, Hprompt. cbn [negb bind].
  now rewrite Hremote, Htext.
Qed.

End InsightsFacts.

Section InsightsWitness.
Import Py InsightsService Samples.

(** A month of meals, the remote service down: the answer is the
    rule-based narrative, flagged. *)
Lemma degraded_insights_on_remote_failure_witness :
  let response := generate_comprehensive_insights remote_down
                    (daily_expenses 30 10) month_of_meals in
  success response = true /\
  ai_unavailable response = true /\
  Ok (insights response)
  = _generate_basic_insights (_gather_financial_context month_of_meals).
Proof.
  pose (context := _gather_financial_context month_of_meals).
  pose (sufficiency :=
          match DataFetcher.check_data_sufficiency (daily_expenses 30 10)
                  INSIGHTS_MIN_DAYS MIN_TRANSACTIONS 10 with
          | Ok v => v
          | Raise _ => {| DataFetcher.sufficient := false; DataFetcher.reason := "";
                          DataFetcher.days_of_data := 0;
                          DataFetcher.total_transactions := 0;
                          DataFetcher.expense_transactions := 0;
                          DataFetcher.oldest_transaction := None;
                          DataFetcher.newest_transaction := None |}
          end).
  pose (prompt := match _build_insights_prompt context with
                  | Ok p => p
                  | Raise _ => ""%string
                  end).
  destruct (degraded_insights_on_remote_failure remote_down
              (daily_expenses 30 10) month_of_meals sufficiency prompt
              (RemoteError "503 service unavailable"))
    as (text & Htext & Hresponse);
    try (vm_compute; reflexivity).
  cbv zeta. rewrite Hresponse. cbn [success ai_unavailable insights].
  repeat split. symmetry. exact Htext.
Defined.

End InsightsWitness.

(** ** Goal prediction: bounds and edge cases *)

Section GoalBounds.
Import Py Calendar GoalService Samples.
Open Scope Q_scope.

Variable sqrt : Q -> Q.
Variable strptime : string -> option datetime.
Variable now : datetime.

(** [max(5, min(95, p))] is a finite number between 5 and 95 whatever [p]
    is, NaN and the infinities included. *)
Lemma clamp_5_95 (p : pyfloat) :
  exists q, fmax (Fin 5) (fmin (Fin 95) p) = Fin q /\ 5 <= q <= 95.
Proof.
  destruct p as [a| | |]; unfold fmin, fmax; cbn [flt].
  - destruct (Qltb a 95) eqn:E1; cbn [flt].
    + destruct (Qltb 5 a) eqn:E2.
      * exists a. apply Qltb_lt in E1, E2. split; [reflexivity | lra].
      * exists 5. split; [reflexivity | lra].
    + exists 95. split; [reflexivity | lra].
  - exists 95. split; [reflexivity | lra].
  - exists 5. split; [reflexivity | lra].
  - exists 95. split; [reflexivity | lra].
Qed.

(** The probability model never leaves [5, 95], for every contribution,
    savings history, consistency score (NaN included), horizon (infinite
    included) and deadline. *)
Theorem probability_between_5_and_95
    (monthly_contribution avg_savings : Q) (consistency months_required : pyfloat)
    (deadline : option string) :
  exists q,
    _calculate_achievement_probability strptime now monthly_contribution avg_savings
      consistency months_required deadline = Fin q /\
    5 <= q <= 95.
Proof.
  unfold _calculate_achievement_probability. apply clamp_5_95.
Qed.

Lemma round2_fixes_cents (z : Z) : round2 (inject_Z z) == inject_Z z.
Proof.
  rewrite round2_as_quotient.
  assert (E : round_half_even (inject_Z z * 100) = (z * 100)%Z).
  { assert (H : inject_Z z * 100 == inject_Z (z * 100))
      by (rewrite inject_Z_mult; reflexivity).
    rewrite (round_half_even_compat _ _ H).
    unfold round_half_even. rewrite Qfloor_Z.
    assert (C : (inject_Z (z * 100) - inject_Z (z * 100) ?= 1 # 2) = Lt).
    { rewrite <- Qlt_alt. generalize (inject_Z (z * 100)). intros q. lra. }
    now rewrite C. }
  rewrite E, inject_Z_mult. field.
Qed.

Lemma round2_between (lo hi : Z) (x : Q) :
  inject_Z lo <= x <= inject_Z hi -> inject_Z lo <= round2 x <= inject_Z hi.
Proof.
  intros [L U]. split.
  - rewrite <- (round2_fixes_cents lo). now apply round2_mono.
  - rewrite <- (round2_fixes_cents hi). now apply round2_mono.
Qed.

(** The shape of every prediction that is not the "achieved" short cut. *)
Lemma prediction_shape
    (df : DataFetcher.DataFrame)
    (target_amount current_amount monthly_contribution : Q) (deadline : option string) :
  0 < target_amount - current_amount ->
  ~ target_amount == 0 ->
  let stats := calculate_savings_rate sqrt df in
  let remaining := target_amount - current_amount in
  let months :=
    if Qle_bool monthly_contribution 0 then PInf
    else if Qltb 9999 (remaining / monthly_contribution) then Fin 9999
         else Fin (remaining / monthly_contribution) in
  let probability :=
    _calculate_achievement_probability strptime now monthly_contribution
      (avg_monthly_savings stats) (consistency_score stats) months deadline in
  let r := predict_goal_achievement sqrt strptime now df
             target_amount current_amount monthly_contribution deadline in
  success r = true /\
  achievement_probability r = fround2 probability /\
  status r = status_of probability /\
  months_required r = match months with Fin m => Some (round1 m) | _ => None end /\
  (estimated_completion_date r = None <->
   monthly_contribution <= 0 \/ 9999 < remaining / monthly_contribution).
Proof.
  intros Hrem Htarget stats remaining months probability r.
  subst r probability months. unfold predict_goal_achievement.
  fold stats. fold remaining.
  assert (E : Qle_bool remaining 0 = false).
  { destruct (Qle_bool remaining 0) eqn:E; [|reflexivity].
    apply Qle_bool_iff in E. unfold remaining in E. lra. }
  assert (T : Qeq_bool target_amount 0 = false).
  { destruct (Qeq_bool target_amount 0) eqn:T; [|reflexivity].
    apply Qeq_bool_eq in T. contradiction. }
  rewrite E.
  destruct (Qle_bool monthly_contribution 0) eqn:C.
  - rewrite T. cbn. repeat split; auto.
    left. now apply Qle_bool_iff.
  - assert (C' : 0 < monthly_contribution).
    { apply Qnot_le_lt. intros L. apply Qle_bool_iff in L. congruence. }
    destruct (Qltb 9999 (remaining / monthly_contribution)) eqn:M.
    + rewrite T. cbn. repeat split; auto.
      right. now apply Qltb_lt.
    + rewrite T. cbn. repeat split; auto; try discriminate.
      apply Qltb_ge in M. intros [L|L]; lra.
Qed.

(** For a goal that is not reached yet and whose prediction completes, the
    reported probability is the 2-decimal rounding of a value [p] in
    [5, 95] (so it is itself in [5, 95]) and the status is read from [p]:
    highly_likely from 80, possible from 50, challenging from 30, unlikely
    below; it is never "achieved" nor "error". *)
Theorem prediction_probability_and_status
    (df : DataFetcher.DataFrame)
    (target_amount current_amount monthly_contribution : Q) (deadline : option string) :
  0 < target_amount - current_amount ->
  ~ target_amount == 0 ->
  let r := predict_goal_achievement sqrt strptime now df
             target_amount current_amount monthly_contribution deadline in
  exists p,
    5 <= p <= 95 /\
    achievement_probability r = Fin (round2 p) /\
    5 <= round2 p <= 95 /\
    (80 <= p -> status r = highly_likely) /\
    (50 <= p < 80 -> status r = possible) /\
    (30 <= p < 50 -> status r = challenging) /\
    (p < 30 -> status r = unlikely) /\
    status r <> achieved /\ status r <> status_error.
Proof.
  intros Hrem Htarget r.
  destruct (prediction_shape df target_amount current_amount monthly_contribution
              deadline Hrem Htarget) as (_ & Hp & Hs & _).
  fold r in Hp, Hs.
  assert (Hclamp : forall contribution avg consistency months d,
             exists q,
               _calculate_achievement_probability strptime now contribution avg
                 consistency months d = Fin q /\ 5 <= q <= 95)
    by (intros; unfold _calculate_achievement_probability; apply clamp_5_95).
  match type of Hp with _ = fround2 ?P => destruct (Hclamp
    monthly_contribution
    (avg_monthly_savings (calculate_savings_rate sqrt df))
    (consistency_score (calculate_savings_rate sqrt df))
    (if Qle_bool monthly_contribution 0 then PInf
     else if Qltb 9999 ((target_amount - current_amount) / monthly_contribution)
          then Fin 9999
          else Fin ((target_amount - current_amount) / monthly_contribution))
    deadline) as (p & Ep & Hrange) end.
  rewrite Ep in Hp, Hs. exists p.
  split; [exact Hrange|]. split; [exact Hp|].
  split; [apply (round2_between 5 95); exact Hrange|].
  rewrite Hs. unfold status_of. cbn [fle].
  repeat split.
  - intros H. apply Qle_bool_iff in H. now rewrite H.
  - intros [H1 H2].
    assert (F : Qle_bool 80 p = false).
    { destruct (Qle_bool 80 p) eqn:F; [apply Qle_bool_iff in F; lra | reflexivity]. }
    apply Qle_bool_iff in H1. now rewrite F, H1.
  - intros [H1 H2].
    assert (F : Qle_bool 80 p = false).
    { destruct (Qle_bool 80 p) eqn:F; [apply Qle_bool_iff in F; lra | reflexivity]. }
    assert (G : Qle_bool 50 p = false).
    { destruct (Qle_bool 50 p) eqn:G; [apply Qle_bool_iff in G; lra | reflexivity]. }
    apply Qle_bool_iff in H1. now rewrite F, G, H1.
  - intros H.
    assert (F : Qle_bool 80 p = false).
    { destruct (Qle_bool 80 p) eqn:F; [apply Qle_bool_iff in F; lra | reflexivity]. }
    assert (G : Qle_bool 50 p = false).
    { destruct (Qle_bool 50 p) eqn:G; [apply Qle_bool_iff in G; lra | reflexivity]. }
    assert (K : Qle_bool 30 p = false).
    { destruct (Qle_bool 30 p) eqn:K; [apply Qle_bool_iff in K; lra | reflexivity]. }
    now rewrite F, G, K.
  - destruct (Qle_bool 80 p), (Qle_bool 50 p), (Qle_bool 30 p); discriminate.
  - destruct (Qle_bool 80 p), (Qle_bool 50 p), (Qle_bool 30 p); discriminate.
Qed.

End GoalBounds.

Section GoalEdges.
Import Py Calendar GoalService Samples.
Open Scope Q_scope.

Variable sqrt : Q -> Q.
Variable strptime : string -> option datetime.
Variable now : datetime.

Lemma round1_as_quotient (x : Q) :
  round1 x == inject_Z (round_half_even (x * 10)) / 10.
Proof.
  unfold round1. rewrite (Qmake_Qdiv (round_half_even (x * 10)) 10). reflexivity.
Qed.




(** A goal with a target of 0 and a negative current amount is not reached
    (remaining > 0); its progress percentage divides by the target, the
    exception is caught and the answer is the error dictionary. *)
Theorem zero_target_is_an_error
    (df : DataFetcher.DataFrame)
    (target_amount current_amount monthly_contribution : Q) (deadline : option string) :
  0 < target_amount - current_amount ->
  target_amount == 0 ->
  predict_goal_achievement sqrt strptime now df
    target_amount current_amount monthly_contribution deadline
  = {| success := false; error := Some "float division by zero"%string;
       achievement_probability := Fin 0; status := status_error;
       months_required := None; estimated_completion_date := None; message := None;
       is_realistic := None; current_progress_percentage := None;
       savings_statistics := None; recommendations := [] |}.
Proof.
  intros Hrem Htarget. unfold predict_goal_achievement.
  assert (E : Qle_bool (target_amount - current_amount) 0 = false).
  { destruct (Qle_bool _ 0) eqn:E; [|reflexivity]. apply Qle_bool_iff in E. lra. }
  rewrite E, (Qeq_eq_bool _ _ Htarget).
  destruct (Qle_bool monthly_contribution 0); [reflexivity|].
  destruct (Qltb 9999 _); reflexivity.
Qed.

(** A NaN consistency score makes the probability 95: the NaN survives every
    multiplication and [min(95, nan)] is 95. *)
Lemma nan_consistency_gives_95
    (monthly_contribution avg_savings : Q) (months_required : pyfloat)
    (deadline : option string) :
  _calculate_achievement_probability strptime now monthly_contribution avg_savings
    NaN months_required deadline = Fin 95.
Proof.
  unfold _calculate_achievement_probability.
  repeat match goal with
         | |- context [match truthy ?d with _ => _ end] => destruct (truthy d)
         | |- context [match strptime ?s with _ => _ end] => destruct (strptime s)
         | |- context [if ?b then _ else _] => destruct b
         end; reflexivity.
Qed.

Lemma unique_from_seen (m : Z) (seen l : list Z) :
  In m seen -> (forall x, In x l -> x = m) -> unique_from seen l = [].
Proof.
  intros Hseen. induction l as [|x l IH]; intros Hall; [reflexivity|].
  cbn [unique_from].
  assert (x = m) by (apply Hall; now left). subst x.
  assert (E : existsb (Z.eqb m) seen = true).
  { apply existsb_exists. exists m. split; [exact Hseen | apply Z.eqb_refl]. }
  rewrite E. apply IH. intros y Hy. apply Hall. now right.
Qed.

Lemma unique_constant (m : Z) (l : list Z) :
  l <> [] -> (forall x, In x l -> x = m) -> unique l = [m].
Proof.
  destruct l as [|x l]; [congruence|]. intros _ Hall.
  unfold unique. cbn [unique_from existsb].
  assert (x = m) by (apply Hall; now left). subst x.
  f_equal. apply (unique_from_seen m); [now left|].
  intros y Hy. apply Hall. now right.
Qed.

Lemma filter_all {A} (f : A -> bool) (l : list A) :
  (forall x, In x l -> f x = true) -> filter f l = l.
Proof.
  induction l as [|x l IH]; intros H; [reflexivity|].
  cbn [filter]. rewrite (H x (or_introl eq_refl)). f_equal.
  apply IH. intros y Hy. apply H. now right.
Qed.

(** With all transactions in one calendar month and income above expenses,
    the standard deviation of the single monthly saving is NaN and the
    consistency score is NaN. *)
Lemma single_month_consistency (df : DataFetcher.DataFrame) (m : Z) :
  DataFetcher.empty df = false ->
  (forall t, In t df -> DataFetcher.period_M t = m) ->
  amount_of_type "expense" df < amount_of_type "income" df ->
  consistency_score (calculate_savings_rate sqrt df) = NaN.
Proof.
  intros Hne Hmonth Hpos. unfold calculate_savings_rate. rewrite Hne.
  assert (U : unique (map DataFetcher.period_M df) = [m]).
  { apply unique_constant.
    - destruct df; [discriminate Hne | discriminate].
    - intros x Hx. apply in_map_iff in Hx. destruct Hx as (t & <- & Ht).
      now apply Hmonth. }
  rewrite U. cbn [map consistency_score].
  unfold month_stat at 1. cbn [savings].
  assert (F : filter (fun t => (DataFetcher.period_M t =? m)%Z) df = df).
  { apply filter_all. intros t Ht. apply Z.eqb_eq. now apply Hmonth. }
  rewrite F.
  set (sav := amount_of_type "income" df - amount_of_type "expense" df).
  assert (P : Qltb 0 (Py.mean [sav]) = true).
  { apply Qltb_lt. unfold Py.mean, Qsum. cbn [fold_right List.length].
    change (inject_Z (Z.of_nat 1)) with 1. unfold sav.
    setoid_replace ((amount_of_type "income" df - amount_of_type "expense" df + 0) / 1)
      with (amount_of_type "income" df - amount_of_type "expense" df) by field.
    lra. }
  rewrite P. unfold series_std. cbn [List.length Nat.ltb Nat.leb].
  unfold npdiv, fdiv. destruct (Qeq_bool _ 0); reflexivity.
Qed.

(** With one calendar month of history and positive savings, every goal
    that is not reached gets probability 95 and status "highly_likely",
    whatever the contribution, the amounts and the deadline. *)
Theorem single_month_history_gives_95
    (df : DataFetcher.DataFrame) (m : Z)
    (target_amount current_amount monthly_contribution : Q) (deadline : option string) :
  DataFetcher.empty df = false ->
  (forall t, In t df -> DataFetcher.period_M t = m) ->
  amount_of_type "expense" df < amount_of_type "income" df ->
  0 < target_amount - current_amount ->
  ~ target_amount == 0 ->
  let r := predict_goal_achievement sqrt strptime now df
             target_amount current_amount monthly_contribution deadline in
  consistency_score (calculate_savings_rate sqrt df) = NaN /\
  achievement_probability r = Fin (round2 95) /\
  status r = highly_likely.
Proof.
  intros Hne Hmonth Hpos Hrem Htarget r.
  pose proof (single_month_consistency df m Hne Hmonth Hpos) as Hnan.
  destruct (prediction_shape sqrt strptime now df target_amount current_amount
              monthly_contribution deadline Hrem Htarget)
    as (_ & Hp & Hs & _).
  fold r in Hp, Hs. rewrite Hnan, nan_consistency_gives_95 in Hp, Hs.
  split; [exact Hnan|]. split; [exact Hp | exact Hs].
Qed.

End GoalEdges.

Section GoalEdgeWitnesses.
Import Py Calendar GoalService Samples.
Open Scope Q_scope.

Lemma thousand_not_zero : ~ 1000 == 0.
Proof. intros H. discriminate H. Qed.

(** A goal of 1000 from nothing, 50 a month, on the two-day history. *)
Lemma prediction_probability_and_status_witness :
  0 < 1000 - 0 /\
  exists p,
    5 <= p <= 95 /\
    achievement_probability
      (predict_goal_achievement sqrt_milli one_deadline today two_day_sample
         1000 0 50 (Some "2030-06-30"%string)) = Fin (round2 p).
Proof.
  assert (H : 0 < 1000 - 0) by reflexivity.
  split; [exact H|].
  destruct (prediction_probability_and_status sqrt_milli one_deadline today
              two_day_sample 1000 0 50 (Some "2030-06-30"%string) H thousand_not_zero)
    as (p & Hrange & Hp & _).
  exists p. split; [exact Hrange | exact Hp].
Defined.


(** A target of 0 with 50 owed. *)
Lemma zero_target_is_an_error_witness :
  0 < 0 - (-50) /\
  success (predict_goal_achievement sqrt_milli one_deadline today two_day_sample
             0 (-50) 10 None) = false.
Proof.
  assert (H : 0 < 0 - (-50)) by reflexivity.
  split; [exact H|].
  rewrite (zero_target_is_an_error sqrt_milli one_deadline today two_day_sample
             0 (-50) 10 None H (Qeq_refl 0)).
  reflexivity.
Defined.

(** The two-day history lies in January 1970: income 100, expense 12. *)
Lemma single_month_history_gives_95_witness :
  DataFetcher.empty two_day_sample = false /\
  status (predict_goal_achievement sqrt_milli one_deadline today two_day_sample
            1000000 0 1 None) = highly_likely.
Proof.
  split; [reflexivity|].
  refine (proj2 (proj2 (single_month_history_gives_95 sqrt_milli one_deadline today
                          two_day_sample 23640%Z 1000000 0 1 None eq_refl _ _ _ _))).
  - intros t [<-|[<-|[]]]; reflexivity.
  - reflexivity.
  - reflexivity.
  - intros H. discriminate H.
Defined.

End GoalEdgeWitnesses.

(** ** Data sufficiency: the reason text *)

Section SufficiencyReason.
Import Py DataFetcher Samples.


End SufficiencyReason.

(** ** Grouped sums *)

Section Grouping.
Import Py.
Open Scope Q_scope.

Lemma Qsum_cons (x : Q) (l : list Q) : Qsum (x :: l) = x + Qsum l.
Proof. reflexivity. Qed.

Lemma Qsum_zeros {K} (keys : list K) : Qsum (map (fun _ => 0) keys) == 0.
Proof.
  induction keys as [|k keys IH]; cbn [map]; [reflexivity|].
  rewrite Qsum_cons, IH. ring.
Qed.

Lemma Qsum_pointwise {K} (g h : K -> Q) (keys : list K) :
  Qsum (map (fun k => g k + h k) keys) == Qsum (map g keys) + Qsum (map h keys).
Proof.
  induction keys as [|k keys IH]; cbn [map]; [reflexivity|].
  rewrite !Qsum_cons, IH. ring.
Qed.

Lemma Qsum_ext {K} (g h : K -> Q) (keys : list K) :
  (forall k, In k keys -> g k == h k) -> Qsum (map g keys) == Qsum (map h keys).
Proof.
  induction keys as [|k keys IH]; intros H; cbn [map]; [reflexivity|].
  rewrite !Qsum_cons, (H k (or_introl eq_refl)), IH; [reflexivity|].
  intros k' Hk'. apply H. now right.
Qed.

Variables (A K : Type) (eqb : K -> K -> bool).
Hypothesis eqb_eq : forall a b, eqb a b = true <-> a = b.

(** Summing a value over the keys equal to [k0] picks it once when the keys
    are distinct and [k0] is one of them. *)
Lemma Qsum_indicator (k0 : K) (c : Q) (keys : list K) :
  NoDup keys -> In k0 keys ->
  Qsum (map (fun k => if eqb k0 k then c else 0) keys) == c.
Proof.
  induction keys as [|k keys IH]; intros Hnd Hin; [contradiction|].
  inversion Hnd as [|? ? Hnotin Hnd']; subst. cbn [map]. rewrite Qsum_cons.
  destruct Hin as [->|Hin].
  - assert (E : eqb k0 k0 = true) by now apply eqb_eq.
    rewrite E.
    rewrite (Qsum_ext (fun k => if eqb k0 k then c else 0) (fun _ => 0)).
    + rewrite Qsum_zeros. ring.
    + intros k Hk. destruct (eqb k0 k) eqn:F; [|reflexivity].
      apply eqb_eq in F. subst k. contradiction.
  - destruct (eqb k0 k) eqn:F.
    + apply eqb_eq in F. subst k. contradiction.
    + rewrite IH by assumption. ring.
Qed.

(** Grouping rows by a key and summing each group gives the same total as
    summing all rows, when the groups are the distinct keys and every row
    has its key among them. *)
Lemma Qsum_grouped (key : A -> K) (f : A -> Q) (keys : list K) (rows : list A) :
  NoDup keys -> (forall x, In x rows -> In (key x) keys) ->
  Qsum (map (fun k => Qsum (map f (filter (fun x => eqb (key x) k) rows))) keys)
  == Qsum (map f rows).
Proof.
  intros Hnd. induction rows as [|x rows IH]; intros Hcover.
  - cbn [filter map]. apply (Qsum_zeros keys).
  - rewrite (Qsum_ext _
      (fun k => (if eqb (key x) k then f x else 0)
                + Qsum (map f (filter (fun x => eqb (key x) k) rows)))).
    + rewrite Qsum_pointwise, Qsum_indicator, IH.
      * cbn [map]. now rewrite Qsum_cons.
      * intros y Hy. apply Hcover. now right.
      * exact Hnd.
      * apply Hcover. now left.
    + intros k _. cbn [filter].
      destruct (eqb (key x) k); cbn [map]; rewrite ?Qsum_cons; ring.
Qed.

End Grouping.

(** ** The daily frame *)

Section DailyFrame.
Import Py ForecastService Samples.
Open Scope Q_scope.

Lemma NoDup_map_injective {X Y} (f : X -> Y) (l : list X) :
  (forall a b, f a = f b -> a = b) -> NoDup l -> NoDup (map f l).
Proof.
  intros Hinj. induction 1 as [|x l Hx Hnd IH]; cbn [map]; constructor; [|exact IH].
  intros Hin. apply in_map_iff in Hin. destruct Hin as (x' & E & Hx').
  apply Hinj in E. subst x'. contradiction.
Qed.

Lemma NoDup_range (n : Z) : NoDup (range n).
Proof.
  unfold range. apply NoDup_map_injective.
  - intros a b. apply Nat2Z.inj.
  - apply seq_NoDup.
Qed.

Lemma NoDup_date_range (lo hi : Z) : NoDup (date_range lo hi).
Proof.
  unfold date_range. apply NoDup_map_injective.
  - intros a b H. lia.
  - apply NoDup_range.
Qed.

(** [prepare_data] keeps the money and fills the calendar: the daily amounts
    add up to the total of the expenses, the frame has one row per day from
    its first day on, and no day is repeated. *)
Theorem daily_frame_is_contiguous_and_keeps_total (df : DataFetcher.DataFrame) :
  Qsum (map y (prepare_data df))
  == Qsum (map DataFetcher.amount (DataFetcher.expenses_of df)) /\
  (forall first rest i,
     prepare_data df = first :: rest ->
     (i < List.length (prepare_data df))%nat ->
     option_map ds (nth_error (prepare_data df) i) = Some (ds first + Z.of_nat i)%Z) /\
  NoDup (map ds (prepare_data df)) /\
  span_days (prepare_data df) = Z.of_nat (List.length (prepare_data df)).
Proof.
  split; [|split; [|split]].
  - unfold prepare_data.
    destruct (DataFetcher.empty df) eqn:E.
    { destruct df; [reflexivity | discriminate E]. }
    destruct (DataFetcher.expenses_of df) as [|e rest]; [reflexivity|].
    set (lo := fold_left Z.min (map day_of rest) (day_of e)).
    set (hi := fold_left Z.max (map day_of rest) (day_of e)).
    rewrite map_map. cbn [y]. unfold daily_total.
    apply (Qsum_grouped _ _ Z.eqb Z.eqb_eq day_of DataFetcher.amount).
    + apply NoDup_date_range.
    + intros x Hx. apply in_date_range. subst lo hi.
      pose proof (fold_min_le (map day_of rest) (day_of e)) as [m1 m2].
      pose proof (fold_max_ge (map day_of rest) (day_of e)) as [M1 M2].
      destruct Hx as [<-|Hx]; [lia|].
      specialize (m2 _ (in_map day_of _ _ Hx)).
      specialize (M2 _ (in_map day_of _ _ Hx)). lia.
  - intros first rest i Hshape Hi.
    assert (Hds : exists lo hi, map ds (prepare_data df) = date_range lo hi).
    { unfold prepare_data in *.
      destruct (DataFetcher.empty df); [discriminate Hshape|].
      destruct (DataFetcher.expenses_of df) as [|e es]; [discriminate Hshape|].
      eexists _, _. rewrite map_map. cbn [ds]. apply map_id. }
    destruct Hds as (lo & hi & Hds).
    assert (Hfirst : ds first = lo).
    { rewrite Hshape in Hds. unfold date_range, range in Hds.
      destruct (Z.to_nat (hi - lo + 1)); [discriminate Hds|].
      cbn in Hds. injection Hds as -> _. lia. }
    rewrite <- nth_error_map, Hds, Hfirst.
    rewrite <- (length_map ds), Hds in Hi.
    unfold date_range, range in *. rewrite !length_map, length_seq in Hi.
    rewrite !nth_error_map, nth_error_seq.
    destruct (Nat.ltb_spec i (Z.to_nat (hi - lo + 1))); [reflexivity | lia].
  - unfold prepare_data.
    destruct (DataFetcher.empty df); [constructor|].
    destruct (DataFetcher.expenses_of df) as [|e es]; [constructor|].
    rewrite map_map. cbn [ds]. rewrite map_id. apply NoDup_date_range.
  - apply prepared_span.
Qed.

End DailyFrame.

(** ** Forecast: refusals and horizon *)

Section ForecastEdges.
Import Py ForecastService Samples.

Variable sqrt : Q -> Q.
Variable prophet : list DailyRow -> Z -> result (list ForecastRow).

(** A history whose daily frame spans fewer than 30 days is refused before
    any model is fitted: the answer is a failure with an empty forecast; it
    names "No transaction data found" when there is no expense at all and
    otherwise the measured span, which it also reports with the number of
    daily rows. *)
Theorem short_history_is_refused (transactions : DataFetcher.DataFrame) (forecast_days : Z) :
  span_days (prepare_data transactions) < FORECAST_MIN_DAYS ->
  let r := train_and_predict sqrt prophet transactions forecast_days in
  let df := prepare_data transactions in
  success r = false /\ forecast r = [] /\ statistics r = None /\
  (df = [] ->
   error r = Some "No transaction data found"%string /\ data_info r = None) /\
  (df <> [] ->
   error r = Some (insufficient_message (span_days df)) /\
   data_info r = Some {| days_of_data := span_days df;
                         total_data_points := span_days df |}).
Proof.
  intros Hspan r df. subst r. unfold train_and_predict. fold df.
  pose proof (prepared_span transactions) as Hlen. fold df in Hlen, Hspan.
  destruct df as [|row rest] eqn:E.
  - cbn. repeat split; auto; congruence.
  - apply Z.ltb_lt in Hspan. rewrite Hspan.
    cbn [failure success forecast statistics error data_info].
    repeat split; auto; congruence.
Qed.



End ForecastEdges.

Section ForecastEdgeWitnesses.
Import Py ForecastService Samples.

(** Two days of history. *)
Lemma short_history_is_refused_witness :
  span_days (prepare_data two_day_sample) < FORECAST_MIN_DAYS /\
  error (train_and_predict sqrt_milli flat_model two_day_sample 30)
  = Some "Insufficient data for forecasting (data spans 1 days, need 30+ days)"%string.
Proof.
  assert (H : span_days (prepare_data two_day_sample) < FORECAST_MIN_DAYS) by reflexivity.
  split; [exact H|].
  destruct (short_history_is_refused sqrt_milli flat_model two_day_sample 30 H)
    as (_ & _ & _ & _ & Hmsg).
  destruct Hmsg as [Hmsg _]; [discriminate|]. rewrite Hmsg. reflexivity.
Defined.


End ForecastEdgeWitnesses.

(** ** Budget recommendations: order, totals, matching *)

Section BudgetOrder.
Import Py BudgetService Ordering Samples.
Open Scope Q_scope.

Lemma descending_insert {A} (key : A -> Q) (x : A) (l : list A) :
  descending (map key l) -> descending (map key (insert_desc key x l)).
Proof.
  induction l as [|v l IH]; intros H.
  - cbn. split; [intros ? []|exact I].
  - cbn [insert_desc]. destruct H as [Hv Hl].
    destruct (Qltb (key x) (key v)) eqn:E.
    + cbn [map descending]. split.
      * intros w Hw. apply in_map_iff in Hw. destruct Hw as (a & <- & Ha).
        apply in_insert_desc in Ha. destruct Ha as [->|Ha].
        -- apply Qltb_lt in E. lra.
        -- apply Hv. now apply in_map.
      * now apply IH.
    + apply Qltb_ge in E. cbn [map descending]. split.
      * intros w [<-|Hw]; [exact E|].
        specialize (Hv w Hw). lra.
      * split; assumption.
Qed.

Lemma descending_sort {A} (key : A -> Q) (l : list A) :
  descending (map key (sort_desc key l)).
Proof.
  induction l as [|x l IH]; cbn [sort_desc fold_right]; [exact I|].
  now apply descending_insert.
Qed.

Lemma fold_left_sum {A} (f : A -> Q) (l : list A) (a : Q) :
  fold_left (fun acc r => acc + f r) l a == a + Qsum (map f l).
Proof.
  revert a. induction l as [|x l IH]; intros a; cbn [fold_left map].
  - unfold Qsum; cbn. ring.
  - rewrite IH, Qsum_cons. ring.
Qed.

(** A successful recommendation lists one entry per analysed category,
    highest amount first; the reported total is the rounded sum of the
    listed amounts, and the comparison block reports the same recommended
    total. *)
Theorem recommendations_are_ranked_and_totalled
    (sqrt : Q -> Q) (df : DataFetcher.DataFrame) (current_budgets : list Budget)
    (approach : string) :
  let r := recommend_budgets sqrt df current_budgets approach in
  success r = true ->
  descending (map recommended_amount (recommendations r)) /\
  List.length (recommendations r) = List.length (analyze_spending_patterns sqrt df) /\
  total_recommended_budget r
  = round2 (Qsum (map recommended_amount (recommendations r))) /\
  option_map compared_recommended_budget (comparison r)
  = Some (total_recommended_budget r).
Proof.
  intros r Hok. subst r. unfold recommend_budgets in *.
  destruct (DataFetcher.check_data_sufficiency _ _ _ _) as [suff|e];
    [|discriminate Hok].
  destruct (negb (DataFetcher.sufficient suff)); [discriminate Hok|].
  destruct (analyze_spending_patterns sqrt df) as [|p ps] eqn:E; [discriminate Hok|].
  cbn [recommendations total_recommended_budget comparison option_map].
  assert (Hsum :
    fold_left (fun acc r => acc + recommended_amount r)
              (map (recommend_category approach) (p :: ps)) 0
    == Qsum (map recommended_amount
                 (sort_desc recommended_amount
                    (map (recommend_category approach) (p :: ps))))).
  { rewrite fold_left_sum, Qsum_sort_desc. ring. }
  split; [apply descending_sort|].
  split; [now rewrite length_sort_desc, length_map|].
  split; [now apply round2_compat|].
  unfold _compare_with_current. cbn [compared_recommended_budget].
  f_equal. apply round2_compat. now rewrite Hsum.
Qed.

(** Forty days of meals. *)
Lemma recommendations_are_ranked_and_totalled_witness :
  success (recommend_budgets sqrt_milli (daily_expenses 40 10) [] "balanced") = true /\
  total_recommended_budget (recommend_budgets sqrt_milli (daily_expenses 40 10) [] "balanced")
  = round2 (Qsum (map recommended_amount
                      (recommendations
                         (recommend_budgets sqrt_milli (daily_expenses 40 10) [] "balanced")))).
Proof.
  split; [reflexivity|].
  exact (proj1 (proj2 (proj2
    (recommendations_are_ranked_and_totalled sqrt_milli (daily_expenses 40 10) []
       "balanced" eq_refl)))).
Defined.

End BudgetOrder.

(** ** Budget optimisation: coverage and degenerate spending *)

Section OptimizeCoverage.
Import Py BudgetService Ordering Samples.
Open Scope Q_scope.

Variable sqrt : Q -> Q.

Lemma patterns_empty_iff (df : DataFetcher.DataFrame) :
  analyze_spending_patterns sqrt df = [] <-> DataFetcher.expenses_of df = [].
Proof.
  unfold analyze_spending_patterns.
  destruct df as [|t df']; [cbn; tauto|].
  cbn [DataFetcher.empty].
  destruct (DataFetcher.expenses_of (t :: df')) as [|e es]; [cbn; tauto|].
  cbn. split; discriminate.
Qed.

Lemma length_patterns (df : DataFetcher.DataFrame) :
  List.length (analyze_spending_patterns sqrt df)
  = List.length (unique_names (map DataFetcher.category (DataFetcher.expenses_of df))).
Proof.
  unfold analyze_spending_patterns.
  destruct df as [|t df']; [reflexivity|].
  cbn [DataFetcher.empty]. now rewrite length_map.
Qed.

Lemma length_normalize (total_budget : Q) (allocations : list Allocation) :
  List.length (normalize total_budget allocations) = List.length allocations.
Proof.
  unfold normalize. destruct (Qltb 0 _); [apply length_map | reflexivity].
Qed.

(** The optimisation succeeds exactly when the user has at least one expense
    row; it then covers every distinct expense category once, highest
    allocation first, and otherwise answers "Insufficient spending data"
    with no allocation. *)
Theorem optimization_covers_expense_categories
    (df : DataFetcher.DataFrame) (total_budget : Q) :
  let r := optimize_budget_allocation sqrt df total_budget in
  (opt_success r = true <-> exists t, In t df /\ DataFetcher.is_expense t = true) /\
  (opt_success r = true ->
   categories_covered r
   = Z.of_nat (List.length
                 (unique_names (map DataFetcher.category (DataFetcher.expenses_of df)))) /\
   List.length (allocation r) = Z.to_nat (categories_covered r) /\
   descending (map allocated_amount (allocation r)) /\
   (forall c, In c (map alloc_category (allocation r)) <->
              In c (map DataFetcher.category (DataFetcher.expenses_of df)))) /\
  (opt_success r = false ->
   opt_error r = Some "Insufficient spending data"%string /\ allocation r = []).
Proof.
  intros r. subst r. unfold optimize_budget_allocation.
  pose proof (patterns_empty_iff df) as Hempty.
  pose proof (length_patterns df) as Hlen.
  destruct (analyze_spending_patterns sqrt df) as [|p ps] eqn:E.
  - cbn [opt_success opt_error allocation]. split; [|split].
    + split; [discriminate|]. intros (t & Hin & Hexp).
      assert (In t (DataFetcher.expenses_of df))
        by (apply filter_In; split; assumption).
      rewrite (proj1 Hempty eq_refl) in H. contradiction.
    + discriminate.
    + intros _. split; reflexivity.
  - cbn [opt_success opt_error allocation categories_covered]. split; [|split].
    + split; [intros _|reflexivity].
      destruct (DataFetcher.expenses_of df) as [|t ts] eqn:X.
      * assert (p :: ps = []) by now apply Hempty. discriminate.
      * exists t. apply filter_In. unfold DataFetcher.expenses_of in X.
        rewrite X. now left.
    + intros _.
      rewrite length_sort_desc, length_normalize. unfold first_pass.
      rewrite length_map, Hlen.
      split; [reflexivity|]. split; [lia|].
      split; [apply descending_sort|].
      intros c. unfold analyze_spending_patterns in E.
      destruct (DataFetcher.empty df); [discriminate E|].
      rewrite <- E. clear E.
      set (names := unique_names _).
      assert (Hnames : forall c, In c names <->
                In c (map DataFetcher.category (DataFetcher.expenses_of df))).
      { intros c0. subst names. unfold unique_names.
        generalize (map DataFetcher.category (DataFetcher.expenses_of df)).
        intros l.
        assert (G : forall seen c1, In c1 (unique_names_from seen l)
                                    <-> In c1 l /\ ~ In c1 seen).
        { induction l as [|x l IH]; intros seen c1; cbn [unique_names_from].
          - cbn. tauto.
          - destruct (existsb (String.eqb x) seen) eqn:X.
            + apply existsb_exists in X. destruct X as (x' & Hx' & Ex').
              apply String.eqb_eq in Ex'. subst x'. rewrite IH. cbn.
              split; [tauto|]. intros [[->|H] Hn]; [contradiction | tauto].
            + assert (Hx : ~ In x seen).
              { intros Hx. assert (existsb (String.eqb x) seen = true).
                { apply existsb_exists. exists x. split; [exact Hx|apply String.eqb_refl]. }
                congruence. }
              cbn [In]. rewrite IH. cbn [In].
              destruct (String.eqb x c1) eqn:Y.
              * apply String.eqb_eq in Y. subst c1. tauto.
              * apply String.eqb_neq in Y. split; [|tauto].
                intros [H|[H1 H2]]; [congruence | tauto]. }
        rewrite G. cbn. tauto. }
      rewrite <- Hnames.
      rewrite in_map_iff. split.
      * intros (a & <- & Ha). apply in_sort_desc in Ha.
        unfold normalize in Ha.
        assert (Hfp : forall a0, In a0 (first_pass
                   (map (fun c0 => (c0, category_stats sqrt
                      (filter (fun t => String.eqb (DataFetcher.category t) c0)
                              (DataFetcher.expenses_of df)))) names) total_budget)
                 -> In (alloc_category a0) names).
        { intros a0 H0. unfold first_pass in H0.
          rewrite map_map in H0. apply in_map_iff in H0.
          destruct H0 as (c0 & <- & Hc0). exact Hc0. }
        destruct (Qltb 0 _).
        -- apply in_map_iff in Ha. destruct Ha as (a0 & <- & Ha0).
           cbn [rescale alloc_category]. now apply Hfp.
        -- now apply Hfp.
      * intros Hc.
        set (pats := map _ names).
        assert (Hex : exists a0, In a0 (first_pass pats total_budget)
                                 /\ alloc_category a0 = c).
        { unfold first_pass, pats. rewrite map_map.
          eexists. split; [apply in_map_iff; exists c; split; [reflexivity|exact Hc]|].
          reflexivity. }
        destruct Hex as (a0 & Ha0 & Hname).
        unfold normalize. destruct (Qltb 0 _).
        -- exists (rescale (total_budget / current_total (first_pass pats total_budget)) a0).
           split; [exact Hname|]. apply in_sort_desc. now apply in_map.
        -- exists a0. split; [exact Hname|]. now apply in_sort_desc.
    + discriminate.
Qed.

Lemma Qsum_all_zero (l : list Q) : (forall x, In x l -> x == 0) -> Qsum l == 0.
Proof.
  induction l as [|x l IH]; intros H; [reflexivity|].
  rewrite Qsum_cons, (H x (or_introl eq_refl)), IH; [ring|].
  intros y Hy. apply H. now right.
Qed.

(** When the analysed monthly averages add up to nothing (or less), every
    category is allocated 0 whatever the budget: the proportions are 0 and
    the renormalisation is skipped. *)
Theorem no_spending_allocates_nothing (df : DataFetcher.DataFrame) (total_budget : Q) :
  total_spending (analyze_spending_patterns sqrt df) <= 0 ->
  forall a, In a (allocation (optimize_budget_allocation sqrt df total_budget)) ->
            allocated_amount a == 0 /\ percentage_of_total a == 0.
Proof.
  intros Hzero a Ha. unfold optimize_budget_allocation in Ha.
  destruct (analyze_spending_patterns sqrt df) as [|p ps] eqn:E; [contradiction|].
  cbn [allocation] in Ha. apply in_sort_desc in Ha.
  assert (Hfp : forall a0, In a0 (first_pass (p :: ps) total_budget) ->
                           allocated_amount a0 == 0 /\ percentage_of_total a0 == 0).
  { intros a0 H0. unfold first_pass in H0. apply in_map_iff in H0.
    destruct H0 as ([c st] & <- & _). unfold allocate_category.
    assert (Z : Qltb 0 (total_spending (p :: ps)) = false) by now apply Qltb_ge.
    rewrite Z. cbn [allocated_amount percentage_of_total].
    assert (R0 : round2 0 == 0) by reflexivity.
    assert (X : forall x, x == 0 -> round2 x == 0)
      by (intros x Hx; now rewrite (round2_compat x 0 Hx)).
    split; apply X; [destruct (_calculate_priority st)|]; ring. }
  unfold normalize in Ha.
  assert (Hct : current_total (first_pass (p :: ps) total_budget) == 0).
  { unfold current_total. apply Qsum_all_zero. intros x Hx.
    apply in_map_iff in Hx. destruct Hx as (a0 & <- & H0). now apply Hfp. }
  assert (Z : Qltb 0 (current_total (first_pass (p :: ps) total_budget)) = false)
    by (apply Qltb_ge; lra).
  rewrite Z in Ha. now apply Hfp.
Qed.

End OptimizeCoverage.

Section OptimizeCoverageWitness.
Import Py BudgetService Samples.
Open Scope Q_scope.

(** Three free meals and a budget of 500. *)
Lemma no_spending_allocates_nothing_witness :
  total_spending (analyze_spending_patterns sqrt_milli (daily_expenses 3 0)) <= 0 /\
  allocation (optimize_budget_allocation sqrt_milli (daily_expenses 3 0) 500) <> [] /\
  Forall (fun a => allocated_amount a == 0)
         (allocation (optimize_budget_allocation sqrt_milli (daily_expenses 3 0) 500)).
Proof.
  assert (H : total_spending (analyze_spending_patterns sqrt_milli (daily_expenses 3 0)) <= 0)
    by (vm_compute; discriminate).
  split; [exact H|]. split; [vm_compute; discriminate|].
  apply Forall_forall. intros a Ha.
  exact (proj1 (no_spending_allocates_nothing sqrt_milli (daily_expenses 3 0) 500 H a Ha)).
Defined.

End OptimizeCoverageWitness.

(** ** Comparison with the current budgets *)

Section BudgetComparison.
Import Py BudgetService Matching Samples.
Open Scope Q_scope.

Lemma dict_get_set_same (k : string) (v : Q) (d : list (string * Q)) :
  dict_get k (dict_set k v d) = Some v.
Proof.
  induction d as [|[k' v'] d IH]; cbn [dict_set dict_get].
  - now rewrite String.eqb_refl.
  - destruct (String.eqb k k') eqn:E; cbn [dict_get].
    + now rewrite String.eqb_refl.
    + now rewrite E.
Qed.

Lemma dict_get_set_other (k k' : string) (v : Q) (d : list (string * Q)) :
  k' <> k -> dict_get k' (dict_set k v d) = dict_get k' d.
Proof.
  intros Hne. induction d as [|[k0 v0] d IH]; cbn [dict_set dict_get].
  - apply String.eqb_neq in Hne. now rewrite Hne.
  - destruct (String.eqb k k0) eqn:E; cbn [dict_get].
    + apply String.eqb_eq in E. subst k0.
      apply String.eqb_neq in Hne. now rewrite Hne.
    + destruct (String.eqb k' k0); [reflexivity | exact IH].
Qed.

Lemma current_map_snoc (bs : list Budget) (b : Budget) :
  current_map_of (bs ++ [b])
  = if has_category b
    then dict_set (option_get (budget_name b) "Unknown"%string)
                  (option_get (budget_amount b) 0) (current_map_of bs)
    else current_map_of bs.
Proof.
  unfold current_map_of, has_category. rewrite fold_left_app. cbn [fold_left].
  destruct (budget_category b) as [[|c s]|]; reflexivity.
Qed.

(** The comparison matches recommendations to current budgets by the
    budget's name: a budget without category reference is ignored; of two
    budgets with the same name the later one counts; a budget without name
    is filed under "Unknown"; and the changes are, in order, exactly the
    recommendations whose category equals a counted budget name, each with
    the rounded difference to that budget's amount. *)
Theorem budgets_are_matched_by_name
    (recommendations : list Recommendation) (bs : list Budget) (b : Budget) :
  let current_map := current_map_of (bs ++ [b]) in
  let name := option_get (budget_name b) "Unknown"%string in
  (has_category b = false -> current_map = current_map_of bs) /\
  (has_category b = true ->
   dict_get name current_map = Some (option_get (budget_amount b) 0) /\
   forall other, other <> name ->
                 dict_get other current_map = dict_get other (current_map_of bs)) /\
  map change_category (changes (_compare_with_current recommendations (bs ++ [b])))
  = filter (fun c => match dict_get c current_map with Some _ => true | None => false end)
           (map rec_category recommendations) /\
  (forall c, In c (changes (_compare_with_current recommendations (bs ++ [b]))) ->
     dict_get (change_category c) current_map = Some (change_current c) /\
     difference c = round2 (change_recommended c - change_current c)).
Proof.
  intros current_map name. subst current_map name.
  rewrite current_map_snoc.
  split; [intros H; now rewrite H|].
  split.
  { intros H. rewrite H. split; [apply dict_get_set_same|].
    intros other Hne. now apply dict_get_set_other. }
  unfold _compare_with_current. cbn [changes]. rewrite current_map_snoc.
  set (m := if has_category b then _ else _).
  split.
  - induction recommendations as [|r rs IH]; [reflexivity|].
    cbn [flat_map map filter]. rewrite map_app, IH.
    destruct (dict_get (rec_category r) m); reflexivity.
  - intros c Hc. apply in_flat_map in Hc. destruct Hc as (r & _ & Hc).
    destruct (dict_get (rec_category r) m) as [cur|] eqn:G; [|contradiction].
    destruct Hc as [<-|[]]. cbn. split; [exact G | reflexivity].
Qed.

End BudgetComparison.

(** ** Insights: refusals and the remote path *)

Section InsightsPaths.
Import Py InsightsService Samples.

Variable generate_content : string -> result string.

(** Without sufficient data, or without a financial summary, the insights
    answer is a failure fixed by the data alone: the remote capability is
    not consulted (it does not occur in the answer). *)
Theorem insights_refused_before_remote
    (df : DataFetcher.DataFrame) (services : ServiceResults)
    (sufficiency : DataFetcher.SufficiencyVerdict) :
  DataFetcher.check_data_sufficiency df INSIGHTS_MIN_DAYS MIN_TRANSACTIONS 10
  = Ok sufficiency ->
  (DataFetcher.sufficient sufficiency = false ->
   generate_comprehensive_insights generate_content df services
   = {| success := false;
        error := Some ("Insufficient data for insights: "
                       ++ DataFetcher.reason sufficiency)%string;
        insights := ""; ai_unavailable := false; context_used := None;
        data_info := Some sufficiency |}) /\
  (DataFetcher.sufficient sufficiency = true ->
   summary_result services = None ->
   generate_comprehensive_insights generate_content df services
   = insights_failure "Insufficient financial data for insights").
Proof.
  intros Hcheck. unfold generate_comprehensive_insights. rewrite Hcheck.
  split.
  - intros H. now rewrite H.
  - intros H Hsum. rewrite H. cbn [negb].
    unfold _gather_financial_context. rewrite Hsum.
    destruct (forecast_result services) as [f|ef];
      [destruct (ForecastService.success f)|];
    (destruct (anomalies_result services) as [a|ea];
      [destruct (anomaly_success a); [destruct (anomaly_statistics a)|]|]);
    (destruct (budgets_result services) as [b|eb];
      [destruct (BudgetService.success b)|]);
    (destruct (goals_result services) as [g|eg];
      [destruct (goals_success g)|]);
    reflexivity.
Qed.

Lemma forecast_part_ok (c : Context) :
  well_formed c -> exists l, forecast_part c = Ok l.
Proof.
  intros (H & _). unfold forecast_part.
  destruct (get (forecast_available c) false); [|eauto].
  destruct (H eq_refl) as [v ->]. cbn. eauto.
Qed.

Lemma anomaly_part_ok (c : Context) :
  well_formed c -> exists l, anomaly_part c = Ok l.
Proof.
  intros (_ & H & _). unfold anomaly_part.
  destruct (0 <? get (anomalies_count c) 0)%Z; [|eauto].
  destruct (H eq_refl) as [v ->]. cbn. eauto.
Qed.

Lemma budget_part_ok (c : Context) :
  well_formed c -> exists l, budget_part c = Ok l.
Proof.
  intros (_ & _ & H & _). unfold budget_part.
  destruct (get (budget_available c) false); [|eauto].
  destruct (H eq_refl) as [v ->]. cbn. eauto.
Qed.

Lemma goals_part_ok (c : Context) :
  well_formed c -> exists l, goals_part c = Ok l.
Proof.
  intros (_ & _ & _ & H). unfold goals_part.
  destruct (0 <? get (goals_count c) 0)%Z; [|eauto].
  destruct (H eq_refl) as [v ->]. cbn. eauto.
Qed.

Lemma prompt_total (c : Context) :
  well_formed c -> exists prompt, _build_insights_prompt c = Ok prompt.
Proof.
  intros W. unfold _build_insights_prompt.
  destruct (forecast_part_ok c W) as [l1 ->].
  destruct (anomaly_part_ok c W) as [l2 ->].
  destruct (budget_part_ok c W) as [l3 ->].
  destruct (goals_part_ok c W) as [l4 ->].
  cbn. eauto.
Qed.

(** With sufficient data and a financial summary the prompt is always built
    from the gathered context (no key it reads is missing), the remote
    capability receives exactly that prompt, and the request succeeds
    whether or not the remote does; when the remote returns, its text is
    the answer and [ai_unavailable] is not set. *)
Theorem insights_answer_follows_remote
    (df : DataFetcher.DataFrame) (services : ServiceResults)
    (sufficiency : DataFetcher.SufficiencyVerdict) :
  let context := _gather_financial_context services in
  let r := generate_comprehensive_insights generate_content df services in
  DataFetcher.check_data_sufficiency df INSIGHTS_MIN_DAYS MIN_TRANSACTIONS 10
  = Ok sufficiency ->
  DataFetcher.sufficient sufficiency = true ->
  summary_result services <> None ->
  exists prompt,
    _build_insights_prompt context = Ok prompt /\
    success r = true /\
    context_used r = Some (context_used_of context) /\
    (forall text, generate_content prompt = Ok text ->
                  insights r = text /\ ai_unavailable r = false).
Proof.
  intros context r Hcheck Hsuff Hsum. subst r.
  pose proof (gathered_well_formed services) as W. fold context in W.
  destruct (prompt_total context W) as [prompt Hprompt].
  destruct (basic_insights_total context W) as [basic Hbasic].
  exists prompt. split; [exact Hprompt|].
  assert (Hdata : has_data context = true).
  { unfold context, _gather_financial_context.
    destruct (summary_result services) as [summary|]; [|congruence].
    destruct (forecast_result services) as [f|ef];
      [destruct (ForecastService.success f)|];
    (destruct (anomalies_result services) as [a|ea];
      [destruct (anomaly_success a); [destruct (anomaly_statistics a)|]|]);
    (destruct (budgets_result services) as [b|eb];
      [destruct (BudgetService.success b)|]);
    (destruct (goals_result services) as [g|eg];
      [destruct (goals_success g)|]);
    reflexivity. }
  unfold generate_comprehensive_insights. fold context.
  rewrite Hcheck, Hsuff, Hdata, Hprompt, Hbasic. cbn [negb bind].
  destruct (generate_content prompt) as [text|e]; cbn;
    (split; [reflexivity|]; split; [reflexivity|]);
    intros t Ht; [injection Ht as <-; split; reflexivity | discriminate Ht].
Qed.

End InsightsPaths.

Section InsightsPathsWitness.
Import Py InsightsService Samples.

(** Two days of data are not enough for insights. *)
Lemma insights_refused_before_remote_witness :
  success (generate_comprehensive_insights remote_down two_day_sample month_of_meals)
  = false /\
  error (generate_comprehensive_insights remote_down two_day_sample month_of_meals)
  = Some "Insufficient data for insights: Data spans only 2 days (need 30+); Only 2 transactions (need 30+); Only 1 expense transactions (need 10+)"%string.
Proof.
  pose (v := match DataFetcher.check_data_sufficiency two_day_sample
                     INSIGHTS_MIN_DAYS MIN_TRANSACTIONS 10 with
             | Ok v => v
             | Raise _ => {| DataFetcher.sufficient := true; DataFetcher.reason := "";
                             DataFetcher.days_of_data := 0;
                             DataFetcher.total_transactions := 0;
                             DataFetcher.expense_transactions := 0;
                             DataFetcher.oldest_transaction := None;
                             DataFetcher.newest_transaction := None |}
             end).
  rewrite (proj1 (insights_refused_before_remote remote_down two_day_sample
                    month_of_meals v eq_refl) eq_refl).
  split; reflexivity.
Defined.

(** A month of meals: the request succeeds whatever the remote does. *)
Lemma insights_answer_follows_remote_witness :
  success (generate_comprehensive_insights remote_down (daily_expenses 30 10) month_of_meals)
  = true.
Proof.
  pose (v := match DataFetcher.check_data_sufficiency (daily_expenses 30 10)
                     INSIGHTS_MIN_DAYS MIN_TRANSACTIONS 10 with
             | Ok v => v
             | Raise _ => {| DataFetcher.sufficient := false; DataFetcher.reason := "";
                             DataFetcher.days_of_data := 0;
                             DataFetcher.total_transactions := 0;
                             DataFetcher.expense_transactions := 0;
                             DataFetcher.oldest_transaction := None;
                             DataFetcher.newest_transaction := None |}
             end).
  destruct (insights_answer_follows_remote remote_down (daily_expenses 30 10)
              month_of_meals v)
    as (prompt & _ & Hok & _);
    [vm_compute; reflexivity | vm_compute; reflexivity | discriminate | exact Hok].
Defined.

End InsightsPathsWitness.

(** ** Goals that receive no contribution, and the analysis of all goals *)

Section GoalsAnalysisFacts.
Import Py Calendar GoalService.
Open Scope Q_scope.

Variable sqrt : Q -> Q.
Variable strptime : string -> option datetime.
Variable now : datetime.
Hypothesis sqrt_nonneg : forall x, 0 <= sqrt x.

Lemma consistency_of_ratio (x : pyfloat) (c : Q) :
  (forall v, x = Fin v -> 0 <= v) ->
  fround2 (fmax (fsub (Fin 100) (fmin x (Fin 100))) (Fin 0)) = Fin c ->
  0 <= c <= 100.
Proof.
  intros Hx. destruct x as [v| | |]; unfold fmin, fmax, fsub; cbn [flt fneg fadd fround2].
  - specialize (Hx v eq_refl).
    destruct (Qltb 100 v) eqn:E; cbn [flt fneg fadd fround2].
    + destruct (Qltb (100 + - (100)) 0) eqn:F; cbn [fround2]; intros [= <-];
        apply (round2_between 0 100); unfold inject_Z; lra.
    + apply Qltb_ge in E.
      destruct (Qltb (100 + - v) 0) eqn:F; cbn [fround2]; intros [= <-];
        apply (round2_between 0 100); unfold inject_Z; try lra.
  - cbn. intros [= <-]. apply (round2_between 0 100); unfold inject_Z; lra.
  - discriminate.
  - discriminate.
Qed.

Lemma consistency_in_range (df : DataFetcher.DataFrame) (c : Q) :
  consistency_score (calculate_savings_rate sqrt df) = Fin c -> 0 <= c <= 100.
Proof.
  unfold calculate_savings_rate.
  destruct (DataFetcher.empty df).
  - unfold no_savings. cbn [consistency_score]. intros H. inversion H. lra.
  - cbn [consistency_score]. apply consistency_of_ratio.
    intros v. destruct (Qltb 0 _) eqn:A; [|intros H; inversion H; lra].
    apply Qltb_lt in A.
    unfold series_std.
    destruct (Nat.ltb _ 2);
      [unfold npdiv, fdiv; destruct (Qeq_bool _ 0); discriminate|].
    unfold npdiv, fdiv.
    destruct (Qeq_bool _ 0) eqn:Z.
    + apply Qeq_bool_eq in Z. rewrite Z in A. lra.
    + cbn [fmul]. intros [= <-].
      apply Qmult_le_0_compat; [|lra].
      apply Qle_shift_div_l; [exact A|]. rewrite Qmult_0_l. apply sqrt_nonneg.
Qed.

(** The probability of a goal that receives no contribution. *)
Lemma unfunded_probability
    (monthly_contribution avg_savings c : Q) (deadline : option string) :
  monthly_contribution <= 0 -> 0 <= c <= 100 ->
  exists q,
    _calculate_achievement_probability strptime now monthly_contribution avg_savings
      (Fin c) PInf deadline = Fin q /\
    5 <= q <= 43.75.
Proof.
  intros Hm Hc. unfold _calculate_achievement_probability.
  set (ratio := if Qle_bool avg_savings 0 then 0.5
                else if Qltb 2.0 (monthly_contribution / avg_savings) then 2.0
                     else monthly_contribution / avg_savings).
  assert (Hratio : ratio <= 0.5).
  { unfold ratio. destruct (Qle_bool avg_savings 0) eqn:A; [lra|].
    assert (A' : 0 < avg_savings).
    { apply Qnot_le_lt. intros L. apply Qle_bool_iff in L. congruence. }
    assert (R : monthly_contribution / avg_savings <= 0).
    { apply Qle_shift_div_r; [exact A'|]. lra. }
    destruct (Qltb 2.0 _) eqn:B; [apply Qltb_lt in B|]; lra. }
  assert (F : npdiv (Fin c) (Fin 100) = Fin (c / 100)) by reflexivity.
  rewrite F. cbn [fmul fadd].
  set (p0 := (50 + ratio * 25) * (0.7 + 0.3 * (c / 100))).
  assert (Hp0 : p0 <= 62.5).
  { unfold p0.
    assert (Hf : 0.7 <= 0.7 + 0.3 * (c / 100) <= 1).
    { assert (0 <= c / 100 <= 1).
      { split; [apply Qle_shift_div_l|apply Qle_shift_div_r]; lra. }
      lra. }
    generalize dependent (0.7 + 0.3 * (c / 100)). intros f Hf.
    assert (Hb : 50 + ratio * 25 <= 62.5) by lra.
    generalize dependent (50 + ratio * 25). intros b Hb.
    destruct (Qlt_le_dec b 0) as [N|P]; nra. }
  cbn [flt].
  match goal with |- context [fmul ?a (Fin 0.7)] => set (adj := a) end.
  assert (Hadj : exists x, adj = Fin x /\ x <= 62.5).
  { unfold adj. destruct (truthy deadline) as [s|]; [destruct (strptime s) as [d|]|].
    - destruct (months_between now d <=? 0)%Z eqn:M.
      + exists (p0 * 0.1). split; [reflexivity|].
        destruct (Qlt_le_dec p0 0); lra.
      + apply Z.leb_gt in M.
        assert (P : 0 < inject_Z (months_between now d)).
        { change 0 with (inject_Z 0). rewrite <- Zlt_Qlt. exact M. }
        assert (N : npdiv PInf (Fin (inject_Z (months_between now d))) = PInf).
        { unfold npdiv, fdiv.
          destruct (Qeq_bool (inject_Z (months_between now d)) 0) eqn:Z.
          - apply Qeq_bool_eq in Z.
            generalize dependent (inject_Z (months_between now d)). intros; lra.
          - apply Qltb_lt in P. now rewrite P. }
        rewrite N. exists (p0 * 0). split; [reflexivity|lra].
    - exists p0. split; [reflexivity|exact Hp0].
    - exists p0. split; [reflexivity|exact Hp0]. }
  destruct Hadj as (x & -> & Hx). cbn [fmul].
  unfold fmin, fmax. cbn [flt].
  assert (L : Qltb (x * 0.7) 95 = true) by (apply Qltb_lt; lra).
  rewrite L. cbn [flt].
  destruct (Qltb 5 (x * 0.7)) eqn:G.
  - apply Qltb_lt in G. exists (x * 0.7). split; [reflexivity|lra].
  - exists 5. split; [reflexivity|lra].
Qed.

Lemma low_status (q : Q) :
  q <= 43.75 -> status_of (Fin q) = challenging \/ status_of (Fin q) = unlikely.
Proof.
  intros H. unfold status_of. cbn [fle].
  assert (A : Qle_bool 80 q = false).
  { destruct (Qle_bool 80 q) eqn:A; [apply Qle_bool_iff in A; lra|reflexivity]. }
  assert (B : Qle_bool 50 q = false).
  { destruct (Qle_bool 50 q) eqn:B; [apply Qle_bool_iff in B; lra|reflexivity]. }
  rewrite A, B. destruct (Qle_bool 30 q); auto.
Qed.

(** The prediction for a goal that is still open and receives no
    contribution. *)
Lemma unfunded_rating
    (df : DataFetcher.DataFrame) (target_amount current_amount monthly_contribution c : Q)
    (deadline : option string) :
  0 < target_amount - current_amount ->
  ~ target_amount == 0 ->
  monthly_contribution <= 0 ->
  consistency_score (calculate_savings_rate sqrt df) = Fin c ->
  let r := predict_goal_achievement sqrt strptime now df
             target_amount current_amount monthly_contribution deadline in
  (exists q, achievement_probability r = Fin q /\ 5 <= q <= 43.75) /\
  (status r = challenging \/ status r = unlikely) /\
  months_required r = None /\
  estimated_completion_date r = None.
Proof.
  intros Hrem Htarget Hm Hc r.
  destruct (prediction_shape sqrt strptime now df target_amount current_amount
              monthly_contribution deadline Hrem Htarget)
    as (_ & Hp & Hs & Hmonths & Hdate).
  fold r in Hp, Hs, Hmonths, Hdate.
  assert (E : Qle_bool monthly_contribution 0 = true) by now apply Qle_bool_iff.
  rewrite E in Hp, Hs, Hmonths. rewrite Hc in Hp, Hs.
  destruct (unfunded_probability monthly_contribution
              (avg_monthly_savings (calculate_savings_rate sqrt df)) c deadline Hm
              (consistency_in_range df c Hc)) as (q & Eq & Hq).
  rewrite Eq in Hp, Hs.
  split; [|split; [|split]].
  - exists (round2 q). split; [exact Hp|].
    split.
    + apply (round2_between 5 44). unfold inject_Z. lra.
    + assert (R : round2 43.75 == 43.75) by reflexivity.
      rewrite <- R. apply round2_mono. lra.
  - rewrite Hs. apply low_status. lra.
  - exact Hmonths.
  - apply Hdate. now left.
Qed.

(** A goal that is still open and receives no contribution
    ([monthly_contribution <= 0]) is never rated better than "challenging":
    when the savings consistency is a number, the reported probability lies
    in [5, 43.75], the status is "challenging" or "unlikely", and no
    duration and no completion date are given. *)
Theorem zero_contribution_is_rated_low
    (df : DataFetcher.DataFrame) (target_amount current_amount monthly_contribution c : Q)
    (deadline : option string) :
  0 < target_amount - current_amount ->
  ~ target_amount == 0 ->
  monthly_contribution <= 0 ->
  consistency_score (calculate_savings_rate sqrt df) = Fin c ->
  let r := predict_goal_achievement sqrt strptime now df
             target_amount current_amount monthly_contribution deadline in
  (exists q, achievement_probability r = Fin q /\ 5 <= q <= 43.75) /\
  (status r = challenging \/ status r = unlikely) /\
  months_required r = None /\
  estimated_completion_date r = None.
Proof.
  exact (unfunded_rating df target_amount current_amount monthly_contribution c deadline).
Qed.

End GoalsAnalysisFacts.

Section PortfolioFacts.
Import Py Calendar GoalsAnalysis.
Open Scope Q_scope.

Variable sqrt : Q -> Q.
Variable strptime : string -> option datetime.
Variable now : datetime.
Hypothesis sqrt_nonneg : forall x, 0 <= sqrt x.

Lemma monthly_for_nonneg (target current : Q) (deadline : option Deadline) :
  0 <= monthly_for strptime now target current deadline.
Proof.
  unfold monthly_for. destruct deadline as [d|]; [|lra].
  destruct (is_set (Some d)); [|lra].
  destruct (deadline_date_of strptime d) as [t|]; [|lra].
  destruct (0 <? GoalService.months_between now t)%Z eqn:M; [|lra].
  apply Z.ltb_lt in M.
  destruct (Qltb 0 (target - current)) eqn:R; [|lra].
  apply Qltb_lt in R.
  assert (P : 0 < inject_Z (GoalService.months_between now t)).
  { change 0 with (inject_Z 0). rewrite <- Zlt_Qlt. exact M. }
  apply Qle_shift_div_l; [exact P|]. lra.
Qed.

Lemma fold_left_plus_nonneg (l : list Q) (a : Q) :
  (forall x, In x l -> 0 <= x) -> 0 <= a -> 0 <= fold_left Qplus l a.
Proof.
  revert a. induction l as [|x l IH]; intros a Hl Ha; [exact Ha|].
  cbn [fold_left]. apply IH.
  - intros y Hy. apply Hl. now right.
  - assert (0 <= x) by (apply Hl; now left). lra.
Qed.

Lemma fold_left_plus_zero (l : list Q) (a : Q) :
  (forall x, In x l -> x == 0) -> fold_left Qplus l a == a.
Proof.
  revert a. induction l as [|x l IH]; intros a Hl; [reflexivity|].
  cbn [fold_left]. rewrite IH.
  - assert (x == 0) by (apply Hl; now left). lra.
  - intros y Hy. apply Hl. now right.
Qed.

(** What a successful analysis of a non-empty list of goals returns. *)
Lemma analysis_shape (user_goals : list Goal) (df : DataFetcher.DataFrame) :
  user_goals <> [] ->
  success (analyze_all_goals sqrt strptime now user_goals df) = true ->
  let analyzed := map (analyze_goal sqrt strptime now df) user_goals in
  let total := fold_left Qplus (map monthly_contribution analyzed) 0 in
  let avg := GoalService.avg_monthly_savings (GoalService.calculate_savings_rate sqrt df) in
  let avg_probability :=
    np_mean (map (fun g => GoalService.achievement_probability (prediction g)) analyzed) in
  analyze_all_goals sqrt strptime now user_goals df
  = {| success := true; error := None;
       total_goals := Z.of_nat (List.length user_goals);
       goals := analyzed;
       total_monthly_commitment := Some (round2 total);
       avg_monthly_savings := Some avg;
       commitment_ratio := Some (if Qltb 0 avg then round2 (total / avg) else 0);
       overall_assessment := Some (fst (assess total avg avg_probability));
       message := Some (snd (assess total avg avg_probability));
       data_info := None |}.
Proof.
  intros Hne Hok. unfold analyze_all_goals in *.
  destruct user_goals as [|g gs]; [congruence|].
  destruct (DataFetcher.check_data_sufficiency _ _ _ _) as [v|e]; [|discriminate Hok].
  destruct (negb (DataFetcher.sufficient v)); [discriminate Hok|].
  cbv zeta. destruct (assess _ _ _) as [overall text]. reflexivity.
Qed.

Lemma analyzed_goals (user_goals : list Goal) (df : DataFetcher.DataFrame)
    (a : AnalyzedGoal) :
  In a (goals (analyze_all_goals sqrt strptime now user_goals df)) ->
  exists g, In g user_goals /\ a = analyze_goal sqrt strptime now df g.
Proof.
  unfold analyze_all_goals.
  destruct user_goals as [|g0 gs]; [intros []|].
  destruct (DataFetcher.check_data_sufficiency _ _ _ _) as [v|e]; [|intros []].
  destruct (negb (DataFetcher.sufficient v)); [intros []|].
  cbv zeta. destruct (assess _ _ _) as [overall text]. cbn [goals].
  intros H. apply in_map_iff in H. destruct H as (g & <- & Hg). eauto.
Qed.

(** In the analysis of all goals every goal is given a monthly contribution
    that is never negative, and a goal stored without a deadline is given
    none at all.  Such a goal, when it is still open, is therefore never
    rated better than "challenging" and gets no duration, whatever the
    user's savings (the savings consistency being a number). *)
Theorem undated_goals_are_rated_low
    (user_goals : list Goal) (df : DataFetcher.DataFrame) (c : Q) (a : AnalyzedGoal) :
  GoalService.consistency_score (GoalService.calculate_savings_rate sqrt df) = Fin c ->
  In a (goals (analyze_all_goals sqrt strptime now user_goals df)) ->
  0 <= monthly_contribution a /\
  (goal_deadline a = None ->
   monthly_contribution a = 0 /\
   (current_amount a < target_amount a ->
    ~ target_amount a == 0 ->
    (GoalService.status (prediction a) = GoalService.challenging \/
     GoalService.status (prediction a) = GoalService.unlikely) /\
    GoalService.months_required (prediction a) = None)).
Proof.
  intros Hc Ha. apply analyzed_goals in Ha. destruct Ha as (g & _ & ->).
  cbn [analyze_goal monthly_contribution goal_deadline current_amount target_amount
       prediction].
  split; [apply monthly_for_nonneg|].
  intros Hd.
  assert (D : deadline g = None).
  { destruct (deadline g) as [[s|d]|]; [discriminate Hd|discriminate Hd|reflexivity]. }
  rewrite D. cbn [monthly_for deadline_text].
  split; [reflexivity|].
  intros Hopen Htarget.
  destruct (unfunded_rating sqrt strptime now sqrt_nonneg df
              (InsightsService.get (targetAmount g) 0)
              (InsightsService.get (currentAmount g) 0) 0 c None)
    as (_ & Hs & Hm & _); try assumption; try lra.
  split; assumption.
Qed.

(** The overall label of the analysis against the user's savings: a user
    whose average monthly savings are negative is always told
    "overcommitted" (with a commitment ratio of 0), whatever the goals;
    a user with non-negative average savings whose goals all lack a
    deadline never is, the total commitment being zero. *)
Theorem overspenders_are_overcommitted
    (user_goals : list Goal) (df : DataFetcher.DataFrame) :
  let r := analyze_all_goals sqrt strptime now user_goals df in
  let avg := GoalService.avg_monthly_savings (GoalService.calculate_savings_rate sqrt df) in
  user_goals <> [] ->
  success r = true ->
  (exists t, total_monthly_commitment r = Some t /\ 0 <= t) /\
  (avg < 0 ->
   overall_assessment r = Some "overcommitted"%string /\ commitment_ratio r = Some 0) /\
  (0 <= avg ->
   (forall g, In g user_goals -> deadline g = None) ->
   overall_assessment r <> Some "overcommitted"%string /\
   exists t, total_monthly_commitment r = Some t /\ t == 0).
Proof.
  intros r avg Hne Hok. subst r.
  rewrite (analysis_shape user_goals df Hne Hok).
  cbn [total_monthly_commitment overall_assessment commitment_ratio].
  set (analyzed := map (analyze_goal sqrt strptime now df) user_goals).
  set (total := fold_left Qplus (map monthly_contribution analyzed) 0).
  fold avg.
  assert (Htotal : 0 <= total).
  { apply fold_left_plus_nonneg; [|lra].
    intros x Hx. apply in_map_iff in Hx. destruct Hx as (a & <- & Ha).
    apply in_map_iff in Ha. destruct Ha as (g & <- & _).
    apply monthly_for_nonneg. }
  split; [|split].
  - exists (round2 total). split; [reflexivity|].
    assert (Z0 : 0 <= round2 0) by (vm_compute; discriminate).
    assert (R : round2 0 <= round2 total) by now apply round2_mono.
    lra.
  - intros Havg. unfold assess.
    assert (A : Qltb avg total = true) by (apply Qltb_lt; lra).
    assert (B : Qltb 0 avg = false) by (apply Qltb_ge; lra).
    rewrite A, B. split; reflexivity.
  - intros Havg Hnone.
    assert (Z : total == 0).
    { apply fold_left_plus_zero.
      intros x Hx. apply in_map_iff in Hx. destruct Hx as (a & <- & Ha).
      apply in_map_iff in Ha. destruct Ha as (g & <- & Hg).
      cbn [analyze_goal monthly_contribution]. rewrite (Hnone g Hg). reflexivity. }
    split.
    + unfold assess.
      assert (A : Qltb avg total = false) by (apply Qltb_ge; lra).
      rewrite A.
      destruct (fle (Fin 70) _); [discriminate|].
      destruct (fle (Fin 40) _); discriminate.
    + exists (round2 total). split; [reflexivity|].
      rewrite (round2_compat _ _ Z). reflexivity.
Qed.

End PortfolioFacts.

Section PortfolioWitnesses.
Import Py Calendar GoalsAnalysis Samples GoalSamples.
Open Scope Q_scope.

Lemma zero_contribution_is_rated_low_witness :
  GoalService.status
    (GoalService.predict_goal_achievement sqrt_milli one_deadline today (forty_days 50)
       5000 0 0 None) = GoalService.challenging \/
  GoalService.status
    (GoalService.predict_goal_achievement sqrt_milli one_deadline today (forty_days 50)
       5000 0 0 None) = GoalService.unlikely.
Proof.
  pose (c := match GoalService.consistency_score
                     (GoalService.calculate_savings_rate sqrt_milli (forty_days 50)) with
             | Fin q => q
             | _ => 0
             end).
  assert (Hc : GoalService.consistency_score
                 (GoalService.calculate_savings_rate sqrt_milli (forty_days 50)) = Fin c)
    by (vm_compute; reflexivity).
  assert (H1 : 0 < 5000 - 0) by reflexivity.
  assert (H2 : ~ 5000 == 0) by discriminate.
  assert (H3 : 0 <= 0) by discriminate.
  exact (proj1 (proj2 (zero_contribution_is_rated_low sqrt_milli one_deadline today
                         sqrt_milli_nonneg (forty_days 50) 5000 0 0 c None
                         H1 H2 H3 Hc))).
Defined.

Lemma undated_goals_are_rated_low_witness :
  let a := analyze_goal sqrt_milli one_deadline today (forty_days 50) open_ended in
  monthly_contribution a = 0 /\
  GoalService.months_required (prediction a) = None.
Proof.
  pose (c := match GoalService.consistency_score
                     (GoalService.calculate_savings_rate sqrt_milli (forty_days 50)) with
             | Fin q => q
             | _ => 0
             end).
  assert (Hc : GoalService.consistency_score
                 (GoalService.calculate_savings_rate sqrt_milli (forty_days 50)) = Fin c)
    by (vm_compute; reflexivity).
  assert (Hin : In (analyze_goal sqrt_milli one_deadline today (forty_days 50) open_ended)
                   (goals (analyze_all_goals sqrt_milli one_deadline today
                             [open_ended; dated] (forty_days 50))))
    by (vm_compute; left; reflexivity).
  destruct (undated_goals_are_rated_low sqrt_milli one_deadline today sqrt_milli_nonneg
              [open_ended; dated] (forty_days 50) c _ Hc Hin) as (_ & H).
  destruct (H eq_refl) as (Hzero & Hrest).
  split; [exact Hzero|].
  apply Hrest; [reflexivity|discriminate].
Defined.

Lemma overspenders_are_overcommitted_witness :
  overall_assessment (analyze_all_goals sqrt_milli one_deadline today [dated] (forty_days 150))
  = Some "overcommitted"%string.
Proof.
  assert (Hne : [dated] <> []) by discriminate.
  assert (Hok : success (analyze_all_goals sqrt_milli one_deadline today [dated]
                           (forty_days 150)) = true)
    by (vm_compute; reflexivity).
  destruct (overspenders_are_overcommitted sqrt_milli one_deadline today
              [dated] (forty_days 150) Hne Hok) as (_ & H & _).
  apply H. vm_compute. reflexivity.
Defined.

End PortfolioWitnesses.

(** ** Outliers by category *)

Section SortedSeries.
Import Py BudgetService Ordering.
Open Scope Q_scope.

Lemma in_insert_asc (x y : Q) (l : list Q) :
  In y (insert_asc x l) <-> y = x \/ In y l.
Proof.
  induction l as [|v l IH]; cbn [insert_asc].
  - cbn. intuition.
  - destruct (Qle_bool x v); cbn [In]; [intuition|].
    rewrite IH. intuition.
Qed.

Lemma ascending_insert_asc (x : Q) (l : list Q) :
  ascending l -> ascending (insert_asc x l).
Proof.
  induction l as [|v l IH]; cbn [insert_asc ascending].
  - intros _. split; [intros ? []|exact I].
  - intros [Hv Hl]. destruct (Qle_bool x v) eqn:E.
    + apply Qle_bool_iff in E. cbn [ascending]. split; [|split; assumption].
      intros w [<-|Hw]; [exact E|]. specialize (Hv w Hw). lra.
    + assert (E' : v <= x).
      { apply Qlt_le_weak, Qnot_le_lt. intros L. apply Qle_bool_iff in L. congruence. }
      cbn [ascending]. split; [|apply IH; exact Hl].
      intros w Hw. apply in_insert_asc in Hw. destruct Hw as [->|Hw]; auto.
Qed.

Lemma ascending_sort_asc (l : list Q) : ascending (sort_asc l).
Proof.
  induction l as [|x l IH]; [exact I|]. cbn. now apply ascending_insert_asc.
Qed.

Lemma count_insert_asc (p : Q -> bool) (x : Q) (l : list Q) :
  List.length (filter p (insert_asc x l)) = List.length (filter p (x :: l)).
Proof.
  induction l as [|v l IH]; [reflexivity|].
  cbn [insert_asc]. destruct (Qle_bool x v); [reflexivity|].
  cbn [filter] in *. destruct (p v), (p x); cbn [List.length] in *; lia.
Qed.

Lemma count_sort_asc (p : Q -> bool) (l : list Q) :
  List.length (filter p (sort_asc l)) = List.length (filter p l).
Proof.
  induction l as [|x l IH]; [reflexivity|].
  change (sort_asc (x :: l)) with (insert_asc x (sort_asc l)).
  rewrite count_insert_asc. cbn [filter]. destruct (p x); cbn [List.length]; lia.
Qed.

Lemma length_sort_asc (l : list Q) : List.length (sort_asc l) = List.length l.
Proof.
  rewrite <- (filter_all (fun _ => true) (sort_asc l)) at 1 by reflexivity.
  rewrite count_sort_asc. now rewrite filter_all.
Qed.

Lemma ascending_nth (s : list Q) (i j : nat) :
  ascending s -> (i <= j < List.length s)%nat -> nth i s 0 <= nth j s 0.
Proof.
  revert i j. induction s as [|x r IH]; intros i j Hs [Hij Hj]; [cbn in Hj; lia|].
  destruct Hs as [Hx Hr]. destruct j as [|j].
  - assert (i = 0)%nat by lia. subst. cbn. lra.
  - destruct i as [|i].
    + cbn [nth]. apply Hx. apply nth_In. cbn in Hj. lia.
    + cbn [nth]. apply IH; [exact Hr|]. cbn in Hj. lia.
Qed.

Lemma count_none (p : Q -> bool) (l : list Q) :
  (forall v, In v l -> p v = false) -> List.length (filter p l) = 0%nat.
Proof.
  induction l as [|x l IH]; intros H; [reflexivity|].
  cbn [filter]. rewrite (H x (or_introl eq_refl)). apply IH.
  intros v Hv. apply H. now right.
Qed.

Lemma count_le_length (p : Q -> bool) (l : list Q) :
  (List.length (filter p l) <= List.length l)%nat.
Proof.
  induction l as [|x l IH]; [cbn; lia|].
  cbn [filter]. destruct (p x); cbn [List.length]; lia.
Qed.

(** In an ascending series fewer than [i + 1] values lie strictly below the
    value at position [i]. *)
Lemma count_below (s : list Q) (i : nat) :
  ascending s -> (i < List.length s)%nat ->
  (List.length (filter (fun v => Qltb v (nth i s 0%Q)) s) <= i)%nat.
Proof.
  revert i. induction s as [|x r IH]; intros i Hs Hi; [cbn in Hi; lia|].
  destruct Hs as [Hx Hr]. destruct i as [|i].
  - cbn [nth]. rewrite count_none; [lia|].
    intros v [<-|Hv]; apply Qltb_ge; [lra|apply Hx, Hv].
  - cbn [nth filter].
    assert (B : (List.length (filter (fun v => Qltb v (nth i r 0%Q)) r) <= i)%nat)
      by (apply IH; [exact Hr|cbn in Hi; lia]).
    destruct (Qltb x (nth i r 0%Q)); cbn [List.length]; lia.
Qed.

(** ... and at most [n - 1 - j] values lie strictly above the value at
    position [j]. *)
Lemma count_above (s : list Q) (j : nat) :
  ascending s -> (j < List.length s)%nat ->
  (List.length (filter (fun v => Qltb (nth j s 0%Q) v) s) <= List.length s - 1 - j)%nat.
Proof.
  revert j. induction s as [|x r IH]; intros j Hs Hj; [cbn in Hj; lia|].
  destruct Hs as [Hx Hr]. destruct j as [|j].
  - cbn [nth filter].
    assert (E : Qltb x x = false) by (apply Qltb_ge; lra).
    rewrite E. pose proof (count_le_length (fun v => Qltb x v) r). cbn [List.length]. lia.
  - cbn [nth filter].
    assert (E : Qltb (nth j r 0%Q) x = false).
    { apply Qltb_ge. apply Hx. apply nth_In. cbn in Hj. lia. }
    rewrite E.
    assert (B : (List.length (filter (fun v => Qltb (nth j r 0%Q) v) r)
                 <= List.length r - 1 - j)%nat)
      by (apply IH; [exact Hr|cbn in Hj; lia]).
    cbn [List.length]. lia.
Qed.

Lemma count_implies (p q : Q -> bool) (l : list Q) :
  (forall v, p v = true -> q v = true) ->
  (List.length (filter p l) <= List.length (filter q l))%nat.
Proof.
  intros H. induction l as [|x l IH]; [cbn; lia|].
  cbn [filter]. destruct (p x) eqn:P.
  - rewrite (H x P). cbn [List.length]. lia.
  - destruct (q x); cbn [List.length]; lia.
Qed.

Lemma count_or (p q : Q -> bool) (l : list Q) :
  (List.length (filter (fun v => p v || q v) l)
   <= List.length (filter p l) + List.length (filter q l))%nat.
Proof.
  induction l as [|x l IH]; [cbn; lia|].
  cbn [filter]. destruct (p x), (q x); cbn [orb List.length]; lia.
Qed.

Lemma count_map {A} (f : A -> Q) (p : Q -> bool) (l : list A) :
  List.length (filter (fun t => p (f t)) l) = List.length (filter p (map f l)).
Proof.
  induction l as [|x l IH]; [reflexivity|].
  cbn [filter map]. destruct (p (f x)); cbn [List.length]; lia.
Qed.

End SortedSeries.

Section CategoryOutliers.
Import Py BudgetService Ordering AnomalyService AnomalySamples.
Open Scope Q_scope.

Variable sqrt : Q -> Q.

Lemma floor_quarter (m : Z) : Qfloor (inject_Z m * 0.25) = (m / 4)%Z.
Proof.
  unfold Qfloor, Qmult, inject_Z. cbn [Qnum Qden].
  change (Z.pos (1 * 100)) with 100%Z.
  Z.to_euclidean_division_equations. lia.
Qed.

Lemma floor_three_quarters (m : Z) : Qfloor (inject_Z m * 0.75) = (3 * m / 4)%Z.
Proof.
  unfold Qfloor, Qmult, inject_Z. cbn [Qnum Qden].
  change (Z.pos (1 * 100)) with 100%Z.
  Z.to_euclidean_division_equations. lia.
Qed.

(** A quantile lies between the two order statistics it interpolates. *)
Lemma quantile_between (q : Q) (xs : list Q) :
  0 <= q <= 1 -> xs <> [] ->
  let n := Z.of_nat (List.length xs) in
  let previous := Qfloor (inject_Z (n - 1) * q) in
  (0 <= previous <= n - 1)%Z /\
  nth (Z.to_nat previous) (sort_asc xs) 0 <= quantile q xs
  <= nth (Z.to_nat (Z.min (previous + 1) (n - 1))) (sort_asc xs) 0.
Proof.
  intros Hq Hne n previous.
  assert (Hn : (1 <= n)%Z).
  { unfold n. destruct xs; [congruence|]. cbn [List.length]. lia. }
  assert (Hm : 0 <= inject_Z (n - 1)).
  { change 0 with (inject_Z 0). rewrite <- Zle_Qle. lia. }
  set (position := inject_Z (n - 1) * q) in *.
  assert (Hpos : 0 <= position <= inject_Z (n - 1)).
  { unfold position. generalize dependent (inject_Z (n - 1)). intros m Hm.
    split; nra. }
  assert (Hfloor : inject_Z previous <= position < inject_Z (previous + 1)).
  { split; [apply Qfloor_le|apply Qlt_floor]. }
  assert (Hprev : (0 <= previous <= n - 1)%Z).
  { split.
    - change 0%Z with (Qfloor 0). apply Qfloor_resp_le. lra.
    - rewrite <- (Qfloor_Z (n - 1)). apply Qfloor_resp_le. lra. }
  split; [exact Hprev|].
  unfold quantile. fold n. fold position. fold previous.
  set (a := nth (Z.to_nat previous) (sort_asc xs) 0).
  set (b := nth (Z.to_nat (Z.min (previous + 1) (n - 1))) (sort_asc xs) 0).
  assert (Hab : a <= b).
  { apply ascending_nth; [apply ascending_sort_asc|].
    rewrite length_sort_asc. fold n in Hn. unfold n in *. lia. }
  assert (Hf : 0 <= position - inject_Z previous <= 1).
  { rewrite inject_Z_plus in Hfloor. unfold inject_Z at 3 in Hfloor. lra. }
  generalize dependent (position - inject_Z previous). intros f Hf.
  split; nra.
Qed.

Lemma outliers_bound (category_data : DataFetcher.DataFrame) :
  (5 <= List.length category_data)%nat ->
  (2 * outliers_detected (category_report sqrt category_data)
   <= total_transactions (category_report sqrt category_data) + 2)%Z.
Proof.
  intros Hlen. cbn [category_report outliers_detected total_transactions].
  set (amounts := map DataFetcher.amount category_data).
  assert (Hn : List.length amounts = List.length category_data)
    by (unfold amounts; apply length_map).
  assert (Hne : amounts <> []).
  { intros E. rewrite E in Hn. cbn in Hn. lia. }
  set (s := sort_asc amounts).
  assert (Hs : List.length s = List.length category_data)
    by (unfold s; rewrite length_sort_asc; exact Hn).
  set (m := (Z.of_nat (List.length amounts) - 1)%Z).
  assert (Hm : (4 <= m)%Z) by (unfold m; lia).
  destruct (quantile_between 0.25 amounts) as (_ & _ & H1); [lra|exact Hne|].
  destruct (quantile_between 0.75 amounts) as (_ & H3 & _); [lra|exact Hne|].
  fold m in H1, H3. fold s in H1, H3.
  rewrite floor_quarter in H1. rewrite floor_three_quarters in H3.
  set (Q1 := quantile 0.25 amounts) in *. set (Q3 := quantile 0.75 amounts) in *.
  assert (E1 : Z.min (m / 4 + 1) m = (m / 4 + 1)%Z)
    by (Z.to_euclidean_division_equations; lia).
  rewrite E1 in H1.
  set (i := Z.to_nat (m / 4 + 1)) in *. set (j := Z.to_nat (3 * m / 4)) in *.
  assert (Hij : (i <= j < List.length s)%nat).
  { unfold i, j. rewrite Hs. unfold m in *. rewrite Hn in *.
    Z.to_euclidean_division_equations. lia. }
  assert (Hmid : nth i s 0 <= nth j s 0)
    by (apply ascending_nth; [apply ascending_sort_asc|exact Hij]).
  rewrite (count_map DataFetcher.amount (is_outlier Q1 Q3)). fold amounts.
  rewrite <- (count_sort_asc (is_outlier Q1 Q3) amounts). fold s.
  pose proof (count_or (fun v => Qltb v (Q1 - 1.5 * (Q3 - Q1)))
                       (fun v => Qltb (Q3 + 1.5 * (Q3 - Q1)) v) s) as Hor.
  assert (Hlow : (List.length (filter (fun v => Qltb v (Q1 - 1.5 * (Q3 - Q1))) s) <= i)%nat).
  { etransitivity; [|apply (count_below s i); [apply ascending_sort_asc|lia]].
    apply count_implies. intros v Hv. apply Qltb_lt in Hv. apply Qltb_lt. lra. }
  assert (Hhigh : (List.length (filter (fun v => Qltb (Q3 + 1.5 * (Q3 - Q1)) v) s)
                   <= List.length s - 1 - j)%nat).
  { etransitivity; [|apply (count_above s j); [apply ascending_sort_asc|lia]].
    apply count_implies. intros v Hv. apply Qltb_lt in Hv. apply Qltb_lt. lra. }
  change (filter (is_outlier Q1 Q3) s)
    with (filter (fun v => Qltb v (Q1 - 1.5 * (Q3 - Q1))
                           || Qltb (Q3 + 1.5 * (Q3 - Q1)) v) s).
  unfold i, j in *. rewrite Hs in *. unfold m in *. rewrite Hn in *.
  Z.to_euclidean_division_equations. lia.
Qed.

Lemma reported_categories (df : DataFetcher.DataFrame) (days : Z)
    (c : string) (r : CategoryReport) :
  In (c, r) (categories (get_category_anomalies sqrt df days)) ->
  let category_data :=
    filter (fun t => String.eqb (DataFetcher.category t) c) (DataFetcher.expenses_of df) in
  (5 <= List.length category_data)%nat /\ r = category_report sqrt category_data.
Proof.
  unfold get_category_anomalies. destruct (DataFetcher.empty df); [intros []|].
  cbn [categories]. intros H. apply in_flat_map in H. destruct H as (c' & _ & H).
  destruct (Z.of_nat _ <? 5)%Z eqn:E; [destruct H|].
  destruct H as [[= <- <-]|[]]. apply Z.ltb_ge in E. split; [lia|reflexivity].
Qed.

(** A category is reported only with at least five expense rows, and the
    interquartile rule never flags much more than half of them: with [n]
    rows at most [(n + 2) / 2] are outliers. *)
Theorem outliers_are_at_most_half
    (df : DataFetcher.DataFrame) (days : Z) (c : string) (r : CategoryReport) :
  In (c, r) (categories (get_category_anomalies sqrt df days)) ->
  total_transactions r
  = Z.of_nat (List.length
                (filter (fun t => String.eqb (DataFetcher.category t) c)
                        (DataFetcher.expenses_of df))) /\
  (5 <= total_transactions r)%Z /\
  (0 <= outliers_detected r)%Z /\
  (2 * outliers_detected r <= total_transactions r + 2)%Z.
Proof.
  intros H. apply reported_categories in H. destruct H as (Hlen & ->).
  split; [reflexivity|]. split; [cbn [category_report total_transactions]; lia|].
  split; [cbn [category_report outliers_detected]; lia|].
  now apply outliers_bound.
Qed.

Lemma fold_qmin_le (l : list Q) (a : Q) :
  fold_left qmin l a <= a /\ forall x, In x l -> fold_left qmin l a <= x.
Proof.
  revert a. induction l as [|v l IH]; intros a; cbn [fold_left].
  - split; [lra|intros ? []].
  - destruct (IH (qmin a v)) as [H1 H2].
    assert (M : qmin a v <= a /\ qmin a v <= v).
    { unfold qmin. destruct (Qle_bool a v) eqn:E.
      - apply Qle_bool_iff in E. lra.
      - assert (v < a) by (apply Qnot_le_lt; intros L; apply Qle_bool_iff in L; congruence).
        lra. }
    split; [lra|]. intros x [<-|Hx]; [lra|auto].
Qed.

Lemma fold_qmax_ge (l : list Q) (a : Q) :
  a <= fold_left qmax l a /\ forall x, In x l -> x <= fold_left qmax l a.
Proof.
  revert a. induction l as [|v l IH]; intros a; cbn [fold_left].
  - split; [lra|intros ? []].
  - destruct (IH (qmax a v)) as [H1 H2].
    assert (M : a <= qmax a v /\ v <= qmax a v).
    { unfold qmax. destruct (Qle_bool a v) eqn:E.
      - apply Qle_bool_iff in E. lra.
      - assert (v < a) by (apply Qnot_le_lt; intros L; apply Qle_bool_iff in L; congruence).
        lra. }
    split; [lra|]. intros x [<-|Hx]; [lra|auto].
Qed.

Lemma series_extremes (xs : list Q) (x : Q) :
  In x xs -> series_min xs <= x <= series_max xs.
Proof.
  destruct xs as [|a l]; [intros []|]. unfold series_min, series_max. cbn [hd tl].
  destruct (fold_qmin_le l a) as [L1 L2]. destruct (fold_qmax_ge l a) as [U1 U2].
  intros [<-|Hx]; split; auto.
Qed.

Lemma Qsum_between (lo hi : Q) (xs : list Q) :
  (forall x, In x xs -> lo <= x <= hi) ->
  inject_Z (Z.of_nat (List.length xs)) * lo <= Qsum xs
  <= inject_Z (Z.of_nat (List.length xs)) * hi.
Proof.
  induction xs as [|x xs IH]; intros H.
  - unfold Qsum. cbn [List.length fold_right Z.of_nat]. unfold inject_Z. lra.
  - rewrite Qsum_cons. cbn [List.length]. rewrite Nat2Z.inj_succ. unfold Z.succ.
    rewrite inject_Z_plus.
    destruct IH as [L U]; [intros v Hv; apply H; now right|].
    destruct (H x (or_introl eq_refl)). unfold inject_Z at 2 4.
    generalize dependent (inject_Z (Z.of_nat (List.length xs))). intros n L U.
    split; lra.
Qed.

Lemma mean_between_extremes (xs : list Q) :
  xs <> [] -> series_min xs <= Py.mean xs <= series_max xs.
Proof.
  intros Hne.
  assert (Hn : 0 < inject_Z (Z.of_nat (List.length xs))).
  { change 0 with (inject_Z 0). rewrite <- Zlt_Qlt.
    destruct xs; [congruence|]. cbn [List.length]. lia. }
  destruct (Qsum_between (series_min xs) (series_max xs) xs (series_extremes xs)) as [L U].
  unfold Py.mean. split.
  - apply Qle_shift_div_l; [exact Hn|]. lra.
  - apply Qle_shift_div_r; [exact Hn|]. lra.
Qed.

Lemma flat_map_keys {A} (f : string -> A) (keep : string -> bool) (l : list string) :
  map fst (flat_map (fun c => if keep c then [(c, f c)] else []) l) = filter keep l.
Proof.
  induction l as [|c l IH]; [reflexivity|].
  cbn [flat_map filter]. destruct (keep c); cbn; now rewrite IH.
Qed.

(** On a non-empty frame the category analysis always succeeds.  It
    reports, in order of first appearance, exactly the expense categories
    with at least five rows, and each report is consistent: the rounded
    average lies between the rounded minimum and maximum and the standard
    deviation is a number. *)
Theorem category_reports_are_consistent (df : DataFetcher.DataFrame) (days : Z) :
  DataFetcher.empty df = false ->
  let r := get_category_anomalies sqrt df days in
  let expenses := DataFetcher.expenses_of df in
  success r = true /\ error r = None /\ period_days r = Some days /\
  map fst (categories r)
  = filter (fun c =>
              (5 <=? Z.of_nat (List.length
                                 (filter (fun t => String.eqb (DataFetcher.category t) c)
                                         expenses)))%Z)
           (unique_names (map DataFetcher.category expenses)) /\
  (forall c report,
     In (c, report) (categories r) ->
     min_amount report <= avg_amount report <= max_amount report /\
     exists s, std_amount report = Fin s).
Proof.
  intros Hdf r expenses.
  split; [|split; [|split; [|split]]].
  - unfold r, get_category_anomalies. now rewrite Hdf.
  - unfold r, get_category_anomalies. now rewrite Hdf.
  - unfold r, get_category_anomalies. now rewrite Hdf.
  - unfold r, get_category_anomalies. rewrite Hdf. cbn [categories]. fold expenses.
    rewrite <- (flat_map_keys
                  (fun c => category_report sqrt
                              (filter (fun t => String.eqb (DataFetcher.category t) c)
                                      expenses))).
    f_equal. apply flat_map_ext. intros c.
    rewrite Z.leb_antisym. now destruct (_ <? 5)%Z.
  - intros c report H. apply reported_categories in H. destruct H as (Hlen & ->).
    set (category_data := filter _ _) in *.
    cbn [category_report min_amount avg_amount max_amount std_amount].
    assert (Hne : map DataFetcher.amount category_data <> []).
    { destruct category_data; [cbn in Hlen; lia|discriminate]. }
    destruct (mean_between_extremes _ Hne) as [L U].
    split; [split; now apply round2_mono|].
    unfold series_std. rewrite length_map.
    destruct (Nat.ltb_spec (List.length category_data) 2); [lia|].
    cbn [fround2]. eauto.
Qed.

End CategoryOutliers.

Section CategoryOutlierWitness.
Import Py AnomalyService AnomalySamples Samples.
Open Scope Q_scope.

(** Eight meals, two of them free: the two free ones are the outliers. *)
Lemma outliers_are_at_most_half_witness :
  exists r,
    In ("Food"%string, r) (categories (get_category_anomalies sqrt_milli eight_meals 90)) /\
    total_transactions r = 8%Z /\ outliers_detected r = 2%Z.
Proof.
  exists (category_report sqrt_milli eight_meals).
  assert (H : In ("Food"%string, category_report sqrt_milli eight_meals)
                 (categories (get_category_anomalies sqrt_milli eight_meals 90)))
    by (left; reflexivity).
  split; [exact H|].
  destruct (outliers_are_at_most_half sqrt_milli eight_meals 90 "Food"
              (category_report sqrt_milli eight_meals) H) as (Ht & _).
  split; [rewrite Ht; reflexivity|reflexivity].
Defined.

(** Eight meals: one category is reported. *)
Lemma category_reports_are_consistent_witness :
  map fst (categories (get_category_anomalies sqrt_milli eight_meals 90))
  = ["Food"%string].
Proof.
  assert (H : DataFetcher.empty eight_meals = false) by reflexivity.
  destruct (category_reports_are_consistent sqrt_milli eight_meals 90 H)
    as (_ & _ & _ & Hkeys & _).
  rewrite Hkeys. reflexivity.
Defined.

End CategoryOutlierWitness.

(** ** The forecast by category *)

Section CategoryForecastFacts.
Import Py ForecastService CategoryForecast.
Open Scope Q_scope.

Variable prophet : list DailyRow -> Z -> result (list ForecastRow).

Lemma forecast_category_raises
    (expenses : DataFetcher.DataFrame) (forecast_days : Z) (category : string) (e : exn) :
  forecast_category prophet expenses forecast_days category = Raise e <->
  (7 <= Z.of_nat (List.length (daily_data (category_rows expenses category))))%Z /\
  prophet (daily_data (category_rows expenses category)) forecast_days = Raise e.
Proof.
  unfold forecast_category.
  destruct (Z.of_nat _ <? 7)%Z eqn:E.
  - apply Z.ltb_lt in E. split; [discriminate|]. intros [H _]. lia.
  - apply Z.ltb_ge in E.
    destruct (prophet _ forecast_days) as [rows|e']; cbn [bind].
    + split; [discriminate|]. intros [_ H]. discriminate H.
    + split; [intros [= ->]; auto|]. intros [_ [= ->]]. reflexivity.
Qed.

Lemma forecast_each_ok
    (expenses : DataFetcher.DataFrame) (forecast_days : Z) (categories : list string)
    (entries : list (string * CategoryEntry)) :
  forecast_each prophet expenses forecast_days categories = Ok entries ->
  map fst entries = categories /\
  forall c entry, In (c, entry) entries ->
                  forecast_category prophet expenses forecast_days c = Ok entry.
Proof.
  revert entries. induction categories as [|c cs IH]; intros entries; cbn [forecast_each].
  - intros [= <-]. split; [reflexivity|intros ? ? []].
  - destruct (forecast_category prophet expenses forecast_days c) as [entry|e] eqn:Hc;
      cbn [bind]; [|discriminate].
    destruct (forecast_each prophet expenses forecast_days cs) as [es|e]; cbn [bind];
      [|discriminate].
    intros [= <-]. destruct (IH es eq_refl) as [Hk Hv].
    split; [cbn; now rewrite Hk|].
    intros c' entry' [[= <- <-]|H]; [exact Hc|auto].
Qed.

Lemma forecast_each_raises
    (expenses : DataFetcher.DataFrame) (forecast_days : Z) (categories : list string)
    (e : exn) :
  forecast_each prophet expenses forecast_days categories = Raise e ->
  exists c, In c categories /\
            forecast_category prophet expenses forecast_days c = Raise e.
Proof.
  induction categories as [|c cs IH]; cbn [forecast_each]; [discriminate|].
  destruct (forecast_category prophet expenses forecast_days c) as [entry|e'] eqn:Hc;
    cbn [bind].
  - destruct (forecast_each prophet expenses forecast_days cs) as [es|e']; cbn [bind];
      [discriminate|].
    intros [= ->]. destruct (IH eq_refl) as (c' & Hin & Hr). exists c'. split; [now right|exact Hr].
  - intros [= ->]. exists c. split; [now left|exact Hc].
Qed.

(** The forecast by category is all or nothing.  On a non-empty frame it
    succeeds exactly when the model returns for every category used on at
    least seven days, and then lists every expense category once, in order
    of first appearance.  When the model raises for one such category there
    is no fallback: the whole answer is that exception's text with no
    forecast at all. *)
Theorem category_forecast_is_all_or_nothing
    (df : DataFetcher.DataFrame) (forecast_days : Z) :
  DataFetcher.empty df = false ->
  let r := get_category_forecast prophet df forecast_days in
  let expenses := DataFetcher.expenses_of df in
  let categories := BudgetService.unique_names (map DataFetcher.category expenses) in
  let busy c := (7 <= Z.of_nat (List.length (daily_data (category_rows expenses c))))%Z in
  (success r = true <->
   forall c, In c categories -> busy c ->
             exists rows, prophet (daily_data (category_rows expenses c)) forecast_days
                          = Ok rows) /\
  (success r = true ->
   map fst (forecasts r) = categories /\ forecast_period_days r = Some forecast_days) /\
  (success r = false ->
   forecasts r = [] /\
   exists c e, In c categories /\ busy c /\
               prophet (daily_data (category_rows expenses c)) forecast_days = Raise e /\
               error r = Some (str_exn e)).
Proof.
  intros Hdf r expenses categories busy.
  unfold r, get_category_forecast. rewrite Hdf. fold expenses. fold categories.
  destruct (forecast_each prophet expenses forecast_days categories) as [entries|e] eqn:He.
  - cbn [success forecasts forecast_period_days error].
    destruct (forecast_each_ok _ _ _ _ He) as [Hk Hv].
    split; [|split; [auto|discriminate]].
    split; [|reflexivity]. intros _ c Hc Hbusy.
    assert (Hin : In c (map fst entries)) by now rewrite Hk.
    apply in_map_iff in Hin. destruct Hin as ([c' entry] & Hfst & Hin). cbn in Hfst. subst c'.
    specialize (Hv c entry Hin).
    destruct (prophet (daily_data (category_rows expenses c)) forecast_days) as [rows|e] eqn:P;
      [eauto|].
    assert (R : forecast_category prophet expenses forecast_days c = Raise e)
      by (apply forecast_category_raises; split; assumption).
    congruence.
  - cbn [category_failure success forecasts forecast_period_days error].
    destruct (forecast_each_raises _ _ _ _ He) as (c & Hc & Hr).
    apply forecast_category_raises in Hr. destruct Hr as [Hbusy Hp].
    split; [|split; [discriminate|]].
    + split; [discriminate|]. intros H. destruct (H c Hc Hbusy) as [rows Hrows]. congruence.
    + intros _. split; [reflexivity|]. exists c, e. auto.
Qed.

Lemma Qsum_nonneg (xs : list Q) : (forall x, In x xs -> 0 <= x) -> 0 <= Qsum xs.
Proof.
  induction xs as [|x xs IH]; intros H; [unfold Qsum; cbn; lra|].
  rewrite Qsum_cons.
  assert (0 <= x) by (apply H; now left).
  assert (0 <= Qsum xs) by (apply IH; intros v Hv; apply H; now right).
  lra.
Qed.

Lemma mean_nonneg (xs : list Q) : (forall x, In x xs -> 0 <= x) -> 0 <= mean xs.
Proof.
  intros H. unfold mean. pose proof (Qsum_nonneg xs H) as S.
  destruct xs as [|x xs].
  - unfold Qdiv. cbn [List.length Z.of_nat]. change (/ inject_Z 0) with 0. lra.
  - apply Qle_shift_div_l; [|lra].
    change 0 with (inject_Z 0). rewrite <- Zlt_Qlt. cbn [List.length]. lia.
Qed.

Lemma round2_nonneg (x : Q) : 0 <= x -> 0 <= round2 x.
Proof.
  intros H. assert (Z0 : 0 <= round2 0) by (vm_compute; discriminate).
  pose proof (round2_mono 0 x H). lra.
Qed.

(** No entry of a category forecast is negative as long as no expense
    amount is and the horizon is not: the historical total, the average
    and the predicted total are all at least 0.  For a category used on
    seven days or more the predicted total is at least 0 whatever the
    model predicts and whatever the amounts are. *)
Theorem category_forecasts_are_never_negative
    (df : DataFetcher.DataFrame) (forecast_days : Z) (c : string) (entry : CategoryEntry) :
  In (c, entry) (forecasts (get_category_forecast prophet df forecast_days)) ->
  let expenses := DataFetcher.expenses_of df in
  ((7 <= Z.of_nat (List.length (daily_data (category_rows expenses c))))%Z ->
   0 <= predicted_total entry) /\
  ((forall t, In t expenses -> 0 <= DataFetcher.amount t) ->
   (0 <= forecast_days)%Z ->
   0 <= avg_spending entry /\ 0 <= total_historical entry /\ 0 <= predicted_total entry).
Proof.
  unfold get_category_forecast.
  destruct (DataFetcher.empty df); [intros []|].
  destruct (forecast_each _ _ _ _) as [entries|e] eqn:He; [|intros []].
  cbn [forecasts]. intros Hin.
  destruct (forecast_each_ok _ _ _ _ He) as [_ Hv]. specialize (Hv c entry Hin).
  set (expenses := DataFetcher.expenses_of df) in *. unfold forecast_category in Hv.
  set (category_data := category_rows expenses c) in *.
  assert (Hamounts : (forall t, In t expenses -> 0 <= DataFetcher.amount t) ->
                     forall x, In x (map DataFetcher.amount category_data) -> 0 <= x).
  { intros H x Hx. apply in_map_iff in Hx. destruct Hx as (t & <- & Ht).
    apply H. unfold category_data, category_rows in Ht. apply filter_In in Ht. tauto. }
  destruct (Z.of_nat _ <? 7)%Z eqn:E.
  - apply Z.ltb_lt in E. injection Hv as <-. cbn [avg_spending total_historical predicted_total].
    split; [lia|]. intros Hpos Hdays.
    pose proof (mean_nonneg _ (Hamounts Hpos)) as M.
    pose proof (Qsum_nonneg _ (Hamounts Hpos)) as S.
    assert (D : 0 <= inject_Z forecast_days)
      by (change 0 with (inject_Z 0); now rewrite <- Zle_Qle).
    repeat split; apply round2_nonneg; try assumption.
    now apply Qmult_le_0_compat.
  - destruct (prophet _ forecast_days) as [rows|e]; cbn [bind] in Hv; [|discriminate Hv].
    injection Hv as <-. cbn [avg_spending total_historical predicted_total].
    assert (P : 0 <= round2 (max0 (Qsum (map yhat rows))))
      by (apply round2_nonneg, max0_nonneg).
    split; [intros _; exact P|]. intros Hpos Hdays.
    split; [|split; [|exact P]].
    + apply round2_nonneg, mean_nonneg.
      intros x Hx. apply in_map_iff in Hx. destruct Hx as (row & <- & Hrow).
      unfold daily_data in Hrow. apply in_map_iff in Hrow. destruct Hrow as (d & <- & _).
      cbn [y]. unfold daily_total. apply Qsum_nonneg.
      intros x Hx. apply in_map_iff in Hx. destruct Hx as (t & <- & Ht).
      apply filter_In in Ht. destruct Ht as [Ht _].
      apply (Hamounts Hpos). now apply in_map.
    + apply round2_nonneg, Qsum_nonneg, Hamounts, Hpos.
Qed.

End CategoryForecastFacts.

Section CategoryForecastWitnesses.
Import Py ForecastService CategoryForecast Samples.
Open Scope Q_scope.

(** A month of meals and a model whose fit fails: no forecast at all. *)
Lemma category_forecast_is_all_or_nothing_witness :
  forecasts (get_category_forecast failing_model (daily_expenses 30 10) 30) = [] /\
  error (get_category_forecast failing_model (daily_expenses 30 10) 30)
  = Some "fit failed"%string.
Proof.
  assert (H : DataFetcher.empty (daily_expenses 30 10) = false) by reflexivity.
  destruct (category_forecast_is_all_or_nothing failing_model (daily_expenses 30 10) 30 H)
    as (_ & _ & Hfail).
  destruct Hfail as (Hnone & _); [reflexivity|].
  split; [exact Hnone|reflexivity].
Defined.

(** A month of meals and the flat model: 30 days at 10 a day. *)
Lemma category_forecasts_are_never_negative_witness :
  exists entry,
    In ("Food"%string, entry)
       (forecasts (get_category_forecast flat_model (daily_expenses 30 10) 30)) /\
    0 <= predicted_total entry.
Proof.
  pose (entry := {| avg_spending := round2 10; total_historical := round2 300;
                    predicted_total := round2 300 |}).
  exists entry.
  assert (H : In ("Food"%string, entry)
                 (forecasts (get_category_forecast flat_model (daily_expenses 30 10) 30))).
  { vm_compute. left. reflexivity. }
  split; [exact H|].
  apply (proj1 (category_forecasts_are_never_negative flat_model (daily_expenses 30 10) 30
                  "Food" entry H)).
  vm_compute. discriminate.
Defined.

End CategoryForecastWitnesses.

(** ** Totals by category *)

Section CategoryTotals.
Import Py BudgetService FinancialSummary Samples.
Open Scope Q_scope.

Lemma in_unique_names_from (seen l : list string) (c : string) :
  In c (unique_names_from seen l) <-> In c l /\ ~ In c seen.
Proof.
  revert seen. induction l as [|x l IH]; intros seen; cbn [unique_names_from].
  - cbn. tauto.
  - destruct (existsb (String.eqb x) seen) eqn:E.
    + apply existsb_exists in E. destruct E as (y & Hy & Exy).
      apply String.eqb_eq in Exy. subst y.
      rewrite IH. cbn [In]. split; [tauto|].
      intros [[<-|H] N]; [contradiction|tauto].
    + assert (N : ~ In x seen).
      { intros H. assert (existsb (String.eqb x) seen = true); [|congruence].
        apply existsb_exists. exists x. split; [exact H|apply String.eqb_refl]. }
      cbn [In]. rewrite IH. cbn [In].
      destruct (string_dec x c) as [->|D]; [tauto|].
      split; [tauto|]. intros [[H|H] M]; [contradiction|]. right. tauto.
Qed.

Lemma in_unique_names (l : list string) (c : string) :
  In c (unique_names l) <-> In c l.
Proof.
  unfold unique_names. rewrite in_unique_names_from. cbn. tauto.
Qed.

Lemma NoDup_unique_names_from (seen l : list string) :
  NoDup (unique_names_from seen l).
Proof.
  revert seen. induction l as [|x l IH]; intros seen; cbn [unique_names_from];
    [constructor|].
  destruct (existsb (String.eqb x) seen); [apply IH|].
  constructor; [|apply IH].
  rewrite in_unique_names_from. cbn [In]. tauto.
Qed.

Lemma in_insert_key (k c : string) (l : list string) :
  In c (insert_key k l) <-> c = k \/ In c l.
Proof.
  induction l as [|x l IH]; cbn [insert_key].
  - cbn. intuition.
  - destruct (String.leb k x); cbn [In]; [intuition|]. rewrite IH. intuition.
Qed.

Lemma NoDup_insert_key (k : string) (l : list string) :
  NoDup l -> ~ In k l -> NoDup (insert_key k l).
Proof.
  induction l as [|x l IH]; intros Hl Hk; cbn [insert_key].
  - constructor; [intros []|constructor].
  - destruct (String.leb k x); [now constructor|].
    inversion Hl as [|? ? Hx Hl']; subst.
    constructor.
    + rewrite in_insert_key. intros [->|H]; [|contradiction]. apply Hk. now left.
    + apply IH; [exact Hl'|]. intros H. apply Hk. now right.
Qed.

Lemma group_keys_spec (names : list string) :
  NoDup (group_keys names) /\ forall c, In c (group_keys names) <-> In c names.
Proof.
  unfold group_keys.
  pose proof (NoDup_unique_names_from [] names) as Hnd.
  assert (Hin : forall c, In c (unique_names_from [] names) <-> In c names)
    by (intros c; apply (in_unique_names names c)).
  fold (unique_names names) in Hnd, Hin.
  revert Hnd Hin. generalize (unique_names names). intros u Hnd Hin.
  assert (G : NoDup (fold_right insert_key [] u) /\
              forall c, In c (fold_right insert_key [] u) <-> In c u).
  { clear Hin. induction u as [|k u IH]; [split; [constructor|tauto]|].
    inversion Hnd as [|? ? Hk Hu]; subst. destruct (IH Hu) as [N I].
    cbn [fold_right]. split.
    - apply NoDup_insert_key; [exact N|]. now rewrite I.
    - intros c. rewrite in_insert_key, I. cbn [In]. intuition. }
  destruct G as [N I]. split; [exact N|]. intros c. now rewrite I, Hin.
Qed.

(** The spending analysis loses no money: the totals of the analysed
    categories add up to the total of all expense rows. *)
Theorem pattern_totals_add_up (sqrt : Q -> Q) (df : DataFetcher.DataFrame) :
  Qsum (map (fun p => total (snd p)) (analyze_spending_patterns sqrt df))
  == Qsum (map DataFetcher.amount (DataFetcher.expenses_of df)).
Proof.
  unfold analyze_spending_patterns.
  destruct (DataFetcher.empty df) eqn:E.
  - destruct df; [reflexivity|discriminate E].
  - rewrite map_map. cbn [snd category_stats total].
    apply (Qsum_grouped DataFetcher.Transaction string String.eqb String.eqb_eq
             DataFetcher.category DataFetcher.amount).
    + apply NoDup_unique_names_from.
    + intros t Ht. apply in_unique_names. now apply in_map.
Qed.

(** The summary is consistent with its breakdown when both are read from
    the same transactions: the amounts by category add up to the total
    expenses, every expense category occurs exactly once among the keys,
    and for a positive period the daily average times the period gives the
    total expenses back. *)
Theorem summary_breakdown_adds_up (df : DataFetcher.DataFrame) (days : Z) :
  DataFetcher.empty df = false ->
  let s := get_financial_summary df df days in
  exists breakdown,
    spending_by_category s = Some breakdown /\
    Qsum (map snd breakdown) == total_expenses s /\
    NoDup (map fst breakdown) /\
    (forall c, In c (map fst breakdown) <->
               In c (map DataFetcher.category (DataFetcher.expenses_of df))) /\
    transaction_count s = Z.of_nat (List.length df) /\
    ((0 < days)%Z -> avg_daily_spending s * inject_Z days == total_expenses s).
Proof.
  intros Hdf s. unfold s, get_financial_summary. rewrite Hdf.
  cbn [spending_by_category total_expenses transaction_count avg_daily_spending].
  exists (get_spending_by_category df). split; [reflexivity|].
  unfold get_spending_by_category. rewrite Hdf.
  destruct (group_keys_spec (map DataFetcher.category (DataFetcher.expenses_of df)))
    as [Hnd Hin].
  rewrite !map_map. cbn [fst snd]. rewrite map_id.
  split; [|split; [exact Hnd|split; [exact Hin|split; [reflexivity|]]]].
  - unfold GoalService.amount_of_type.
    change (filter (fun t => String.eqb (DataFetcher.type t) "expense") df)
      with (DataFetcher.expenses_of df).
    apply (Qsum_grouped DataFetcher.Transaction string String.eqb String.eqb_eq
             DataFetcher.category DataFetcher.amount).
    + exact Hnd.
    + intros t Ht. apply Hin. now apply in_map.
  - intros Hdays. assert (E : (0 <? days)%Z = true) by now apply Z.ltb_lt.
    rewrite E.
    assert (P : ~ inject_Z days == 0).
    { intros Z0. assert (0 < inject_Z days).
      { change 0 with (inject_Z 0). now rewrite <- Zlt_Qlt. }
      lra. }
    field. exact P.
Qed.

End CategoryTotals.

Section CategoryTotalsWitness.
Import Py FinancialSummary Samples.
Open Scope Q_scope.

(** Food 300 and rent 900: the breakdown adds up to 1200. *)
Lemma summary_breakdown_adds_up_witness :
  exists breakdown,
    spending_by_category (get_financial_summary food_and_rent food_and_rent 30)
    = Some breakdown /\
    Qsum (map snd breakdown) == 1200.
Proof.
  assert (H : DataFetcher.empty food_and_rent = false) by reflexivity.
  destruct (summary_breakdown_adds_up food_and_rent 30 H) as (b & Hb & Hsum & _).
  exists b. split; [exact Hb|]. rewrite Hsum. reflexivity.
Defined.

End CategoryTotalsWitness.

(** ** Anomaly detection *)

Section DetectionFacts.
Import Py Ordering AnomalyDetection.
Open Scope Q_scope.

Variable sqrt : Q -> Q.
Variable isolation_forest : list (list pyfloat) -> Q -> result (list Z * list Q).

Lemma in_insert_by_score {A} (score : A -> Q) (x y : A) (l : list A) :
  In y (insert_by_score score x l) <-> y = x \/ In y l.
Proof.
  induction l as [|v l IH]; cbn [insert_by_score].
  - cbn. intuition.
  - destruct (Qle_bool (score x) (score v)); cbn [In]; [intuition|].
    rewrite IH. intuition.
Qed.

Lemma in_sort_values {A} (score : A -> Q) (y : A) (l : list A) :
  In y (sort_values score l) <-> In y l.
Proof.
  induction l as [|x l IH]; [reflexivity|].
  cbn [sort_values fold_right]. rewrite in_insert_by_score.
  fold (sort_values score l). rewrite IH. cbn [In]. intuition.
Qed.

Lemma length_insert_by_score {A} (score : A -> Q) (x : A) (l : list A) :
  List.length (insert_by_score score x l) = S (List.length l).
Proof.
  induction l as [|v l IH]; [reflexivity|].
  cbn [insert_by_score]. destruct (Qle_bool _ _); cbn [List.length]; [reflexivity|].
  now rewrite IH.
Qed.

Lemma length_sort_values {A} (score : A -> Q) (l : list A) :
  List.length (sort_values score l) = List.length l.
Proof.
  induction l as [|x l IH]; [reflexivity|].
  cbn [sort_values fold_right]. rewrite length_insert_by_score.
  fold (sort_values score l). now rewrite IH.
Qed.

Lemma ascending_insert_by_score {A} (score : A -> Q) (x : A) (l : list A) :
  ascending (map score l) -> ascending (map score (insert_by_score score x l)).
Proof.
  induction l as [|v l IH]; cbn [insert_by_score map ascending].
  - intros _. split; [intros ? []|exact I].
  - intros [Hv Hl]. destruct (Qle_bool (score x) (score v)) eqn:E.
    + apply Qle_bool_iff in E. cbn [map ascending]. split; [|split; assumption].
      intros w [<-|Hw]; [exact E|]. specialize (Hv w Hw). lra.
    + assert (E' : score v <= score x).
      { apply Qlt_le_weak, Qnot_le_lt. intros L. apply Qle_bool_iff in L. congruence. }
      cbn [map ascending]. split; [|apply IH; exact Hl].
      intros w Hw. apply in_map_iff in Hw. destruct Hw as (y & <- & Hy).
      apply in_insert_by_score in Hy. destruct Hy as [->|Hy]; [exact E'|].
      apply Hv. now apply in_map.
Qed.

Lemma ascending_sort_values {A} (score : A -> Q) (l : list A) :
  ascending (map score (sort_values score l)).
Proof.
  induction l as [|x l IH]; [exact I|].
  cbn [sort_values fold_right]. now apply ascending_insert_by_score.
Qed.

Lemma ascending_map (f : Q -> Q) (l : list Q) :
  (forall x y, x <= y -> f x <= f y) -> ascending l -> ascending (map f l).
Proof.
  intros Hf. induction l as [|x l IH]; [intros _; exact I|].
  intros [Hx Hl]. cbn [map ascending]. split; [|now apply IH].
  intros v Hv. apply in_map_iff in Hv. destruct Hv as (w & <- & Hw). auto.
Qed.

Lemma round4_mono (x y : Q) : x <= y -> round4 x <= round4 y.
Proof.
  intros H. unfold round4.
  assert (M : (round_half_even (x * 10000) <= round_half_even (y * 10000))%Z)
    by (apply round_half_even_mono; lra).
  unfold Qle. cbn [Qnum Qden]. lia.
Qed.

Lemma length_prepare_features (df : DataFetcher.DataFrame) :
  List.length (prepare_features sqrt df) = List.length df.
Proof.
  unfold prepare_features. rewrite length_map, length_combine, length_seq. lia.
Qed.

Lemma in_prepare_features (df : DataFetcher.DataFrame) (row : FeatureRow) :
  In row (prepare_features sqrt df) ->
  In (transaction row) df /\
  day_of_week row = dayofweek (DataFetcher.date (transaction row)).
Proof.
  unfold prepare_features. intros H. apply in_map_iff in H.
  destruct H as ([i t] & <- & Hin). apply in_combine_r in Hin.
  cbn [transaction day_of_week]. auto.
Qed.

(** What a successful detection returns. *)
Lemma detection_shape (df : DataFetcher.DataFrame) (days : Z) (contamination : Q) :
  success (detect_anomalies sqrt isolation_forest df days contamination) = true ->
  let expenses := DataFetcher.expenses_of df in
  let features := prepare_features sqrt expenses in
  exists sufficiency predictions scores,
    DataFetcher.check_data_sufficiency df 30 ANOMALY_MIN_TRANSACTIONS MIN_EXPENSES
    = Ok sufficiency /\
    DataFetcher.sufficient sufficiency = true /\
    isolation_forest (feature_matrix features) contamination = Ok (predictions, scores) /\
    List.length predictions = List.length features /\
    List.length scores = List.length features /\
    let flagged :=
      sort_values snd
        (map (fun x => (fst x, snd (snd x)))
             (filter (fun x => (fst (snd x) =? -1)%Z)
                     (combine features (combine predictions scores)))) in
    anomalies (detect_anomalies sqrt isolation_forest df days contamination)
    = map (describe (mean (map rolling_mean_7d features))
                    (series_std sqrt (map DataFetcher.amount expenses)))
          flagged /\
    exists st,
      statistics (detect_anomalies sqrt isolation_forest df days contamination) = Some st /\
      total_transactions st = Z.of_nat (List.length expenses) /\
      anomalies_detected st = Z.of_nat (List.length flagged) /\
      anomaly_percentage st
      = round2 (inject_Z (Z.of_nat (List.length flagged))
                / inject_Z (Z.of_nat (List.length expenses)) * 100) /\
      period_days st = days.
Proof.
  intros Hok expenses features. unfold detect_anomalies in *.
  destruct (DataFetcher.check_data_sufficiency _ _ _ _) as [v|e]; [|discriminate Hok].
  destruct (DataFetcher.sufficient v) eqn:Hv; [|discriminate Hok]. cbn [negb] in *.
  fold expenses in Hok |- *. fold features in Hok |- *.
  destruct (isolation_forest (feature_matrix features) contamination)
    as [[predictions scores]|e]; [|discriminate Hok].
  destruct (Nat.eqb (List.length predictions) (List.length features)) eqn:E1;
    [|discriminate Hok].
  destruct (Nat.eqb (List.length scores) (List.length features)) eqn:E2;
    [|discriminate Hok].
  cbn [negb] in *.
  destruct (Nat.eqb (List.length expenses) 0); [discriminate Hok|].
  apply Nat.eqb_eq in E1, E2.
  exists v, predictions, scores. repeat split; try assumption.
  eexists. repeat split.
Qed.

Lemma enough_expenses (df : DataFetcher.DataFrame) (v : DataFetcher.SufficiencyVerdict)
    (min_days min_transactions min_expenses : Z) :
  DataFetcher.check_data_sufficiency df min_days min_transactions min_expenses = Ok v ->
  DataFetcher.sufficient v = true ->
  (min_expenses <= Z.of_nat (List.length (DataFetcher.expenses_of df)))%Z.
Proof.
  intros Hcheck Hv. destruct df as [|t df'].
  - cbn in Hcheck. injection Hcheck as <-. discriminate Hv.
  - destruct (verdict_nonempty (t :: df') min_days min_transactions min_expenses)
      as (v' & Hv' & _ & _ & _ & Hs & _); [discriminate|].
    rewrite Hv' in Hcheck. injection Hcheck as ->.
    rewrite Hs in Hv. apply andb_prop in Hv. destruct Hv as [_ Hv].
    apply Z.leb_le in Hv. exact Hv.
Qed.

(** A successful detection lists its anomalies most anomalous first (by
    ascending score), counts them in its statistics, never counts more
    anomalies than expense rows, of which there are at least 20, reports a
    percentage between 0 and 100 and echoes the requested period. *)
Theorem anomalies_are_ranked_and_counted
    (df : DataFetcher.DataFrame) (days : Z) (contamination : Q) :
  let r := detect_anomalies sqrt isolation_forest df days contamination in
  success r = true ->
  exists st,
    statistics r = Some st /\
    ascending (map anomaly_score (anomalies r)) /\
    anomalies_detected st = Z.of_nat (List.length (anomalies r)) /\
    total_transactions st = Z.of_nat (List.length (DataFetcher.expenses_of df)) /\
    (20 <= total_transactions st)%Z /\
    (0 <= anomalies_detected st <= total_transactions st)%Z /\
    0 <= anomaly_percentage st <= 100 /\
    period_days st = days.
Proof.
  intros r Hok. subst r.
  destruct (detection_shape df days contamination Hok)
    as (v & predictions & scores & Hcheck & Hv & _ & Hp & Hs & Hlist & st & Hst & Ht & Ha
        & Hpct & Hdays).
  set (expenses := DataFetcher.expenses_of df) in *.
  set (features := prepare_features sqrt expenses) in *.
  set (flagged := sort_values snd _) in *.
  assert (Hn : (20 <= Z.of_nat (List.length expenses))%Z)
    by (apply (enough_expenses df v 30 ANOMALY_MIN_TRANSACTIONS MIN_EXPENSES); assumption).
  assert (Hflag : (List.length flagged <= List.length expenses)%nat).
  { unfold flagged. rewrite length_sort_values, length_map.
    etransitivity; [apply filter_length_le|].
    rewrite length_combine. unfold features. rewrite length_prepare_features. lia. }
  exists st. split; [exact Hst|]. rewrite Hlist.
  split; [|split; [|split; [|split; [|split; [|split]]]]].
  - rewrite map_map.
    change (fun x : FeatureRow * Q => anomaly_score (describe _ _ x))
      with (fun x : FeatureRow * Q => anomaly_score (describe
              (mean (map rolling_mean_7d features))
              (series_std sqrt (map DataFetcher.amount expenses)) x)).
    rewrite (map_ext _ (fun x => round4 (snd x))) by (intros [row score]; reflexivity).
    rewrite <- (map_map snd round4).
    apply ascending_map; [apply round4_mono|]. apply ascending_sort_values.
  - rewrite length_map. exact Ha.
  - exact Ht.
  - rewrite Ht. exact Hn.
  - rewrite Ha, Ht. lia.
  - rewrite Hpct.
    assert (P : 0 < inject_Z (Z.of_nat (List.length expenses))).
    { change 0 with (inject_Z 0). rewrite <- Zlt_Qlt. lia. }
    assert (A : 0 <= inject_Z (Z.of_nat (List.length flagged))
                <= inject_Z (Z.of_nat (List.length expenses))).
    { split; [change 0 with (inject_Z 0)|]; rewrite <- Zle_Qle; lia. }
    generalize dependent (inject_Z (Z.of_nat (List.length flagged))).
    generalize dependent (inject_Z (Z.of_nat (List.length expenses))).
    intros n P a _ A.
    assert (B : 0 <= a / n <= 1).
    { split; [apply Qle_shift_div_l|apply Qle_shift_div_r]; lra. }
    apply (round2_between 0 100). unfold inject_Z. lra.
  - exact Hdays.
Qed.

Lemma reasons_nonempty (row : FeatureRow) (mean_amount z_score : Q) :
  _generate_anomaly_reason row mean_amount z_score <> [] /\
  (In StatisticalAnomaly (_generate_anomaly_reason row mean_amount z_score) ->
   _generate_anomaly_reason row mean_amount z_score = [StatisticalAnomaly]) /\
  (In HighWeekendSpending (_generate_anomaly_reason row mean_amount z_score) ->
   (day_of_week row = 6 \/ day_of_week row = 0)%Z /\
   mean_amount < DataFetcher.amount (transaction row)) /\
  (forall ratio,
     In (HigherThanAverage ratio) (_generate_anomaly_reason row mean_amount z_score) ->
     mean_amount * 3 < DataFetcher.amount (transaction row) \/
     mean_amount * 2 < DataFetcher.amount (transaction row)).
Proof.
  unfold _generate_anomaly_reason.
  destruct (Qltb (mean_amount * 3) _) eqn:A3;
    [|destruct (Qltb (mean_amount * 2) _) eqn:A2];
    destruct (flt (Fin 3) (amount_vs_mean row));
    destruct (day_of_week row =? 6)%Z eqn:D6;
    destruct (day_of_week row =? 0)%Z eqn:D0;
    destruct (Qltb mean_amount _) eqn:M;
    cbn [orb app];
    try apply Z.eqb_eq in D6; try apply Z.eqb_eq in D0;
    try apply Qltb_lt in M; try apply Qltb_lt in A3; try apply Qltb_lt in A2;
    (split; [discriminate|]);
    (split; [intros H; cbn in H; intuition congruence|]);
    (split; [intros H; cbn in H; intuition (try congruence; auto)|]);
    intros ratio H; cbn in H; intuition (try congruence).
Qed.

Lemma failed_detection_lists_nothing
    (df : DataFetcher.DataFrame) (days : Z) (contamination : Q) :
  success (detect_anomalies sqrt isolation_forest df days contamination) = false ->
  anomalies (detect_anomalies sqrt isolation_forest df days contamination) = [] /\
  statistics (detect_anomalies sqrt isolation_forest df days contamination) = None.
Proof.
  unfold detect_anomalies.
  destruct (DataFetcher.check_data_sufficiency _ _ _ _) as [v|e]; [|split; reflexivity].
  destruct (negb (DataFetcher.sufficient v)); [split; reflexivity|].
  destruct (isolation_forest _ contamination) as [[predictions scores]|e];
    [|split; reflexivity].
  destruct (negb (Nat.eqb (List.length predictions) _)); [split; reflexivity|].
  destruct (negb (Nat.eqb (List.length scores) _)); [split; reflexivity|].
  destruct (Nat.eqb _ 0); [split; reflexivity|].
  discriminate.
Qed.

Lemma severity_needs_excess (mean_amount : Q) (std_amount : pyfloat) (row : FeatureRow)
    (score : Q) :
  severity (describe mean_amount std_amount (row, score)) <> severity_low ->
  mean_amount < DataFetcher.amount (transaction row).
Proof.
  cbn [describe severity].
  destruct std_amount as [s| | |];
    try (intros H; exfalso; apply H; reflexivity).
  destruct (Qltb 0 s) eqn:S; [|intros H; exfalso; apply H; reflexivity].
  apply Qltb_lt in S.
  set (z := (DataFetcher.amount (transaction row) - mean_amount) / s).
  assert (Z2 : 2 < z -> mean_amount < DataFetcher.amount (transaction row)).
  { intros H.
    assert (E : DataFetcher.amount (transaction row) - mean_amount == z * s)
      by (unfold z; field; lra).
    clearbody z.
    generalize dependent (DataFetcher.amount (transaction row)). intros a E. nra. }
  destruct (Qltb 3 z) eqn:Z3.
  - intros _. apply Z2. apply Qltb_lt in Z3. lra.
  - destruct (Qltb 2 z) eqn:Z2'; [|intros H; exfalso; apply H; reflexivity].
    intros _. apply Z2. now apply Qltb_lt.
Qed.

(** Every listed anomaly describes one of the user's expense rows (its
    date, rounded amount, category and description) and always carries a
    reason.  The generic text "statistical anomaly" stands alone when it is
    given.  The text about weekend spending is attached only where
    [dayofweek] is 6 or 0, that is on Sundays and Mondays, so never on a
    Saturday, and only to an amount above the mean amount; and a severity
    other than "low" is given only to an amount above that mean. *)
Theorem anomaly_explanations
    (df : DataFetcher.DataFrame) (days : Z) (contamination : Q) (a : Anomaly) :
  In a (anomalies (detect_anomalies sqrt isolation_forest df days contamination)) ->
  let expenses := DataFetcher.expenses_of df in
  let mean_amount := mean (map rolling_mean_7d (prepare_features sqrt expenses)) in
  exists t,
    In t expenses /\
    anomaly_date a = DataFetcher.strftime (DataFetcher.date t) /\
    anomaly_amount a = round2 (DataFetcher.amount t) /\
    anomaly_category a = DataFetcher.category t /\
    anomaly_description a = DataFetcher.description t /\
    reason a <> [] /\
    (In StatisticalAnomaly (reason a) -> reason a = [StatisticalAnomaly]) /\
    (In HighWeekendSpending (reason a) ->
     (dayofweek (DataFetcher.date t) = 6 \/ dayofweek (DataFetcher.date t) = 0)%Z /\
     mean_amount < DataFetcher.amount t) /\
    (dayofweek (DataFetcher.date t) = 5%Z -> ~ In HighWeekendSpending (reason a)) /\
    (severity a <> severity_low -> mean_amount < DataFetcher.amount t).
Proof.
  intros Ha expenses mean_amount.
  destruct (success (detect_anomalies sqrt isolation_forest df days contamination)) eqn:Hok.
  2:{ apply failed_detection_lists_nothing in Hok. destruct Hok as [Hnone _].
      rewrite Hnone in Ha. destruct Ha. }
  destruct (detection_shape df days contamination Hok)
    as (_ & predictions & scores & _ & _ & _ & _ & _ & Hlist & _).
  fold expenses in Hlist. fold mean_amount in Hlist.
  rewrite Hlist in Ha. apply in_map_iff in Ha. destruct Ha as ([row score] & <- & Hin).
  apply in_sort_values in Hin. apply in_map_iff in Hin.
  destruct Hin as ([row' [p s]] & E & Hin). cbn in E. injection E as -> ->.
  apply filter_In in Hin. destruct Hin as [Hin _]. apply in_combine_l in Hin.
  apply in_prepare_features in Hin. destruct Hin as [Ht Hdow].
  exists (transaction row). split; [exact Ht|].
  set (std_amount := series_std sqrt (map DataFetcher.amount expenses)).
  destruct (reasons_nonempty row mean_amount
              match std_amount with
              | Fin s0 => if Qltb 0 s0
                          then (DataFetcher.amount (transaction row) - mean_amount) / s0
                          else 0
              | _ => 0
              end) as (R1 & R2 & R3 & _).
  cbn [describe anomaly_date anomaly_amount anomaly_category anomaly_description reason].
  rewrite <- Hdow.
  repeat split; try assumption; try (apply R3; assumption).
  - intros D H. destruct (R3 H) as [[E|E] _]; rewrite E in D; discriminate D.
  - apply severity_needs_excess.
Qed.

End DetectionFacts.

Section DetectionWitnesses.
Import Py Ordering AnomalyDetection Samples DetectionSamples.
Open Scope Q_scope.

(** A month of meals and one splurge: one anomaly among 31 expenses. *)
Lemma anomalies_are_ranked_and_counted_witness :
  exists st,
    statistics (detect_anomalies sqrt_milli flag_large month_with_splurge 90 (1 # 10))
    = Some st /\
    anomalies_detected st = 1%Z /\ total_transactions st = 31%Z.
Proof.
  assert (Hok : success (detect_anomalies sqrt_milli flag_large month_with_splurge 90
                           (1 # 10)) = true)
    by (vm_compute; reflexivity).
  destruct (anomalies_are_ranked_and_counted sqrt_milli flag_large month_with_splurge 90
              (1 # 10) Hok) as (st & Hst & _ & Ha & Ht & _).
  exists st. split; [exact Hst|]. split.
  - rewrite Ha. vm_compute. reflexivity.
  - rewrite Ht. reflexivity.
Defined.

(** The splurge is listed, with a reason. *)
Lemma anomaly_explanations_witness :
  exists a,
    In a (anomalies (detect_anomalies sqrt_milli flag_large month_with_splurge 90 (1 # 10)))
    /\ anomaly_amount a = round2 500 /\ reason a <> [].
Proof.
  pose (listed := anomalies (detect_anomalies sqrt_milli flag_large month_with_splurge 90
                               (1 # 10))).
  pose (a := hd {| anomaly_date := ""; anomaly_amount := 0; anomaly_category := "";
                   anomaly_description := ""; anomaly_score := 0;
                   severity := severity_low; reason := [] |} listed).
  assert (Hin : In a listed) by (vm_compute; left; reflexivity).
  exists a. split; [exact Hin|].
  destruct (anomaly_explanations sqrt_milli flag_large month_with_splurge 90 (1 # 10) a Hin)
    as (t & _ & _ & _ & _ & _ & Hreason & _).
  split; [vm_compute; reflexivity|exact Hreason].
Defined.

End DetectionWitnesses.

(** ** Targeted insights about goals *)

Section GoalsContext.
Import Py SpecificInsights.
Open Scope Q_scope.

Variable sqrt : Q -> Q.
Variable strptime : string -> option Calendar.datetime.
Variable now : Calendar.datetime.
Variable generate_content : string -> result string.



End GoalsContext.

(** ** Goal advice and savings statistics *)

Section GoalAdvice.
Import Py Calendar GoalService.
Open Scope Q_scope.

Variable sqrt : Q -> Q.
Variable strptime : string -> option datetime.
Variable now : datetime.

(** Membership in the list of recommendations, text by text. *)
Lemma in_recommendations
    (monthly_contribution avg_savings remaining : Q) (months_required : pyfloat)
    (deadline : option string) (x : RecommendationText) :
  In x (_generate_recommendations strptime now monthly_contribution avg_savings remaining
          months_required deadline) ->
  (x = IncreaseContribution (round2 (avg_savings * 0.7)) /\
   monthly_contribution < avg_savings * 0.5) \/
  (x = TooAggressive /\ avg_savings * 1.5 < monthly_contribution) \/
  (exists needed, x = MeetDeadline needed) \/
  (x = Milestones /\ flt (Fin 24) months_required = true) \/
  (x = UnusedCapacity (round2 (avg_savings - monthly_contribution)) /\
   0 < avg_savings /\ monthly_contribution < avg_savings).
Proof.
  unfold _generate_recommendations. rewrite !in_app_iff.
  intros [H|[H|[H|[H|H]]]].
  - destruct (Qltb monthly_contribution _) eqn:E; [|destruct H].
    destruct H as [<-|[]]. left. split; [reflexivity|now apply Qltb_lt].
  - destruct (Qltb _ monthly_contribution) eqn:E; [|destruct H].
    destruct H as [<-|[]]. right; left. split; [reflexivity|now apply Qltb_lt].
  - right; right; left.
    destruct (truthy deadline) as [s|]; [|destruct H].
    destruct (strptime s) as [d|]; [|destruct H].
    destruct (flt _ months_required); [|destruct H].
    destruct (months_between now d =? 0)%Z; [destruct H|].
    destruct H as [<-|[]]. eauto.
  - destruct (flt (Fin 24) months_required) eqn:E; [|destruct H].
    destruct H as [<-|[]]. right; right; right; left. auto.
  - destruct (Qltb 0 avg_savings) eqn:E1; [|destruct H].
    destruct (Qltb monthly_contribution avg_savings) eqn:E2; [|destruct H].
    destruct H as [<-|[]]. right; right; right; right.
    split; [reflexivity|]. split; now apply Qltb_lt.
Qed.

(** The advice attached to a prediction does not contradict itself.  "Too
    aggressive" is never given together with "unused savings capacity",
    nor, when the average savings are not negative, together with the
    advice to increase the contribution.  The advice to increase is always
    accompanied by the unused capacity when the average savings are
    positive.  But a user whose average savings are negative is told that
    any contribution of zero or more is too aggressive. *)
Theorem advice_is_coherent
    (monthly_contribution avg_savings remaining : Q) (months_required : pyfloat)
    (deadline : option string) :
  let recs := _generate_recommendations strptime now monthly_contribution avg_savings
                remaining months_required deadline in
  (In TooAggressive recs -> forall c, ~ In (UnusedCapacity c) recs) /\
  (0 <= avg_savings -> In TooAggressive recs ->
   forall c, ~ In (IncreaseContribution c) recs) /\
  (0 < avg_savings ->
   forall c, In (IncreaseContribution c) recs -> exists u, In (UnusedCapacity u) recs) /\
  (avg_savings < 0 -> 0 <= monthly_contribution ->
   In TooAggressive recs /\
   (forall c, ~ In (IncreaseContribution c) recs) /\
   (forall c, ~ In (UnusedCapacity c) recs)).
Proof.
  intros recs.
  assert (Hin : forall x, In x recs -> _) by
    (intros x; apply (in_recommendations monthly_contribution avg_savings remaining
                        months_required deadline x)).
  assert (Haggr : avg_savings * 1.5 < monthly_contribution -> In TooAggressive recs).
  { intros H. unfold recs, _generate_recommendations. rewrite !in_app_iff.
    right; left. apply Qltb_lt in H. rewrite H. now left. }
  assert (Hunused : 0 < avg_savings -> monthly_contribution < avg_savings ->
                    exists u, In (UnusedCapacity u) recs).
  { intros H1 H2. exists (round2 (avg_savings - monthly_contribution)).
    unfold recs, _generate_recommendations. rewrite !in_app_iff.
    do 4 right. apply Qltb_lt in H1, H2. rewrite H1, H2. now left. }
  split; [|split; [|split]].
  - intros Ht c Hc.
    destruct (Hin _ Ht) as [[E _]|[[_ T]|[[? E]|[[E _]|[E _]]]]]; try discriminate E.
    destruct (Hin _ Hc) as [[E _]|[[E _]|[[? E]|[[E _]|[_ [U1 U2]]]]]]; try discriminate E.
    lra.
  - intros Havg Ht c Hc.
    destruct (Hin _ Ht) as [[E _]|[[_ T]|[[? E]|[[E _]|[E _]]]]]; try discriminate E.
    destruct (Hin _ Hc) as [[_ I]|[[E _]|[[? E]|[[E _]|[E _]]]]]; try discriminate E.
    lra.
  - intros Havg c Hc.
    destruct (Hin _ Hc) as [[_ I]|[[E _]|[[? E]|[[E _]|[E _]]]]]; try discriminate E.
    apply Hunused; lra.
  - intros Havg Hm. split; [apply Haggr; lra|]. split.
    + intros c Hc.
      destruct (Hin _ Hc) as [[_ I]|[[E _]|[[? E]|[[E _]|[E _]]]]]; try discriminate E.
      lra.
    + intros c Hc.
      destruct (Hin _ Hc) as [[E _]|[[E _]|[[? E]|[[E _]|[_ [U1 U2]]]]]];
        try discriminate E.
      lra.
Qed.

End GoalAdvice.

Section SavingsStatistics.
Import Py Calendar GoalService.
Open Scope Q_scope.

Variable sqrt : Q -> Q.
Hypothesis sqrt_nonneg : forall x, 0 <= sqrt x.

Lemma Qsum_difference {A} (f g : A -> Q) (l : list A) :
  Qsum (map (fun x => f x - g x) l) == Qsum (map f l) - Qsum (map g l).
Proof.
  induction l as [|x l IH]; cbn [map]; [reflexivity|].
  rewrite !Qsum_cons, IH. ring.
Qed.

Lemma mean_difference {A} (f g : A -> Q) (l : list A) :
  mean (map (fun x => f x - g x) l) == mean (map f l) - mean (map g l).
Proof.
  unfold mean. rewrite !length_map, Qsum_difference.
  unfold Qdiv. ring.
Qed.

(** The savings statistics of a non-empty history are coherent: up to the
    rounding to cents (at most 0.015 in all) the average savings are the
    average income minus the average expenses; at least one month is
    analysed; and the consistency score is either a number between 0 and
    100 or, with a single month and positive savings, not a number. *)
Theorem savings_statistics_are_coherent (df : DataFetcher.DataFrame) :
  DataFetcher.empty df = false ->
  let s := calculate_savings_rate sqrt df in
  Qabs (avg_monthly_savings s - (avg_monthly_income s - avg_monthly_expenses s))
  <= 0.015 /\
  (exists n, months_analyzed s = Some n /\ (1 <= n)%Z) /\
  (consistency_score s = NaN \/
   exists c, consistency_score s = Fin c /\ 0 <= c <= 100).
Proof.
  intros Hdf s.
  split; [|split].
  - unfold s, calculate_savings_rate. rewrite Hdf.
    cbn [avg_monthly_savings avg_monthly_income avg_monthly_expenses].
    set (stats := map (month_stat df) (unique (map DataFetcher.period_M df))).
    assert (E : mean (map savings stats) == mean (map income stats) - mean (map expenses stats)).
    { rewrite <- mean_difference. unfold stats. rewrite !map_map. cbn [month_stat savings income expenses].
      reflexivity. }
    pose proof (round2_error (mean (map savings stats))) as R1.
    pose proof (round2_error (mean (map income stats))) as R2.
    pose proof (round2_error (mean (map expenses stats))) as R3.
    apply Qabs_Qle_condition. split; lra.
  - unfold s, calculate_savings_rate. rewrite Hdf. cbn [months_analyzed].
    eexists. split; [reflexivity|].
    rewrite length_map. destruct df as [|t df']; [discriminate Hdf|].
    cbn [map unique unique_from existsb List.length]. lia.
  - unfold s, calculate_savings_rate. rewrite Hdf. cbn [consistency_score].
    set (stats := map (month_stat df) (unique (map DataFetcher.period_M df))).
    set (x := if Qltb 0 (mean (map savings stats))
              then fmul (npdiv (series_std sqrt (map savings stats))
                               (Fin (mean (map savings stats)))) (Fin 100)
              else Fin 100).
    assert (Hx : x = NaN \/ exists v, x = Fin v /\ 0 <= v).
    { unfold x. destruct (Qltb 0 _) eqn:A; [|right; exists 100; split; [reflexivity|lra]].
      apply Qltb_lt in A. unfold series_std.
      destruct (Nat.ltb _ 2).
      - left. unfold npdiv, fdiv. destruct (Qeq_bool _ 0); reflexivity.
      - right. unfold npdiv, fdiv.
        destruct (Qeq_bool (mean (map savings stats)) 0) eqn:Z.
        + apply Qeq_bool_eq in Z. lra.
        + cbn [fmul]. eexists. split; [reflexivity|].
          apply Qmult_le_0_compat; [|lra].
          apply Qle_shift_div_l; [exact A|]. rewrite Qmult_0_l. apply sqrt_nonneg. }
    destruct Hx as [->|(v & -> & Hv)]; [left; reflexivity|].
    right.
    assert (F : exists c, fround2 (fmax (fsub (Fin 100) (fmin (Fin v) (Fin 100))) (Fin 0))
                          = Fin c).
    { unfold fmin, fmax, fsub. cbn [flt fneg fadd].
      destruct (Qltb 100 v); cbn [flt fneg fadd];
        match goal with |- context [Qltb ?a 0] => destruct (Qltb a 0) end;
        cbn [fround2]; eauto. }
    destruct F as [c Hc]. exists c. split; [exact Hc|].
    apply (consistency_of_ratio (Fin v) c); [|exact Hc].
    intros w [= <-]. exact Hv.
Qed.

End SavingsStatistics.

Section SavingsStatisticsWitness.
Import Py Calendar GoalService Samples GoalSamples.
Open Scope Q_scope.

(** Forty days of income 100 and spending 50. *)
Lemma savings_statistics_are_coherent_witness :
  exists n, months_analyzed (calculate_savings_rate sqrt_milli (forty_days 50)) = Some n
            /\ (1 <= n)%Z.
Proof.
  assert (H : DataFetcher.empty (forty_days 50) = false) by reflexivity.
  exact (proj1 (proj2 (savings_statistics_are_coherent sqrt_milli sqrt_milli_nonneg
                         (forty_days 50) H))).
Defined.

End SavingsStatisticsWitness.
